(** * tsv: a wrapper over the csv module for reading and writing CSV/TSV

    Shallow embedding of [src/__init__.py] (class [tsv]) and the properties
    of its read and write contracts.

    Layout of the development:
    - Python values, exceptions and results;
    - the interface of the external csv module ([CsvLib]) and the classes
      [DictReader] / [DictWriter] of csv.py that are built on top of it;
    - the class [tsv] itself, method by method, in a state-and-exception
      monad over the session object, the file system and the csv reader;
    - a concrete csv library ([py_csv]) for the registered dialects, used to
      evaluate the model on concrete text;
    - the vocabulary of the statements, the lemmas and the theorems.

    Scope of the model. The keyword arguments are asdict, process_by and
    overwrite; the ones handed through to [open], [csv.reader] and
    [csv.writer] are left out. The disk holds regular files, named by their
    path, and opening one for writing always succeeds. Fields are strings;
    a mapping to write has string keys and values that are strings or
    [None]. [readlines] is a generator: it is run until it ends, and what
    it yields is collected (Python 3.7 or later, where a StopIteration that
    leaves a generator becomes a RuntimeError). *)

From Stdlib Require Import String Ascii List Bool Arith NArith Lia.
From stdpp Require Import base option list gmap strings.

(** ** Characters used by the dialects *)

Definition TAB : ascii := "009"%char.
Definition LF : ascii := "010"%char.
Definition CR : ascii := "013"%char.
Definition DQUOTE : ascii := "034"%char.
Definition COMMA : ascii := ","%char.
Definition NUL : ascii := "000"%char.

Definition tab : string := String TAB EmptyString.
Definition nl : string := String LF EmptyString.
Definition cr : string := String CR EmptyString.
Definition crnl : string := String CR (String LF EmptyString).

(** ** Exceptions and results *)

(** The five messages of the wrapper's own exception class [Error]. *)
Inductive tsv_error :=
| BothSources      (* You must provide filename or text only! *)
| NoSource         (* You did not provide filename or text! *)
| EmptyFile        (* Absolutely empty file - no data lines! *)
| BadHeaders       (* Inappropriate headers format! *)
| NoFirstLine.     (* After header detection from rows= first_line has no data! *)

Inductive exc :=
| Error (k : tsv_error)
| FileNotFoundError (path : option string)
| FileExistsError (path : option string)
| TypeError (what : string)
| ValueError (what : string)
| CsvError (what : string)
| StopIteration
| RuntimeError (what : string)
| IndexError
| KeyError
| AttributeError (what : string)
| UserError (tag : string).

(** The argument of [sys.exit] in [readlines]:
    File read error: file {filename}, line {line_num}: {e} *)
Record exit_msg := {
  em_file : option string;
  em_line : nat;
  em_error : string
}.

(** A call returns, raises an exception, or terminates the process. *)
Inductive result (A : Type) :=
| Ok (a : A)
| Raise (e : exc)
| Exit (m : exit_msg).
Arguments Ok {A} a.
Arguments Raise {A} e.
Arguments Exit {A} m.

#[global] Instance tsv_error_eq_dec : EqDecision tsv_error.
Proof. solve_decision. Defined.
#[global] Instance exc_eq_dec : EqDecision exc.
Proof. solve_decision. Defined.

(** ** The csv module *)

(** What one call of [next] on a [csv.reader] produces: a record, or the
    exception [csv.Error]; [ev_lines] is the number of source lines the call
    pulled from the stream and [ev_chars] the number of characters in them. *)
Inductive read_out :=
| Fields (l : list string)
| Malformed (what : string).

Record event := {
  ev_lines : nat;
  ev_chars : nat;
  ev_out : read_out
}.

(** What [csv.writer.writerow] hands to the stream for a list of fields. *)
Inductive write_out :=
| Line (s : string)
| Unwritable (what : string).

(** The part of the csv module implemented in C and its dialect registry.
    [csv_records d universal s] lists what the successive calls of [next]
    yield on a stream holding [s]; [universal] tells how the stream splits
    lines (a file opened with newline='' ends lines at LF, CR and CR LF, an
    [io.StringIO] at LF only). *)
Class CsvLib := {
  Dialect : Type;
  get_dialect : string -> option Dialect;
  csv_records : Dialect -> bool -> string -> list event;
  csv_writerow : Dialect -> list string -> write_out
}.

(** ** Rows *)

(** A mapping with string keys, in insertion order; a value is a string or
    [None] (the [restval] of a short row). *)
Definition pydict := list (string * option string).

Fixpoint dict_set (k : string) (v : option string) (d : pydict) : pydict :=
  match d with
  | [] => [(k, v)]
  | (k', v') :: d' =>
      if decide (k = k') then (k', v) :: d' else (k', v') :: dict_set k v d'
  end.

Fixpoint dict_get (k : string) (d : pydict) : option (option string) :=
  match d with
  | [] => None
  | (k', v) :: d' => if decide (k = k') then Some v else dict_get k d'
  end.

Definition dict_keys (d : pydict) : list string := map fst d.

(** [dict(zip(keys, values))] *)
Definition dict_zip (keys values : list string) : pydict :=
  fold_left (fun d kv => dict_set (fst kv) (Some (snd kv)) d) (combine keys values) [].

(** A row produced by reading: a list of fields ([csv.reader]) or the mapping
    built by [DictReader]; [rest] is the entry under the key [None]
    ([restkey]) that receives the fields beyond the last field name. *)
Inductive row :=
| RList (l : list string)
| RDict (named : pydict) (rest : option (list string)).

(** A row handed to [writelines]: a sequence of strings, a mapping whose keys
    are strings, or [None] (the initial value of [first_line]). *)
Inductive wrow :=
| WList (l : list string)
| WDict (d : pydict)
| WNone.

(** The argument [rows]: a list or tuple, or a generator, given by the
    elements it still has to yield and the way it ends after them. *)
Inductive rows :=
| RowsList (l : list wrow)
| RowsGen (items : list wrow) (fin : result unit).

Definition is_generator (r : rows) : bool :=
  match r with RowsGen _ _ => true | RowsList _ => false end.

(** Truth value of a row, as [not headers] and [not first_line] test it. *)
Definition row_truthy (r : row) : bool :=
  match r with
  | RList [] => false
  | RDict [] None => false
  | _ => true
  end.

Definition wrow_truthy (r : wrow) : bool :=
  match r with
  | WList [] | WDict [] | WNone => false
  | _ => true
  end.

(** [bool(x)] for a list of names or [None]. *)
Definition names_truthy (h : option (list string)) : bool :=
  match h with
  | Some (_ :: _) => true
  | _ => false
  end.

(** ** csv.py: the row built by [DictReader.__next__] *)

Definition dict_row (fieldnames r : list string) : row :=
  let d := dict_zip fieldnames r in
  let lf := length fieldnames in
  let lr := length r in
  if lf <? lr then RDict d (Some (drop lf r))
  else if lr <? lf then
    RDict (fold_left (fun d k => dict_set k None d) (drop lr fieldnames) d) None
  else RDict d None.

(** ** In-memory streams *)

Record StringIO := {
  sio_value : string;
  sio_pos : nat
}.

(** The slices [s[:n]] and [s[n:]]. *)
Fixpoint str_take (n : nat) (s : string) : string :=
  match n, s with
  | S k, String c s' => String c (str_take k s')
  | _, _ => EmptyString
  end.

Fixpoint str_drop (n : nat) (s : string) : string :=
  match n, s with
  | S k, String c s' => str_drop k s'
  | _, _ => s
  end.

Fixpoint nuls (n : nat) : string :=
  match n with 0 => EmptyString | S k => String NUL (nuls k) end.

(** [io.StringIO.write]: overwrite from the current position, extending the
    buffer as needed (with NUL characters when the position is beyond the
    end); writing the empty string does nothing. *)
Definition sio_write (io : StringIO) (s : string) : StringIO :=
  let v := sio_value io in
  let p := sio_pos io in
  match s with
  | EmptyString => io
  | _ =>
      {| sio_value := str_take p v +:+ nuls (p - String.length v) +:+ s
                      +:+ str_drop (p + String.length s) v;
         sio_pos := p + String.length s |}
  end.

(** ** Construction parameters *)

(** The value passed as [text]: a [str], an [io.StringIO], or anything else
    (of which only the truth value matters). *)
Inductive text_arg :=
| TextStr (s : string)
| TextIO (io : StringIO)
| TextOther (truthy : bool).

Definition str_truthy (s : string) : bool :=
  match s with EmptyString => false | _ => true end.

Definition filename_truthy (f : option string) : bool :=
  match f with Some s => str_truthy s | None => false end.

Definition dialect_truthy (d : option string) : bool :=
  match d with Some s => str_truthy s | None => false end.

Definition text_truthy (t : option text_arg) : bool :=
  match t with
  | Some (TextStr s) => str_truthy s
  | Some (TextIO _) => true
  | Some (TextOther b) => b
  | None => false
  end.

Definition headers_hook := option (list string) -> result (option (list string)).

Definition DETECT_READ_BYTES_NUM : nat := 1024.

(** ** The session object and the state of a call *)

Section Model.
Context {csv : CsvLib}.

(** [self.dialect]: the name given at construction or the dialect object the
    sniffer returned. *)
Inductive dialect_ref :=
| DName (name : string)
| DObj (d : Dialect).

(** The attributes of a [tsv] instance. The attribute [file] is
    [Path(self.filename)], set together with [filename]: the path of the file
    is the file name, and [filename] stands for both. *)
Record tsv := {
  filename : option string;
  file_is_exists : bool;
  text : option StringIO;
  dialect : dialect_ref;
  headers : option (list string);
  headers_is_first_line : bool;
  headers_process_by : option headers_hook
}.

Definition set_headers (h : option (list string)) (s : tsv) : tsv :=
  {| filename := filename s; file_is_exists := file_is_exists s;
     text := text s; dialect := dialect s; headers := h;
     headers_is_first_line := headers_is_first_line s;
     headers_process_by := headers_process_by s |}.

Definition set_text (t : option StringIO) (s : tsv) : tsv :=
  {| filename := filename s; file_is_exists := file_is_exists s;
     text := t; dialect := dialect s; headers := headers s;
     headers_is_first_line := headers_is_first_line s;
     headers_process_by := headers_process_by s |}.

Definition set_dialect (d : dialect_ref) (s : tsv) : tsv :=
  {| filename := filename s; file_is_exists := file_is_exists s;
     text := text s; dialect := d; headers := headers s;
     headers_is_first_line := headers_is_first_line s;
     headers_process_by := headers_process_by s |}.

(** The stream [open] yields: [self.text] or the opened file. *)
Inductive handle :=
| HText
| HFile (path : string).

Inductive open_mode := ModeR | ModeW.

(** A [csv.reader] object: what it will still produce and its [line_num]. *)
Record csv_reader := {
  rd_handle : handle;
  rd_events : list event;
  rd_line_num : nat
}.

(** The object [reader] yields: a [csv.reader], or a [csv.DictReader] with its
    attributes [_fieldnames], [line_num] and [reader]. *)
Inductive reader_obj :=
| ListReader (r : csv_reader)
| DictReader (fieldnames : option (list string)) (line_num : nat) (r : csv_reader).

(** The object [writer] yields: a [csv.writer], or a [csv.DictWriter] with its
    [fieldnames] ([restval] is the empty string, [extrasaction] is raise). *)
Inductive writer_obj :=
| ListWriter (h : handle) (d : Dialect)
| DictWriter (h : handle) (d : Dialect) (fieldnames : list string).

(** The objects a call works on: the session, the files on disk (path to
    contents), the reader bound by [with self.reader(...) as reader], and
    the rows [readlines] has yielded so far. *)
Record world := {
  w_self : tsv;
  w_disk : gmap string string;
  w_reader : option reader_obj;
  w_yield : list row
}.

Definition M (A : Type) : Type := world -> result A * world.

Definition ret {A} (a : A) : M A := fun w => (Ok a, w).
Definition raise {A} (e : exc) : M A := fun w => (Raise e, w).
Definition sys_exit {A} (m : exit_msg) : M A := fun w => (Exit m, w).

Definition bind {A B} (m : M A) (k : A -> M B) : M B :=
  fun w =>
    match m w with
    | (Ok a, w') => k a w'
    | (Raise e, w') => (Raise e, w')
    | (Exit x, w') => (Exit x, w')
    end.

Definition lift {A} (r : result A) : M A := fun w => (r, w).

Definition get_self : M tsv := fun w => (Ok (w_self w), w).

Definition modify_self (f : tsv -> tsv) : M unit :=
  fun w => (Ok tt, {| w_self := f (w_self w); w_disk := w_disk w;
                      w_reader := w_reader w; w_yield := w_yield w |}).

Definition get_disk : M (gmap string string) := fun w => (Ok (w_disk w), w).

Definition modify_disk (f : gmap string string -> gmap string string) : M unit :=
  fun w => (Ok tt, {| w_self := w_self w; w_disk := f (w_disk w);
                      w_reader := w_reader w; w_yield := w_yield w |}).

Definition set_reader (r : reader_obj) : M unit :=
  fun w => (Ok tt, {| w_self := w_self w; w_disk := w_disk w;
                      w_reader := Some r; w_yield := w_yield w |}).

Definition get_reader : M reader_obj :=
  fun w =>
    match w_reader w with
    | Some r => (Ok r, w)
    | None => (Raise (RuntimeError "reader is not bound"), w)
    end.

(** [yield line] *)
Definition yield (r : row) : M unit :=
  fun w => (Ok tt, {| w_self := w_self w; w_disk := w_disk w;
                      w_reader := w_reader w; w_yield := w_yield w ++ [r] |}).

End Model.

Declare Scope tsv_scope.
Delimit Scope tsv_scope with tsv.
Notation "x <- c1 ;; c2" := (bind c1 (fun x => c2))
  (at level 100, c1 at next level, right associativity) : tsv_scope.
Notation "c1 ;; c2" := (bind c1 (fun _ => c2))
  (at level 100, right associativity) : tsv_scope.
Local Open Scope tsv_scope.

(** ** Streams, [open] and the csv reader *)

Section Methods.
Context {csv : CsvLib}.

Definition try_except {A} (m : M A) (handler : exc -> option (M A)) : M A :=
  fun w =>
    match m w with
    | (Raise e, w') =>
        match handler e with
        | Some h => h w'
        | None => (Raise e, w')
        end
    | r => r
    end.

Definition has_headers (s : tsv) : bool := names_truthy (headers s).

Definition _check_file_exists : M unit :=
  s <- get_self ;;
  if file_is_exists s then ret tt else raise (FileNotFoundError (filename s)).

(** [Path.open]: reading needs the file to be there, writing creates or
    truncates it. *)
Definition path_open (mode : open_mode) (p : string) : M unit :=
  d <- get_disk ;;
  match mode with
  | ModeR =>
      match d !! p with
      | Some _ => ret tt
      | None => raise (FileNotFoundError (Some p))
      end
  | ModeW => modify_disk (fun d => <[p := EmptyString]> d)
  end.

(** The context manager [open]: a generator with one [yield] under
    [if self.text is not None] and one under [if self.filename is not None].
    When both are set the body runs on the text; leaving the block resumes
    the generator, which opens the file and yields a second time, and the
    context manager raises RuntimeError. An exception of the body is thrown
    into the generator at its [yield] and propagates. *)
Definition open {A} (mode : open_mode) (body : handle -> M A) : M A :=
  s <- get_self ;;
  match text s with
  | Some _ =>
      a <- body HText ;;
      match filename s with
      | None => ret a
      | Some p =>
          path_open mode p ;; raise (RuntimeError "generator didn't stop")
      end
  | None =>
      match filename s with
      | Some p => path_open mode p ;; body (HFile p)
      | None => raise (RuntimeError "generator didn't yield")
      end
  end.

Definition is_file (h : handle) : bool :=
  match h with HFile _ => true | HText => false end.

(** What is left to read on the stream. *)
Definition stream_content (h : handle) : M string :=
  match h with
  | HText =>
      s <- get_self ;;
      ret (match text s with
           | Some io => str_drop (sio_pos io) (sio_value io)
           | None => EmptyString
           end)
  | HFile p => d <- get_disk ;; ret (default EmptyString (d !! p))
  end.

Definition sio_seek (p : nat) (io : StringIO) : StringIO :=
  {| sio_value := sio_value io; sio_pos := p |}.

Definition stream_seek0 (h : handle) : M unit :=
  match h with
  | HText => modify_self (fun s => set_text (option_map (sio_seek 0) (text s)) s)
  | HFile _ => ret tt
  end.

Definition stream_advance (h : handle) (n : nat) : M unit :=
  match h with
  | HText =>
      modify_self
        (fun s => set_text (option_map (fun io => sio_seek (sio_pos io + n) io) (text s)) s)
  | HFile _ => ret tt
  end.

Definition stream_write (h : handle) (str : string) : M unit :=
  match h with
  | HText => modify_self (fun s => set_text (option_map (fun io => sio_write io str) (text s)) s)
  | HFile p => modify_disk (fun d => <[p := default EmptyString (d !! p) +:+ str]> d)
  end.

(** [csv.reader(f, dialect=self.dialect)] and [csv.writer] look the dialect
    up by name. *)
Definition resolve_dialect : M Dialect :=
  s <- get_self ;;
  match dialect s with
  | DObj d => ret d
  | DName n =>
      match get_dialect n with
      | Some d => ret d
      | None => raise (CsvError "unknown dialect")
      end
  end.

Definition inner (r : reader_obj) : csv_reader :=
  match r with ListReader c => c | DictReader _ _ c => c end.

Definition set_inner (c : csv_reader) (r : reader_obj) : reader_obj :=
  match r with
  | ListReader _ => ListReader c
  | DictReader f n _ => DictReader f n c
  end.

(** [reader.line_num] *)
Definition line_num_of (r : reader_obj) : nat :=
  match r with
  | ListReader c => rd_line_num c
  | DictReader _ n _ => n
  end.

Definition remaining : M nat :=
  r <- get_reader ;; ret (length (rd_events (inner r))).

(** [next] on the underlying [csv.reader]. *)
Definition csv_next : M (list string) :=
  r <- get_reader ;;
  let c := inner r in
  match rd_events c with
  | [] => raise StopIteration
  | e :: es =>
      set_reader (set_inner {| rd_handle := rd_handle c; rd_events := es;
                               rd_line_num := rd_line_num c + ev_lines e |} r) ;;
      stream_advance (rd_handle c) (ev_chars e) ;;
      match ev_out e with
      | Fields l => ret l
      | Malformed m => raise (CsvError m)
      end
  end.

(** The context manager [reader]. *)
Definition reader {A} (asdict : bool) (body : M A) : M A :=
  _check_file_exists ;;
  s <- get_self ;;
  let fieldnames := if asdict && has_headers s then headers s else None in
  open ModeR (fun h =>
    d <- resolve_dialect ;;
    content <- stream_content h ;;
    let c := {| rd_handle := h; rd_events := csv_records d (is_file h) content;
                rd_line_num := 0 |} in
    set_reader (if asdict then DictReader fieldnames 0 c else ListReader c) ;;
    body).

End Methods.

(** ** csv.py: [DictReader], and reading rows *)

Section Reading.
Context {csv : CsvLib}.

Definition fieldnames_of (r : reader_obj) : option (list string) :=
  match r with
  | ListReader _ => None
  | DictReader f _ _ => f
  end.

(** [reader.fieldnames = value] on a [DictReader] ([csv.reader] objects take
    no new attribute). *)
Definition fieldnames_setter (v : option (list string)) : M unit :=
  r <- get_reader ;;
  match r with
  | ListReader _ => raise (AttributeError "fieldnames")
  | DictReader _ n c => set_reader (DictReader v n c)
  end.

(** [self.line_num = self.reader.line_num] *)
Definition sync_line_num : M unit :=
  r <- get_reader ;;
  match r with
  | ListReader _ => ret tt
  | DictReader f _ c => set_reader (DictReader f (rd_line_num c) c)
  end.

(** The property [DictReader.fieldnames]: the first access reads a record of
    the stream as the field names; StopIteration is swallowed, csv.Error is
    not. *)
Definition fieldnames_getter : M (option (list string)) :=
  r <- get_reader ;;
  match r with
  | ListReader _ => raise (AttributeError "fieldnames")
  | DictReader f _ _ =>
      match f with
      | None =>
          try_except
            (l <- csv_next ;; fieldnames_setter (Some l))
            (fun e => match e with StopIteration => Some (ret tt) | _ => None end)
      | Some _ => ret tt
      end ;;
      sync_line_num ;;
      r' <- get_reader ;;
      ret (fieldnames_of r')
  end.

(** [getattr(reader, 'fieldnames', None)] *)
Definition getattr_fieldnames : M (option (list string)) :=
  r <- get_reader ;;
  match r with
  | ListReader _ => ret None
  | DictReader _ _ _ => fieldnames_getter
  end.

(** [while row == []: row = next(self.reader)]. Each turn consumes a record
    of the stream, so [fuel] above the number of records left is never used
    up. *)
Fixpoint skip_blank (fuel : nat) (l : list string) : M (list string) :=
  match l with
  | [] =>
      match fuel with
      | 0 => raise (RuntimeError "out of fuel")
      | S n => l' <- csv_next ;; skip_blank n l'
      end
  | _ => ret l
  end.

(** [next(reader)]: [csv.reader.__next__] or [DictReader.__next__]. *)
Definition reader_next : M row :=
  r <- get_reader ;;
  match r with
  | ListReader _ => l <- csv_next ;; ret (RList l)
  | DictReader _ n _ =>
      (if n =? 0 then fieldnames_getter ;; ret tt else ret tt) ;;
      l <- csv_next ;;
      sync_line_num ;;
      k <- remaining ;;
      l' <- skip_blank (S k) l ;;
      f <- fieldnames_getter ;;
      match f with
      | None => raise (TypeError "'NoneType' object is not iterable")
      | Some names => ret (dict_row names l')
      end
  end.

(** [while not headers: headers = next(reader)] *)
Fixpoint skip_empty (fuel : nat) : M row :=
  match fuel with
  | 0 => raise (RuntimeError "out of fuel")
  | S n => h <- reader_next ;; if row_truthy h then ret h else skip_empty n
  end.

Definition _detect_headers : M unit :=
  s <- get_self ;;
  if has_headers s then ret tt else
  if negb (headers_is_first_line s) then ret tt else
  fn <- getattr_fieldnames ;;
  if names_truthy fn then
    fn' <- fieldnames_getter ;; modify_self (set_headers fn')
  else
    k <- remaining ;;
    h <- skip_empty (S k) ;;
    (if row_truthy h then ret tt else raise (Error EmptyFile)) ;;
    match h with
    | RDict _ rest =>
        match rest with
        | Some l => modify_self (set_headers (Some l)) ;; fieldnames_setter (Some l)
        | None => raise KeyError
        end
    | RList l => modify_self (set_headers (Some l))
    end.

Definition _process_headers : M unit :=
  s <- get_self ;;
  match headers_process_by s with
  | None => ret tt
  | Some f =>
      h <- lift (f (headers s)) ;;
      modify_self (set_headers h) ;;
      rf <- getattr_fieldnames ;;
      if names_truthy rf then
        if decide (rf = h) then ret tt else fieldnames_setter h
      else ret tt
  end.

(** The callback [process_by(line, reader.line_num, self.filename)]; it
    returns the row to yield, or [None] to skip it. *)
Definition process_hook := row -> nat -> option string -> result (option row).

Record read_kwargs := {
  r_asdict : bool;
  r_process_by : option process_hook
}.

(** [for line in reader: ...]; StopIteration of [next(reader)] ends the loop. *)
Fixpoint read_loop (fuel : nat) (process_by : option process_hook) : M unit :=
  match fuel with
  | 0 => raise (RuntimeError "out of fuel")
  | S n =>
      nx <- try_except (line <- reader_next ;; ret (Some line))
              (fun e => match e with StopIteration => Some (ret None) | _ => None end) ;;
      match nx with
      | None => ret tt
      | Some line =>
          line' <- match process_by with
                   | Some f =>
                       r <- get_reader ;;
                       s <- get_self ;;
                       lift (f line (line_num_of r) (filename s))
                   | None => ret (Some line)
                   end ;;
          match line' with
          | None => ret tt
          | Some l => yield l
          end ;;
          read_loop n process_by
      end
  end.

(** [except csv.Error as e: sys.exit(...)] *)
Definition exit_on_csv_error (m : M unit) : M unit :=
  try_except m
    (fun e =>
       match e with
       | CsvError what =>
           Some (s <- get_self ;;
                 r <- get_reader ;;
                 sys_exit {| em_file := filename s; em_line := line_num_of r;
                             em_error := what |})
       | _ => None
       end).

(** A StopIteration that leaves a generator body reaches the caller as a
    RuntimeError (PEP 479). *)
Definition generator_body {A} (m : M A) : M A :=
  try_except m
    (fun e =>
       match e with
       | StopIteration => Some (raise (RuntimeError "generator raised StopIteration"))
       | _ => None
       end).

(** [readlines], run until the generator ends; the rows it yields are
    collected in [w_yield]. *)
Definition readlines (kw : read_kwargs) : M unit :=
  generator_body
    (reader (r_asdict kw)
       (_detect_headers ;;
        _process_headers ;;
        k <- remaining ;;
        exit_on_csv_error (read_loop (S k) (r_process_by kw)))).

End Reading.

(** ** csv.py: [DictWriter], and writing rows *)

Section Writing.
Context {csv : CsvLib}.

Record write_kwargs := {
  kw_overwrite : bool;
  kw_asdict : bool
}.

(** The context manager [writer]. [csv.DictWriter] has a required argument
    [fieldnames], which is passed only when the headers are set. *)
Definition writer {A} (kw : write_kwargs) (body : writer_obj -> M A) : M A :=
  s <- get_self ;;
  if file_is_exists s && negb (kw_overwrite kw) then
    raise (FileExistsError (filename s))
  else
    open ModeW (fun h =>
      if kw_asdict kw then
        if has_headers s then
          d <- resolve_dialect ;; body (DictWriter h d (default [] (headers s)))
        else raise (TypeError "missing required argument 'fieldnames'")
      else
        d <- resolve_dialect ;; body (ListWriter h d)).

(** [csv.writer.writerow] on a list of fields: one [write] on the stream. *)
Definition emit_record (h : handle) (d : Dialect) (fields : list string) : M unit :=
  match csv_writerow d fields with
  | Line s => stream_write h s
  | Unwritable what => raise (CsvError what)
  end.

(** [DictWriter._dict_to_list]: keys outside [fieldnames] are refused, a
    missing key gives [restval]; the writer prints [None] as the empty
    string. *)
Definition dict_to_list (fieldnames : list string) (rowdict : pydict)
  : result (list string) :=
  match List.filter (fun k => negb (existsb (String.eqb k) fieldnames))
                    (dict_keys rowdict) with
  | _ :: _ => Raise (ValueError "dict contains fields not in fieldnames")
  | [] =>
      Ok (map (fun k => match dict_get k rowdict with
                        | Some (Some v) => v
                        | Some None => EmptyString
                        | None => EmptyString
                        end) fieldnames)
  end.

(** [writer.writerow(line)]. A [csv.writer] iterates its argument (the keys,
    for a mapping); a [DictWriter] calls [keys()] on it. *)
Definition writerow (w : writer_obj) (r : wrow) : M unit :=
  match w with
  | ListWriter h d =>
      match r with
      | WList l => emit_record h d l
      | WDict rd => emit_record h d (dict_keys rd)
      | WNone => raise (CsvError "iterable expected, not NoneType")
      end
  | DictWriter h d fieldnames =>
      match r with
      | WDict rd => l <- lift (dict_to_list fieldnames rd) ;; emit_record h d l
      | WList _ => raise (AttributeError "'list' object has no attribute 'keys'")
      | WNone => raise (AttributeError "'NoneType' object has no attribute 'keys'")
      end
  end.

Definition is_dict_writer (w : writer_obj) : bool :=
  match w with DictWriter _ _ _ => true | ListWriter _ _ => false end.

(** [DictWriter.writeheader] *)
Definition writeheader (w : writer_obj) : M unit :=
  match w with
  | DictWriter _ _ fieldnames => writerow w (WDict (dict_zip fieldnames fieldnames))
  | ListWriter _ _ => raise (AttributeError "writeheader")
  end.

Definition _detect_headers_before_write (rs : rows) : M (list string * wrow * rows) :=
  p <- match rs with
       | RowsGen (x :: xs) fin => ret (x, RowsGen xs fin)
       | RowsGen [] fin => lift fin ;; raise StopIteration
       | RowsList (x :: _) => ret (x, rs)
       | RowsList [] => raise IndexError
       end ;;
  match fst p with
  | WDict d => ret (dict_keys d, fst p, snd p)
  | _ => raise (ValueError "Can not detect headers because 1st row not a dict, supply headers manually")
  end.

(** [for line in rows: writer.writerow(line)] *)
Fixpoint write_each (w : writer_obj) (l : list wrow) : M unit :=
  match l with
  | [] => ret tt
  | r :: l' => writerow w r ;; write_each w l'
  end.

Definition write_rows (w : writer_obj) (rs : rows) : M unit :=
  match rs with
  | RowsList l => write_each w l
  | RowsGen items fin => write_each w items ;; lift fin
  end.

(** [writelines]; the result is [self.text.getvalue()] for an in-memory
    destination and [None] for a file. *)
Definition writelines (rs : rows) (kw : write_kwargs) : M (option string) :=
  s <- get_self ;;
  p <- (if kw_asdict kw && negb (has_headers s) then
          q <- _detect_headers_before_write rs ;;
          modify_self (set_headers (Some (fst (fst q)))) ;;
          (if wrow_truthy (snd (fst q)) then ret tt else raise (Error NoFirstLine)) ;;
          ret (snd (fst q), snd q)
        else ret (WNone, rs)) ;;
  let first_line := fst p in
  writer kw (fun w =>
    s' <- get_self ;;
    (if negb (has_headers s') && is_dict_writer w then
       raise (CsvError "No headers set - write prohibited! Try to set asdict=True")
     else ret tt) ;;
    (if has_headers s' && is_dict_writer w then writeheader w else ret tt) ;;
    (if is_generator rs then writerow w first_line else ret tt) ;;
    write_rows w (snd p)) ;;
  s'' <- get_self ;;
  ret (option_map sio_value (text s'')).

End Writing.

(** ** Construction *)

Section Construction.
Context {csv : CsvLib}.

(** [csv.Sniffer().sniff]; [None] stands for csv.Error (no dialect found). *)
Variable sniff : string -> option Dialect.

Record init_args := {
  a_dialect : option string;
  a_filename : option string;
  a_text : option text_arg;
  a_headers : option (list string);
  a_headers_is_first_line : bool;
  a_headers_process_by : option headers_hook
}.

Definition start (s : tsv) (disk : gmap string string) : world :=
  {| w_self := s; w_disk := disk; w_reader := None; w_yield := [] |}.

Definition _detect_dialect : M Dialect :=
  d <- open ModeR (fun h =>
         stream_seek0 h ;;
         content <- stream_content h ;;
         stream_advance h (min DETECT_READ_BYTES_NUM (String.length content)) ;;
         match sniff (str_take DETECT_READ_BYTES_NUM content) with
         | None => raise (CsvError "Could not determine delimiter")
         | Some d => stream_seek0 h ;; ret d
         end) ;;
  modify_self (set_dialect (DObj d)) ;;
  ret d.

Definition disk_exists (disk : gmap string string) (p : string) : bool :=
  match disk !! p with Some _ => true | None => false end.

(** The attributes set before the dialect is settled ([self.dialect] holds
    the argument, the header attributes do not exist yet). *)
Definition partial (a : init_args) (t : option StringIO) (e : bool) : tsv :=
  {| filename := a_filename a; file_is_exists := e;
     text := t; dialect := DName (default EmptyString (a_dialect a));
     headers := None; headers_is_first_line := true;
     headers_process_by := None |}.

(** The last three assignments of the constructor. *)
Definition finish (a : init_args) (s : tsv) : tsv :=
  {| filename := filename s; file_is_exists := file_is_exists s;
     text := text s; dialect := dialect s; headers := a_headers a;
     headers_is_first_line := a_headers_is_first_line a;
     headers_process_by := a_headers_process_by a |}.

(** [if not dialect: self.dialect = self._detect_dialect()] *)
Definition configure (a : init_args) (disk : gmap string string) (s : tsv)
  : result tsv :=
  if dialect_truthy (a_dialect a) then Ok (finish a s)
  else match _detect_dialect (start s disk) with
       | (Ok _, w) => Ok (finish a (w_self w))
       | (Raise e, _) => Raise e
       | (Exit m, _) => Exit m
       end.

Definition __init__ (a : init_args) (disk : gmap string string) : result tsv :=
  if filename_truthy (a_filename a) && text_truthy (a_text a) then
    Raise (Error BothSources)
  else if bool_decide (a_filename a = None) && bool_decide (a_text a = None) then
    Raise (Error NoSource)
  else
    let exists0 := match a_filename a with
                   | Some p => disk_exists disk p
                   | None => false
                   end in
    match a_text a with
    | None => configure a disk (partial a None exists0)
    | Some (TextStr str) =>
        configure a disk (partial a (Some {| sio_value := str; sio_pos := 0 |}) true)
    | Some (TextIO io) => configure a disk (partial a (Some io) true)
    | Some (TextOther _) =>
        Raise (TypeError "text= value must contain str or io.StringIO instance")
    end.

End Construction.

(** ** A csv library for the registered dialects

    The reader and the writer of the csv module for the dialects excel,
    excel-tab and unix: the quote character is the double quote, written
    twice inside a quoted field; there is no escape character, initial
    spaces are kept, and the reader is not strict. *)

Module PyCsv.

Inductive quoting := QUOTE_MINIMAL | QUOTE_ALL.

Record params := {
  delimiter : ascii;
  quotechar : ascii;
  lineterminator : string;
  quote_mode : quoting
}.

Definition excel : params :=
  {| delimiter := COMMA; quotechar := DQUOTE; lineterminator := crnl;
     quote_mode := QUOTE_MINIMAL |}.

Definition excel_tab : params :=
  {| delimiter := TAB; quotechar := DQUOTE; lineterminator := crnl;
     quote_mode := QUOTE_MINIMAL |}.

Definition unix_dialect : params :=
  {| delimiter := COMMA; quotechar := DQUOTE; lineterminator := nl;
     quote_mode := QUOTE_ALL |}.

Definition registry (name : string) : option params :=
  if String.eqb name "excel" then Some excel
  else if String.eqb name "excel-tab" then Some excel_tab
  else if String.eqb name "unix" then Some unix_dialect
  else None.

(** The lines a text stream iterates over, line ends kept. *)
Fixpoint py_lines (universal : bool) (cur : list ascii) (s : list ascii)
  : list (list ascii) :=
  match s with
  | [] => match cur with [] => [] | _ => [rev cur] end
  | c :: s' =>
      if Ascii.eqb c LF then rev (c :: cur) :: py_lines universal [] s'
      else if universal && Ascii.eqb c CR then
        match s' with
        | c2 :: s'' =>
            if Ascii.eqb c2 LF then rev (c2 :: c :: cur) :: py_lines universal [] s''
            else rev (c :: cur) :: py_lines universal [] s'
        | [] => rev (c :: cur) :: py_lines universal [] s'
        end
      else py_lines universal (c :: cur) s'
  end.

(** The states of the reader of _csv.c (those without an escape character). *)
Inductive pstate :=
| START_RECORD
| START_FIELD
| IN_FIELD
| IN_QUOTED_FIELD
| QUOTE_IN_QUOTED_FIELD
| EAT_CRNL.

(** [p_fields] and [p_field] are kept in reverse order. *)
Record parser := {
  p_state : pstate;
  p_fields : list string;
  p_field : list ascii
}.

Definition parse_reset : parser :=
  {| p_state := START_RECORD; p_fields := []; p_field := [] |}.

Definition set_state (st : pstate) (p : parser) : parser :=
  {| p_state := st; p_fields := p_fields p; p_field := p_field p |}.

Definition parse_save_field (p : parser) : parser :=
  {| p_state := p_state p;
     p_fields := string_of_list_ascii (rev (p_field p)) :: p_fields p;
     p_field := [] |}.

Definition field_limit : N := 131072%N.

Definition parse_add_char (c : ascii) (p : parser) : string + parser :=
  if (field_limit <=? N.of_nat (length (p_field p)))%N then
    inl "field larger than field limit (131072)"%string
  else inr {| p_state := p_state p; p_fields := p_fields p; p_field := c :: p_field p |}.

Definition is_eol (c : option ascii) : bool :=
  match c with
  | None => true
  | Some a => Ascii.eqb a LF || Ascii.eqb a CR
  end.

(** After the end of a line: back to START_RECORD at the end of the line
    object ([None]), EAT_CRNL on a line-end character. *)
Definition after_eol (c : option ascii) : pstate :=
  match c with None => START_RECORD | Some _ => EAT_CRNL end.

Definition start_field (d : params) (c : option ascii) (p : parser) : string + parser :=
  if is_eol c then inr (set_state (after_eol c) (parse_save_field p))
  else match c with
       | None => inr p
       | Some a =>
           if Ascii.eqb a (quotechar d) then inr (set_state IN_QUOTED_FIELD p)
           else if Ascii.eqb a (delimiter d) then inr (parse_save_field p)
           else parse_add_char a (set_state IN_FIELD p)
       end.

(** [parse_process_char]; [None] is the call made at the end of each line. *)
Definition parse_process_char (d : params) (c : option ascii) (p : parser)
  : string + parser :=
  match p_state p with
  | START_RECORD =>
      match c with
      | None => inr p
      | Some a =>
          if Ascii.eqb a LF || Ascii.eqb a CR then inr (set_state EAT_CRNL p)
          else start_field d c (set_state START_FIELD p)
      end
  | START_FIELD => start_field d c p
  | IN_FIELD =>
      if is_eol c then inr (set_state (after_eol c) (parse_save_field p))
      else match c with
           | None => inr p
           | Some a =>
               if Ascii.eqb a (delimiter d)
               then inr (set_state START_FIELD (parse_save_field p))
               else parse_add_char a p
           end
  | IN_QUOTED_FIELD =>
      match c with
      | None => inr p
      | Some a =>
          if Ascii.eqb a (quotechar d) then inr (set_state QUOTE_IN_QUOTED_FIELD p)
          else parse_add_char a p
      end
  | QUOTE_IN_QUOTED_FIELD =>
      match c with
      | None => inr (set_state START_RECORD (parse_save_field p))
      | Some a =>
          if Ascii.eqb a (quotechar d) then parse_add_char a (set_state IN_QUOTED_FIELD p)
          else if Ascii.eqb a (delimiter d)
          then inr (set_state START_FIELD (parse_save_field p))
          else if is_eol c then inr (set_state EAT_CRNL (parse_save_field p))
          else parse_add_char a (set_state IN_FIELD p)
      end
  | EAT_CRNL =>
      match c with
      | None => inr (set_state START_RECORD p)
      | Some a =>
          if Ascii.eqb a LF || Ascii.eqb a CR then inr p
          else inl "new-line character seen in unquoted field - do you need to open the file in universal-newline mode?"%string
      end
  end.

(** The characters of one line, then the end-of-line call. *)
Fixpoint feed_line (d : params) (l : list ascii) (p : parser) : string + parser :=
  match l with
  | [] => parse_process_char d None p
  | c :: l' =>
      if Ascii.eqb c NUL then inl "line contains NUL"%string
      else match parse_process_char d (Some c) p with
           | inl e => inl e
           | inr p' => feed_line d l' p'
           end
  end.

(** At the end of the stream: [field_len != 0 || state == IN_QUOTED_FIELD]. *)
Definition pending (p : parser) : bool :=
  match p_field p, p_state p with
  | _ :: _, _ => true
  | [], IN_QUOTED_FIELD => true
  | [], _ => false
  end.

(** [Reader_iternext], call after call: a record is complete when a line ends
    in the state START_RECORD; at the end of the stream a pending quoted
    field closes the last record. [n] lines holding [k] characters have been
    pulled for the record being read. *)
Fixpoint records_from (d : params) (lines : list (list ascii)) (p : parser)
    (n k : nat) : list event :=
  match lines with
  | [] =>
      if pending p then
        [{| ev_lines := n; ev_chars := k;
            ev_out := Fields (rev (p_fields (parse_save_field p))) |}]
      else []
  | l :: ls =>
      match feed_line d l p with
      | inl e =>
          {| ev_lines := S n; ev_chars := k + length l; ev_out := Malformed e |}
          :: records_from d ls parse_reset 0 0
      | inr p' =>
          match p_state p' with
          | START_RECORD =>
              {| ev_lines := S n; ev_chars := k + length l;
                 ev_out := Fields (rev (p_fields p')) |}
              :: records_from d ls parse_reset 0 0
          | _ => records_from d ls p' (S n) (k + length l)
          end
      end
  end.

Definition records (d : params) (universal : bool) (s : string) : list event :=
  records_from d (py_lines universal [] (list_ascii_of_string s)) parse_reset 0 0.

(** The writer: a field is quoted when the dialect quotes all fields or when
    it holds the delimiter, the quote character or a character of the line
    terminator; a record made of one empty field is written as two quotes. *)
Definition special (d : params) (c : ascii) : bool :=
  Ascii.eqb c (delimiter d) || Ascii.eqb c (quotechar d)
  || existsb (Ascii.eqb c) (list_ascii_of_string (lineterminator d)).

Definition join_append (d : params) (first : bool) (field : list ascii) : list ascii :=
  let quoted := match quote_mode d with
                | QUOTE_ALL => true
                | QUOTE_MINIMAL => existsb (special d) field
                end in
  let body := flat_map (fun c => if Ascii.eqb c (quotechar d) then [c; c] else [c]) field in
  (if first then [] else [delimiter d])
  ++ (if quoted then quotechar d :: body ++ [quotechar d] else body).

Fixpoint join_fields (d : params) (first : bool) (fields : list (list ascii))
  : list ascii :=
  match fields with
  | [] => []
  | f :: fs => join_append d first f ++ join_fields d false fs
  end.

Definition writerow (d : params) (fields : list string) : write_out :=
  let rec := join_fields d true (map list_ascii_of_string fields) in
  let rec' := match fields, rec with
              | _ :: _, [] => [quotechar d; quotechar d]
              | _, _ => rec
              end in
  Line (string_of_list_ascii (rec' ++ list_ascii_of_string (lineterminator d))).

End PyCsv.

Definition py_csv : CsvLib :=
  {| Dialect := PyCsv.params;
     get_dialect := PyCsv.registry;
     csv_records := PyCsv.records;
     csv_writerow := PyCsv.writerow |}.

(** ** Running the model on concrete input *)

(** [join sep parts] *)
Fixpoint join (sep : string) (parts : list string) : string :=
  match parts with
  | [] => EmptyString
  | [x] => x
  | x :: rest => x +:+ sep +:+ join sep rest
  end.

(** The text of the module docstring: two lines of four tab-separated
    fields, separated by a line feed. *)
Definition tsv_source : string :=
  join nl [join tab ["base"; "params"; "basekey1"; "basevalue1"];
           join tab ["base"; "params"; "basekey2"; "basevalue2"]]%string.

(** [tsv(text=s)]: every other parameter at its default. *)
Definition text_args (s : string) : init_args :=
  {| a_dialect := Some "excel-tab"%string; a_filename := None;
     a_text := Some (TextStr s); a_headers := None;
     a_headers_is_first_line := true; a_headers_process_by := None |}.

(** [tsv(filename=p)]: every other parameter at its default. *)
Definition file_args (p : string) : init_args :=
  {| a_dialect := Some "excel-tab"%string; a_filename := Some p;
     a_text := None; a_headers := None;
     a_headers_is_first_line := true; a_headers_process_by := None |}.

Definition with_first_line (b : bool) (a : init_args) : init_args :=
  {| a_dialect := a_dialect a; a_filename := a_filename a; a_text := a_text a;
     a_headers := a_headers a; a_headers_is_first_line := b;
     a_headers_process_by := a_headers_process_by a |}.

Definition with_text (t : option text_arg) (a : init_args) : init_args :=
  {| a_dialect := a_dialect a; a_filename := a_filename a; a_text := t;
     a_headers := a_headers a;
     a_headers_is_first_line := a_headers_is_first_line a;
     a_headers_process_by := a_headers_process_by a |}.

(** No sniffer is consulted when a dialect is named. *)
Definition no_sniff {csv : CsvLib} : string -> option Dialect := fun _ => None.

(** What a caller observes when it drains [readlines]: how the generator
    ends, the rows it yielded, and the headers of the session afterwards. *)
Definition read_all {csv : CsvLib} (kw : read_kwargs) (s : tsv)
    (disk : gmap string string) : result unit * list row * option (list string) :=
  let (r, w) := readlines kw (start s disk) in
  (r, w_yield w, headers (w_self w)).

(** What a caller observes of a call of [writelines]: the result, the
    in-memory buffer and the disk afterwards. *)
Definition write_all {csv : CsvLib} (rs : rows) (kw : write_kwargs) (s : tsv)
    (disk : gmap string string)
  : result (option string) * option string * gmap string string :=
  let (r, w) := writelines rs kw (start s disk) in
  (r, option_map sio_value (text (w_self w)), w_disk w).

(** A session of the concrete library with the dialect excel-tab. *)
Definition py_session (f : option string) (t : option StringIO) (e : bool)
    (h : option (list string)) (first : bool) : @tsv py_csv :=
  {| filename := f; file_is_exists := e; text := t;
     dialect := DName "excel-tab"; headers := h;
     headers_is_first_line := first; headers_process_by := None |}.

(** The session [tsv(text=c)] and the session [tsv(filename=p)] for a file
    that is there. *)
Definition text_tsv (c : string) : @tsv py_csv :=
  py_session None (Some {| sio_value := c; sio_pos := 0 |}) true None true.

Definition file_tsv (p : string) : @tsv py_csv :=
  py_session (Some p) None true None true.

Definition overwrite_list : write_kwargs := {| kw_overwrite := true; kw_asdict := false |}.
Definition overwrite_dict : write_kwargs := {| kw_overwrite := true; kw_asdict := true |}.
Definition refuse_list : write_kwargs := {| kw_overwrite := false; kw_asdict := false |}.

(** A record as the dialect excel-tab writes it. *)
Definition tab_line (fields : list string) : string := join tab fields +:+ crnl.

(** A disk holding one file. *)
Definition one_file (p c : string) : gmap string string := <[p := c]> ∅.

(** Two records in the form the dialect excel-tab writes them, and a text
    with a malformed first line (a carriage return inside an unquoted
    field). *)
Definition crlf_text : string :=
  tab_line ["a"; "b"]%string +:+ tab_line ["c"; "d"]%string.

Definition broken_text : string :=
  ("a" +:+ cr +:+ "b" +:+ nl +:+ "c" +:+ tab +:+ "d")%string.

(** [tsv(text=c, headers_is_first_line=False)] *)
Definition headerless_tsv (c : string) : @tsv py_csv :=
  py_session None (Some {| sio_value := c; sio_pos := 0 |}) true None false.

(** [tsv(filename=p, text='')] *)
Definition both_args (p : string) : init_args :=
  with_text (Some (TextStr EmptyString)) (file_args p).

(** The mapping of the specification's example, and a second row. *)
Definition row_ab : pydict := [("a", Some "1"); ("b", Some "2")]%string.
Definition row_ab' : pydict := [("a", Some "3"); ("b", Some "4")]%string.

Definition list_mode : read_kwargs := {| r_asdict := false; r_process_by := None |}.
Definition dict_mode : read_kwargs := {| r_asdict := true; r_process_by := None |}.

(** ** Vocabulary of the statements *)

Section Vocabulary.
Context {csv : CsvLib}.

(** A session over in-memory text only, and one over a file only. *)
Definition text_session (s : tsv) (io : StringIO) : Prop :=
  text s = Some io /\ filename s = None.

Definition file_session (s : tsv) (p : string) : Prop :=
  text s = None /\ filename s = Some p.

(** The world after [str] has been written to the stream [h], and after a
    list of strings has been written one by one. *)
Definition emit (h : handle) (str : string) (w : world) : world :=
  snd (stream_write h str w).

Definition emits (h : handle) (outs : list string) (w : world) : world :=
  fold_left (fun w str => emit h str w) outs w.

(** The lines the csv writer produces for a list of records, when it can
    write them all. *)
Fixpoint csv_lines (d : Dialect) (recs : list (list string)) : option (list string) :=
  match recs with
  | [] => Some []
  | r :: rs =>
      match csv_writerow d r, csv_lines d rs with
      | Line s, Some ls => Some (s :: ls)
      | _, _ => None
      end
  end.

Definition event_fields (e : event) : list string :=
  match ev_out e with Fields l => l | Malformed _ => [] end.

Definition well_formed (e : event) : bool :=
  match ev_out e with Fields _ => true | Malformed _ => false end.

(** The fields a [DictWriter] with the given field names writes for a
    mapping, and the condition under which it accepts the mapping. *)
Definition dict_values (names : list string) (d : pydict) : list string :=
  map (fun k => match dict_get k d with
                | Some (Some v) => v
                | _ => EmptyString
                end) names.

Definition fits (names : list string) (d : pydict) : bool :=
  forallb (fun k => existsb (String.eqb k) names) (dict_keys d).

(** A computation that ends with an exception. *)
Definition failing {A} (r : result A * world) : Prop :=
  exists e, fst r = Raise e.

(** The first element [writelines] looks at when it infers the headers. *)
Definition first_row (rs : rows) : option wrow :=
  match rs with
  | RowsList l => head l
  | RowsGen items _ => head items
  end.

(** The rows written by the loop [for line in rows] once header inference
    has looked at the first one. *)
Definition rows_after_inference (rs : rows) : list wrow :=
  match rs with
  | RowsList l => l
  | RowsGen items _ => tail items
  end.

(** The body of the [with] block of [writelines], for a given [first_line]. *)
Definition with_block (rs : rows) (first_line : wrow) (rest : rows)
    (w : writer_obj) : M unit :=
  bind get_self (fun s' =>
  bind (if negb (has_headers s') && is_dict_writer w then
          raise (CsvError "No headers set - write prohibited! Try to set asdict=True")
        else ret tt) (fun _ =>
  bind (if has_headers s' && is_dict_writer w then writeheader w else ret tt) (fun _ =>
  bind (if is_generator rs then writerow w first_line else ret tt) (fun _ =>
  write_rows w rest)))).

(** The last statement of [writelines]. *)
Definition getvalue : M (option string) :=
  bind get_self (fun s => ret (option_map sio_value (text s))).

(** The dialect object the csv module works with for a session. *)
Definition resolves (s : tsv) (d : Dialect) : Prop :=
  match dialect s with
  | DObj d' => d' = d
  | DName n => get_dialect n = Some d
  end.

(** The stream a session with a single destination writes to, and the world
    once that stream is open for writing. *)
Definition sink (s : tsv) : option handle :=
  match text s, filename s with
  | Some _, None => Some HText
  | None, Some p => Some (HFile p)
  | _, _ => None
  end.

Definition truncated (h : handle) (w : world) : world :=
  match h with
  | HText => w
  | HFile p => {| w_self := w_self w; w_disk := <[p := EmptyString]> (w_disk w);
                  w_reader := w_reader w; w_yield := w_yield w |}
  end.

Definition with_headers (h : option (list string)) (w : world) : world :=
  {| w_self := set_headers h (w_self w); w_disk := w_disk w;
     w_reader := w_reader w; w_yield := w_yield w |}.

(** All the elements of [rows], and whether iterating over them ends
    normally. *)
Definition all_rows (rs : rows) : list wrow :=
  match rs with
  | RowsList l => l
  | RowsGen items _ => items
  end.

Definition ends_normally (rs : rows) : Prop :=
  match rs with
  | RowsList _ => True
  | RowsGen _ fin => fin = Ok tt
  end.

(** The stream a session with a single source reads, with what is left to
    read on it. *)
Definition source (s : tsv) (disk : gmap string string) : option (handle * string) :=
  match text s, filename s with
  | Some io, None => Some (HText, str_drop (sio_pos io) (sio_value io))
  | None, Some p =>
      match disk !! p with
      | Some c => Some (HFile p, c)
      | None => None
      end
  | _, _ => None
  end.

(** What the loop of [readlines] makes of the records of a [csv.reader]
    whose [line_num] is [ln]: the rows it yields, and the line number and
    message of the first malformed record, if there is one. *)
Fixpoint drain (evs : list event) (ln : nat) : list row * option (nat * string) :=
  match evs with
  | [] => ([], None)
  | e :: es =>
      match ev_out e with
      | Fields l =>
          let (rs, x) := drain es (ln + ev_lines e) in (RList l :: rs, x)
      | Malformed what => ([], Some (ln + ev_lines e, what))
      end
  end.

(** What header detection finds on the records of a [csv.reader] whose
    [line_num] is [ln]: the end of the stream, a malformed record, or the
    first non-empty record, with the records after it and the line number
    reached. *)
Inductive header_search :=
| HStop
| HBad (what : string)
| HFound (names : list string) (rest : list event) (ln : nat).

Fixpoint find_header (evs : list event) (ln : nat) : header_search :=
  match evs with
  | [] => HStop
  | e :: es =>
      match ev_out e with
      | Malformed what => HBad what
      | Fields [] => find_header es (ln + ev_lines e)
      | Fields (x :: l) => HFound (x :: l) es (ln + ev_lines e)
      end
  end.

(** The world in which the body of [with self.reader(...)] starts. *)
Definition reading (r : reader_obj) (w : world) : world :=
  {| w_self := w_self w; w_disk := w_disk w; w_reader := Some r;
     w_yield := w_yield w |}.

(** A row that was read, as a row to write; the mapping with an entry
    under the key [None] has no counterpart among the rows to write. *)
Definition as_written (r : row) : option wrow :=
  match r with
  | RList l => Some (WList l)
  | RDict named None => Some (WDict named)
  | RDict _ (Some _) => None
  end.

(** [list(t.readlines())], as rows to write. *)
Definition materialise (yielded : list row) : option rows :=
  option_map RowsList (mapM as_written yielded).

(** The result of writing to [sw], with overwrite=True, the list of the
    rows read from [sr] in list mode. *)
Definition written_back (sr sw : tsv) (disk : gmap string string)
  : option (result (option string)) :=
  match materialise (snd (fst (read_all list_mode sr disk))) with
  | Some rs =>
      Some (fst (fst (write_all rs {| kw_overwrite := true; kw_asdict := false |}
                        sw disk)))
  | None => None
  end.

(** The same with the generator of [readlines] handed to [writelines] as
    it is. *)
Definition piped (sr sw : tsv) (disk : gmap string string)
  : option (result (option string)) :=
  match mapM as_written (snd (fst (read_all list_mode sr disk))) with
  | Some items =>
      Some (fst (fst (write_all (RowsGen items (fst (fst (read_all list_mode sr disk))))
                        {| kw_overwrite := true; kw_asdict := false |} sw disk)))
  | None => None
  end.

(** A computation that never raises the wrapper's own [Error]. *)
Definition never_error {A} (m : M A) : Prop :=
  forall w k, fst (m w) <> Raise (Error k).

(** What dialect detection leaves untouched in the session. *)
Definition same_source (s s' : tsv) : Prop :=
  filename s' = filename s
  /\ file_is_exists s' = file_is_exists s
  /\ headers s' = headers s
  /\ (text s' = None <-> text s = None)
  /\ headers_is_first_line s' = headers_is_first_line s
  /\ headers_process_by s' = headers_process_by s.

Definition keeps {A} (m : M A) : Prop :=
  forall w, same_source (w_self w) (w_self (snd (m w))).

(** [s.1] written repeatedly into a buffer. *)
Definition sio_writes (io : StringIO) (outs : list string) : StringIO :=
  fold_left sio_write outs io.

(** [''.join(parts)] *)
Definition str_concat (parts : list string) : string :=
  fold_right String.append EmptyString parts.

(** *** Reading: what the statements about [readlines] are made of *)

(** The reader with which the body of [with self.reader(...)] starts. *)
Definition fresh_reader (asdict : bool) (s : tsv) (h : handle)
    (d : Dialect) (content : string) : reader_obj :=
  let c := {| rd_handle := h; rd_events := csv_records d (is_file h) content;
              rd_line_num := 0 |} in
  if asdict then DictReader (if has_headers s then headers s else None) 0 c
  else ListReader c.

(** A record without fields: what the csv reader makes of an empty line. *)
Definition blank (e : event) : bool :=
  match ev_out e with Fields [] => true | _ => false end.

Definition nonblank (l : list string) : bool :=
  match l with [] => false | _ :: _ => true end.

(** The rows a [csv.reader] makes of well-formed records. *)
Definition list_rows (evs : list event) : list row :=
  map (fun e => RList (event_fields e)) evs.

(** The rows a [DictReader] with the given field names makes of well-formed
    records: the records without fields are skipped. *)
Definition dict_rows (names : list string) (evs : list event) : list row :=
  map (dict_row names) (List.filter nonblank (map event_fields evs)).

(** The number of source lines a list of records spans. *)
Definition lines_of (evs : list event) : nat :=
  fold_right (fun e n => ev_lines e + n) 0 evs.

(** A row callback that never fails, given by the function it computes. *)
Definition total_hook (g : row -> nat -> option string -> option row) : process_hook :=
  fun r n p => Ok (g r n p).

(** The rows the loop of [readlines] yields from the records of a
    [csv.reader] whose [line_num] is [ln], with the row callback [g] called
    for the file name [fname]. *)
Fixpoint processed (g : row -> nat -> option string -> option row)
    (fname : option string) (evs : list event) (ln : nat) : list row :=
  match evs with
  | [] => []
  | e :: es =>
      match g (RList (event_fields e)) (ln + ev_lines e) fname with
      | Some r => r :: processed g fname es (ln + ev_lines e)
      | None => processed g fname es (ln + ev_lines e)
      end
  end.

(** [DictReader.__next__] after the test on [line_num]. *)
Definition dict_next_tail : M row :=
  bind csv_next (fun l =>
  bind sync_line_num (fun _ =>
  bind remaining (fun k =>
  bind (skip_blank (S k) l) (fun l' =>
  bind fieldnames_getter (fun f =>
  match f with
  | None => raise (TypeError "'NoneType' object is not iterable")
  | Some names => ret (dict_row names l')
  end))))).

(** The session object once [readlines] has been drained. *)
Definition session_after_read (kw : read_kwargs) (s : tsv)
    (disk : gmap string string) : tsv :=
  w_self (snd (readlines kw (start s disk))).

(** What reading leaves untouched in the session: everything but the
    headers and the position in the in-memory text. *)
Definition read_frame (s s' : tsv) : Prop :=
  filename s' = filename s /\ file_is_exists s' = file_is_exists s
  /\ dialect s' = dialect s
  /\ headers_is_first_line s' = headers_is_first_line s
  /\ headers_process_by s' = headers_process_by s
  /\ option_map sio_value (text s') = option_map sio_value (text s).

(** A computation that leaves the disk and the frame of the session as
    they are, and only adds to the rows yielded. *)
Definition reads_only {A} (m : M A) : Prop :=
  forall w,
    read_frame (w_self w) (w_self (snd (m w)))
    /\ w_disk (snd (m w)) = w_disk w
    /\ exists rows, w_yield (snd (m w)) = w_yield w ++ rows.

(** *** Writing: what the statements about [writelines] are made of *)

(** The buffer [v] once [written] has been written over it from the
    position [p]. *)
Definition overwritten (v : string) (p : nat) (written : string) : string :=
  str_take p v +:+ written +:+ str_drop (p + String.length written) v.

(** The first element of [rows] is a mapping with at least one key: header
    inference succeeds on it. *)
Definition inferable (rs : rows) : bool :=
  match first_row rs with
  | Some (WDict (_ :: _)) => true
  | _ => false
  end.

(** A mapping whose keys are exactly [names], in this order, and whose
    values are all strings. *)
Definition plain (names : list string) (m : pydict) : bool :=
  bool_decide (dict_keys m = names)
  && forallb (fun kv => match snd kv with Some _ => true | None => false end) m.

(** What writing leaves untouched in the session: everything but the
    headers and the contents of the in-memory text. *)
Definition write_frame (s s' : tsv) : Prop :=
  filename s' = filename s /\ file_is_exists s' = file_is_exists s
  /\ dialect s' = dialect s
  /\ headers_is_first_line s' = headers_is_first_line s
  /\ headers_process_by s' = headers_process_by s
  /\ (text s' = None <-> text s = None).

(** The stream [h] is one [open] yields for the session. *)
Definition own_handle (s : tsv) (h : handle) : Prop :=
  match h with
  | HText => True
  | HFile p => filename s = Some p
  end.

(** A computation on the stream [h] that leaves the frame of the session,
    the rows yielded and every file but the session's own as they are. *)
Definition writes_only {A} (h : handle) (m : M A) : Prop :=
  forall w, own_handle (w_self w) h ->
    write_frame (w_self w) (w_self (snd (m w)))
    /\ (forall q, filename (w_self w) <> Some q ->
          w_disk (snd (m w)) !! q = w_disk w !! q)
    /\ w_yield (snd (m w)) = w_yield w.

(** The stream a writer object writes to. *)
Definition writer_handle (x : writer_obj) : handle :=
  match x with ListWriter h _ => h | DictWriter h _ _ => h end.

(** *** Construction *)

(** The session the constructor builds once the dialect [dl] is settled. *)
Definition built (a : init_args) (t : option StringIO) (e : bool) (dl : dialect_ref)
  : tsv :=
  {| filename := a_filename a; file_is_exists := e; text := t; dialect := dl;
     headers := a_headers a; headers_is_first_line := a_headers_is_first_line a;
     headers_process_by := a_headers_process_by a |}.

End Vocabulary.

(** ** Further concrete input *)

(** A record as it stands in a text whose lines end with a line feed. *)
Definition lf_line (fields : list string) : string := join tab fields +:+ nl.

(** A text with an empty line before the header line and one between the
    data lines, and a text whose second line is malformed. *)
Definition padded_text : string :=
  nl +:+ lf_line ["a"; "b"] +:+ lf_line ["1"; "2"] +:+ nl +:+ lf_line ["3"; "4"].

Definition half_broken_text : string :=
  (lf_line ["c"; "d"] +:+ "a" +:+ cr +:+ "b" +:+ nl)%string.

(** A record read from one line of [chars] characters. *)
Definition fields_event (chars : nat) (fields : list string) : event :=
  {| ev_lines := 1; ev_chars := chars; ev_out := Fields fields |}.

Definition malformed_event (chars : nat) (what : string) : event :=
  {| ev_lines := 1; ev_chars := chars; ev_out := Malformed what |}.

(** The records of [padded_text] after its header line. *)
Definition padded_rest : list event :=
  [fields_event 4 ["1"; "2"]; fields_event 1 []; fields_event 4 ["3"; "4"]]%string.

Definition with_dialect (dl : option string) (a : init_args) : init_args :=
  {| a_dialect := dl; a_filename := a_filename a; a_text := a_text a;
     a_headers := a_headers a;
     a_headers_is_first_line := a_headers_is_first_line a;
     a_headers_process_by := a_headers_process_by a |}.

(** A sniffer that knows the tab and the comma. *)
Definition tab_sniff : string -> option PyCsv.params :=
  fun sample =>
    if existsb (Ascii.eqb TAB) (list_ascii_of_string sample) then Some PyCsv.excel_tab
    else if existsb (Ascii.eqb COMMA) (list_ascii_of_string sample) then Some PyCsv.excel
    else None.

(** [tsv(filename=p)] for a file that is not there, [tsv(text=c, headers=h)],
    [tsv(filename=p, text='')], and a session with a header callback. *)
Definition new_file_tsv (p : string) : @tsv py_csv :=
  py_session (Some p) None false None true.

Definition text_tsv_headers (c : string) (h : list string) : @tsv py_csv :=
  py_session None (Some {| sio_value := c; sio_pos := 0 |}) true (Some h) true.

Definition both_tsv (p : string) : @tsv py_csv :=
  py_session (Some p) (Some {| sio_value := EmptyString; sio_pos := 0 |}) true None true.

Definition with_header_callback (f : headers_hook) (s : @tsv py_csv) : @tsv py_csv :=
  {| filename := filename s; file_is_exists := file_is_exists s; text := text s;
     dialect := dialect s; headers := headers s;
     headers_is_first_line := headers_is_first_line s;
     headers_process_by := Some f |}.

(** A header callback that accepts the headers a, b and renames them, and a
    row callback that drops the rows without fields. *)
Definition rename_ab : headers_hook :=
  fun h =>
    if decide (h = Some ["a"; "b"]%string) then Ok (Some ["x"; "y"]%string)
    else Raise (ValueError "unexpected headers").

Definition drop_blank : row -> nat -> option string -> option row :=
  fun r _ _ => match r with RList [] => None | _ => Some r end.

(** A mapping with a key that is none of a and b, and the lines a
    mapping-mode write gives for the two rows of the example. *)
Definition row_c : pydict := [("c", Some "5")]%string.

Definition written_ab : list string :=
  [tab_line ["a"; "b"]; tab_line ["1"; "2"]; tab_line ["3"; "4"]]%string.

(** ** Strings and buffers *)

Lemma str_app_cons (c : ascii) (a b : string) :
  String c a +:+ b = String c (a +:+ b).
Proof. reflexivity. Qed.

Lemma str_app_nil_l (a : string) : EmptyString +:+ a = a.
Proof. reflexivity. Qed.

Lemma str_app_nil_r (a : string) : a +:+ EmptyString = a.
Proof.
  induction a as [|c a IH]; [reflexivity | now rewrite str_app_cons, IH].
Qed.

Lemma str_app_assoc (a b c : string) : (a +:+ b) +:+ c = a +:+ (b +:+ c).
Proof.
  induction a as [|x a IH]; [reflexivity | now rewrite !str_app_cons, IH].
Qed.

Lemma str_take_all (v : string) : str_take (String.length v) v = v.
Proof. induction v as [|c v IH]; simpl; [reflexivity | now rewrite IH]. Qed.

Lemma str_drop_past (v : string) (n : nat) :
  str_drop (String.length v + n) v = EmptyString.
Proof. induction v as [|c v IH]; simpl; [now destruct n | exact IH]. Qed.

Lemma str_length_app (a b : string) :
  String.length (a +:+ b) = String.length a + String.length b.
Proof.
  induction a as [|c a IH]; [reflexivity | rewrite str_app_cons; simpl; now rewrite IH].
Qed.

(** Writing at the end of a buffer appends. *)
Lemma sio_write_at_end (v str : string) :
  sio_write {| sio_value := v; sio_pos := String.length v |} str
  = {| sio_value := v +:+ str; sio_pos := String.length (v +:+ str) |}.
Proof.
  destruct str as [|c str].
  - simpl. now rewrite str_app_nil_r.
  - unfold sio_write; cbn [sio_value sio_pos].
    rewrite str_take_all, Nat.sub_diag, str_drop_past, str_length_app.
    cbn [nuls]. now rewrite str_app_nil_l, str_app_nil_r.
Qed.

Lemma sio_writes_at_end (outs : list string) (v : string) :
  sio_writes {| sio_value := v; sio_pos := String.length v |} outs
  = {| sio_value := v +:+ str_concat outs;
       sio_pos := String.length (v +:+ str_concat outs) |}.
Proof.
  revert v; induction outs as [|o outs IH]; intros v; simpl.
  - now rewrite str_app_nil_r.
  - unfold sio_writes in *; simpl.
    rewrite sio_write_at_end, IH, str_app_assoc. reflexivity.
Qed.

(** ** The monad and the context managers *)

Section MonadFacts.
Context {csv : CsvLib}.

Lemma bind_ok {A B} (m : M A) (k : A -> M B) w a w' :
  m w = (Ok a, w') -> bind m k w = k a w'.
Proof. intros H; unfold bind; now rewrite H. Qed.

Lemma bind_raise {A B} (m : M A) (k : A -> M B) w e w' :
  m w = (Raise e, w') -> bind m k w = (Raise e, w').
Proof. intros H; unfold bind; now rewrite H. Qed.

Lemma bind_exit {A B} (m : M A) (k : A -> M B) w x w' :
  m w = (Exit x, w') -> bind m k w = (Exit x, w').
Proof. intros H; unfold bind; now rewrite H. Qed.

Lemma bind_ret_r {A} (m : M A) w : bind m ret w = m w.
Proof. unfold bind, ret; destruct (m w) as [[a|e|x] w']; reflexivity. Qed.

Lemma bind_ext {A B} (m : M A) (k k' : A -> M B) :
  (forall a w, k a w = k' a w) -> forall w, bind m k w = bind m k' w.
Proof. intros H w; unfold bind; destruct (m w) as [[a|e|x] w']; auto. Qed.

Lemma bind_failing_l {A B} (m : M A) (k : A -> M B) w :
  failing (m w) -> failing (bind m k w).
Proof.
  intros [e He]; unfold bind; destruct (m w) as [[a|e'|x] w']; simpl in He;
    try discriminate; exists e'; reflexivity.
Qed.

Lemma bind_failing_r {A B} (m : M A) (k : A -> M B) w a w' :
  m w = (Ok a, w') -> failing (k a w') -> failing (bind m k w).
Proof. intros H Hk; now rewrite (bind_ok _ _ _ _ _ H). Qed.

Lemma raise_failing {A} e w : failing (@raise _ A e w).
Proof. exists e; reflexivity. Qed.

(** [open] and [writer], with the session read. *)
Lemma open_eq {A} mode (body : handle -> M A) w :
  open mode body w
  = match text (w_self w) with
    | Some _ =>
        bind (body HText) (fun a =>
          match filename (w_self w) with
          | None => ret a
          | Some p =>
              bind (path_open mode p)
                   (fun _ => raise (RuntimeError "generator didn't stop"))
          end) w
    | None =>
        match filename (w_self w) with
        | Some p => bind (path_open mode p) (fun _ => body (HFile p)) w
        | None => raise (RuntimeError "generator didn't yield") w
        end
    end.
Proof.
  unfold open, bind at 1, get_self.
  destruct (text (w_self w)); [reflexivity |].
  destruct (filename (w_self w)); reflexivity.
Qed.

Lemma writer_eq {A} kw (body : writer_obj -> M A) w :
  writer kw body w
  = if file_is_exists (w_self w) && negb (kw_overwrite kw) then
      (Raise (FileExistsError (filename (w_self w))), w)
    else
      open ModeW (fun h =>
        if kw_asdict kw then
          if has_headers (w_self w) then
            bind resolve_dialect
                 (fun d => body (DictWriter h d (default [] (headers (w_self w)))))
          else raise (TypeError "missing required argument 'fieldnames'")
        else bind resolve_dialect (fun d => body (ListWriter h d))) w.
Proof.
  unfold writer, bind at 1, get_self.
  destruct (file_is_exists (w_self w) && negb (kw_overwrite kw)); reflexivity.
Qed.

(** [open] on a session over text only runs the body on the text. *)
Lemma open_text {A} mode (body : handle -> M A) w io :
  text_session (w_self w) io -> open mode body w = body HText w.
Proof.
  intros [Ht Hf]. rewrite open_eq, Ht, Hf. apply bind_ret_r.
Qed.

(** [open] for writing on a session over a file only truncates the file
    and runs the body on it. *)
Lemma open_file_w {A} (body : handle -> M A) w p :
  file_session (w_self w) p ->
  open ModeW body w
  = body (HFile p) {| w_self := w_self w; w_disk := <[p := EmptyString]> (w_disk w);
                      w_reader := w_reader w; w_yield := w_yield w |}.
Proof.
  intros (Ht & Hf). now rewrite open_eq, Ht, Hf.
Qed.

(** [open] for reading on a session over a file that is there. *)
Lemma open_file_r {A} (body : handle -> M A) w p c :
  file_session (w_self w) p -> w_disk w !! p = Some c ->
  open ModeR body w = body (HFile p) w.
Proof.
  intros (Ht & Hf) Hc. rewrite open_eq, Ht, Hf.
  unfold path_open, bind, get_disk. now rewrite Hc.
Qed.

Lemma open_ext {A} mode (b b' : handle -> M A) :
  (forall h w, b h w = b' h w) -> forall w, open mode b w = open mode b' w.
Proof.
  intros H w. rewrite !open_eq.
  destruct (text (w_self w)).
  - unfold bind. rewrite H. reflexivity.
  - destruct (filename (w_self w)); try reflexivity.
    now apply bind_ext.
Qed.

Lemma path_open_ok mode p w :
  (exists w', path_open mode p w = (Ok tt, w')) \/ failing (path_open mode p w).
Proof.
  unfold path_open, bind, get_disk. destruct mode.
  - destruct (w_disk w !! p); [left; eexists; reflexivity | right; apply raise_failing].
  - left; eexists; reflexivity.
Qed.

(** A body that always raises makes the whole [with] block raise. *)
Lemma open_failing {A} mode (body : handle -> M A) w :
  (forall h w', failing (body h w')) -> failing (open mode body w).
Proof.
  intros H. rewrite open_eq.
  destruct (text (w_self w)).
  - apply bind_failing_l, H.
  - destruct (filename (w_self w)) as [p|]; try apply raise_failing.
    destruct (path_open_ok mode p w) as [[w' Hw] | Hf].
    + eapply bind_failing_r; [exact Hw | apply H].
    + now apply bind_failing_l.
Qed.

Lemma writer_ext {A} kw (b b' : writer_obj -> M A) :
  (forall x w, b x w = b' x w) -> forall w, writer kw b w = writer kw b' w.
Proof.
  intros H w. rewrite !writer_eq.
  destruct (file_is_exists (w_self w) && negb (kw_overwrite kw)); [reflexivity |].
  apply open_ext. intros h w1.
  destruct (kw_asdict kw); [destruct (has_headers (w_self w)); [|reflexivity] |];
    now apply bind_ext.
Qed.

Lemma resolve_dialect_cases w :
  (exists d, resolve_dialect w = (Ok d, w)) \/ failing (resolve_dialect w).
Proof.
  unfold resolve_dialect, bind, get_self.
  destruct (dialect (w_self w)) as [n | d].
  - destruct (get_dialect n); [left; eexists; reflexivity | right; apply raise_failing].
  - left; eexists; reflexivity.
Qed.

Lemma writer_failing {A} kw (body : writer_obj -> M A) w :
  (forall x w', failing (body x w')) -> failing (writer kw body w).
Proof.
  intros H. rewrite writer_eq.
  destruct (file_is_exists (w_self w) && negb (kw_overwrite kw));
    [exists (FileExistsError (filename (w_self w))); reflexivity |].
  apply open_failing. intros h w1.
  destruct (kw_asdict kw); [destruct (has_headers (w_self w)); [|apply raise_failing] |];
    (destruct (resolve_dialect_cases w1) as [[d Hd] | Hf];
     [eapply bind_failing_r; [exact Hd | apply H] | now apply bind_failing_l]).
Qed.

End MonadFacts.

(** ** Mappings *)

Lemma existsb_eqb_In (k : string) (l : list string) :
  existsb (String.eqb k) l = true <-> In k l.
Proof.
  rewrite existsb_exists. split.
  - intros (x & Hx & He). apply String.eqb_eq in He. now subst.
  - intros H. exists k. split; [exact H | apply String.eqb_refl].
Qed.

Lemma fits_spec (names : list string) (d : pydict) :
  fits names d = true <-> (forall k, In k (dict_keys d) -> In k names).
Proof.
  unfold fits. rewrite forallb_forall. split; intros H k Hk.
  - apply existsb_eqb_In, H, Hk.
  - apply existsb_eqb_In, H, Hk.
Qed.

Lemma fits_own_keys (d : pydict) : fits (dict_keys d) d = true.
Proof. apply fits_spec; auto. Qed.

Lemma dict_to_list_eq (names : list string) (d : pydict) :
  dict_to_list names d
  = if fits names d then Ok (dict_values names d)
    else Raise (ValueError "dict contains fields not in fieldnames").
Proof.
  unfold dict_to_list, fits, dict_values.
  induction (dict_keys d) as [|k ks IH]; [reflexivity |].
  simpl. destruct (existsb (String.eqb k) names); simpl; [exact IH | reflexivity].
Qed.

Lemma dict_get_set_eq k v d : dict_get k (dict_set k v d) = Some v.
Proof.
  induction d as [|[k' v'] d IH]; simpl.
  - now rewrite decide_True.
  - destruct (decide (k = k')) as [->|Hne]; simpl.
    + now rewrite decide_True.
    + now rewrite decide_False.
Qed.

Lemma dict_get_set_ne k k' v d :
  k <> k' -> dict_get k (dict_set k' v d) = dict_get k d.
Proof.
  intros Hne. induction d as [|[k2 v2] d IH]; simpl.
  - now rewrite decide_False.
  - destruct (decide (k' = k2)) as [->|Hne2]; simpl.
    + now rewrite !decide_False.
    + destruct (decide (k = k2)); [reflexivity | exact IH].
Qed.

Lemma dict_keys_get k d : In k (dict_keys d) <-> dict_get k d <> None.
Proof.
  induction d as [|[k' v'] d IH]; simpl.
  - split; [tauto | congruence].
  - destruct (decide (k = k')) as [->|Hne].
    + split; [congruence | auto].
    + rewrite <- IH. split; [intros [H|H]; [congruence | exact H] | auto].
Qed.

(** [dict(zip(names, names))] maps every name to itself and has no other
    key. *)
Lemma dict_zip_self_aux (l : list string) (acc : pydict) :
  (forall k v, dict_get k acc = Some v -> v = Some k) ->
  let d := fold_left (fun d kv => dict_set (fst kv) (Some (snd kv)) d) (combine l l) acc in
  (forall k v, dict_get k d = Some v -> v = Some k) /\
  (forall k, dict_get k d <> None <-> In k l \/ dict_get k acc <> None).
Proof.
  revert acc. induction l as [|x l IH]; intros acc Hacc; simpl.
  - split; [exact Hacc | intros k; tauto].
  - destruct (IH (dict_set x (Some x) acc)) as [H1 H2].
    + intros k v. destruct (decide (k = x)) as [->|Hne].
      * rewrite dict_get_set_eq. congruence.
      * rewrite dict_get_set_ne by exact Hne. apply Hacc.
    + split; [exact H1 |].
      intros k. rewrite H2. destruct (decide (k = x)) as [->|Hne].
      * rewrite dict_get_set_eq. split; [auto | intros _; right; congruence].
      * rewrite dict_get_set_ne by exact Hne.
        split; [intros [H|H]; auto | intros [[H|H]|H]; auto; congruence].
Qed.

Lemma dict_zip_self_get (names : list string) (k : string) :
  In k names -> dict_get k (dict_zip names names) = Some (Some k).
Proof.
  intros Hk. destruct (dict_zip_self_aux names []) as [H1 H2]; [discriminate |].
  destruct (dict_get k (dict_zip names names)) as [v|] eqn:E.
  - now rewrite (H1 _ _ E).
  - exfalso. apply (proj2 (H2 k)); [left; exact Hk | exact E].
Qed.

Lemma dict_zip_self_fits (names : list string) :
  fits names (dict_zip names names) = true.
Proof.
  apply fits_spec. intros k Hk. apply dict_keys_get in Hk.
  destruct (dict_zip_self_aux names []) as [_ H2]; [discriminate |].
  apply H2 in Hk. destruct Hk as [Hk|Hk]; [exact Hk | now elim Hk].
Qed.

Lemma dict_zip_self_values (names : list string) :
  dict_values names (dict_zip names names) = names.
Proof.
  unfold dict_values. transitivity (map (fun k : string => k) names).
  - apply map_ext_in. intros k Hk. now rewrite dict_zip_self_get.
  - apply map_id.
Qed.

(** A mapping without repeated keys is written with its own values, in the
    order of its keys. *)
Lemma dict_values_own (d : pydict) :
  NoDup (dict_keys d) ->
  dict_values (dict_keys d) d = map (fun kv => default EmptyString (snd kv)) d.
Proof.
  unfold dict_values, dict_keys. rewrite map_map.
  induction d as [|[k v] d IH]; intros Hnd; [reflexivity |].
  simpl in Hnd. apply NoDup_cons in Hnd as [Hk Hd]. simpl.
  rewrite decide_True by reflexivity. f_equal.
  rewrite <- IH by exact Hd. apply map_ext_in. intros [k' v'] Hin. simpl.
  rewrite decide_False; [reflexivity |].
  intros ->. apply Hk. apply list_elem_of_In. apply in_map_iff. now exists (k, v').
Qed.

(** ** Writing rows *)

Section WriteFacts.
Context {csv : CsvLib}.

Lemma stream_write_ok h str w : stream_write h str w = (Ok tt, emit h str w).
Proof. destruct h; reflexivity. Qed.

Lemma emit_record_line h d l str w :
  csv_writerow d l = Line str -> emit_record h d l w = (Ok tt, emit h str w).
Proof. intros H. unfold emit_record. rewrite H. apply stream_write_ok. Qed.

Lemma resolve_ok w d : resolves (w_self w) d -> resolve_dialect w = (Ok d, w).
Proof.
  unfold resolves, resolve_dialect, bind, get_self.
  destruct (dialect (w_self w)); [intros -> | intros ->]; reflexivity.
Qed.

Lemma open_w_sink {A} (body : handle -> M A) w h :
  sink (w_self w) = Some h -> open ModeW body w = body h (truncated h w).
Proof.
  unfold sink. intros H. rewrite open_eq.
  destruct (text (w_self w)) as [io|], (filename (w_self w)) as [p|];
    try discriminate; injection H as <-; simpl;
    try apply bind_ret_r; reflexivity.
Qed.

(** A [csv.writer] writes the records of a list of sequences one by one. *)
Lemma write_each_list h d recs outs w :
  csv_lines d recs = Some outs ->
  write_each (ListWriter h d) (map WList recs) w = (Ok tt, emits h outs w).
Proof.
  revert outs w. induction recs as [|r recs IH]; intros outs w H; simpl in *.
  - injection H as <-. reflexivity.
  - destruct (csv_writerow d r) as [str|] eqn:E; [|discriminate].
    destruct (csv_lines d recs) as [ls|]; [|discriminate].
    injection H as <-.
    rewrite (bind_ok _ _ _ _ _ (emit_record_line h d r str w E)).
    now rewrite (IH ls).
Qed.

(** A [DictWriter] writes, for each mapping it accepts, the values under
    its field names. *)
Lemma write_each_dict h d names ds outs w :
  forallb (fits names) ds = true ->
  csv_lines d (map (dict_values names) ds) = Some outs ->
  write_each (DictWriter h d names) (map WDict ds) w = (Ok tt, emits h outs w).
Proof.
  revert outs w. induction ds as [|r ds IH]; intros outs w Hf H; simpl in *.
  - injection H as <-. reflexivity.
  - apply andb_true_iff in Hf as [Hr Hf].
    destruct (csv_writerow d (dict_values names r)) as [str|] eqn:E; [|discriminate].
    destruct (csv_lines d (map (dict_values names) ds)) as [ls|]; [|discriminate].
    injection H as <-.
    unfold bind at 1, bind at 1, lift. rewrite dict_to_list_eq, Hr.
    rewrite (emit_record_line h d _ str w E).
    now rewrite (IH ls).
Qed.

Lemma writeheader_ok h d names str w :
  csv_writerow d names = Line str ->
  writeheader (DictWriter h d names) w = (Ok tt, emit h str w).
Proof.
  intros H. unfold writeheader, writerow, bind, lift.
  rewrite dict_to_list_eq, dict_zip_self_fits, dict_zip_self_values.
  now apply emit_record_line.
Qed.

(** Writing leaves the headers and the source of the session alone. *)
Lemma emit_self h str w :
  headers (w_self (emit h str w)) = headers (w_self w)
  /\ filename (w_self (emit h str w)) = filename (w_self w)
  /\ w_yield (emit h str w) = w_yield w.
Proof. destruct h; repeat split; reflexivity. Qed.

(** What has been written, seen from the buffer and from the disk. *)
Lemma emits_text outs w io :
  text (w_self w) = Some io ->
  text (w_self (emits HText outs w)) = Some (sio_writes io outs)
  /\ w_disk (emits HText outs w) = w_disk w.
Proof.
  revert w io. induction outs as [|o outs IH]; intros w io H; simpl.
  - now split.
  - unfold emits in *; simpl.
    destruct (IH (emit HText o w) (sio_write io o)) as [H1 H2].
    + simpl. now rewrite H.
    + split; [exact H1 | now rewrite H2].
Qed.

Lemma emits_file p outs w c :
  w_disk w !! p = Some c ->
  w_disk (emits (HFile p) outs w) = <[p := c +:+ str_concat outs]> (w_disk w)
  /\ w_self (emits (HFile p) outs w) = w_self w.
Proof.
  revert w c. induction outs as [|o outs IH]; intros w c H; simpl.
  - split; [|reflexivity]. rewrite str_app_nil_r. symmetry. now apply insert_id.
  - unfold emits in *; simpl.
    destruct (IH (emit (HFile p) o w) (c +:+ o)) as [H1 H2].
    + simpl. rewrite H. simpl. apply lookup_insert_eq.
    + split; [|exact H2]. rewrite H1. simpl. rewrite H. simpl.
      now rewrite insert_insert_eq, str_app_assoc.
Qed.

End WriteFacts.

(** ** [writelines] *)

Section WritelinesFacts.
Context {csv : CsvLib}.

Lemma bind_ret_l {A B} (a : A) (k : A -> M B) w : bind (ret a) k w = k a w.
Proof. reflexivity. Qed.

Lemma bind_get_self {B} (k : tsv -> M B) w : bind get_self k w = k (w_self w) w.
Proof. reflexivity. Qed.

Lemma bind_raise_l {A B} e (k : A -> M B) w : bind (raise e) k w = (Raise e, w).
Proof. reflexivity. Qed.

Lemma getvalue_eq w :
  getvalue w = (Ok (option_map sio_value (text (w_self w))), w).
Proof. reflexivity. Qed.

(** [writelines] when header inference is not triggered. *)
Lemma writelines_no_inference rs kw w :
  kw_asdict kw && negb (has_headers (w_self w)) = false ->
  writelines rs kw w
  = bind (writer kw (with_block rs WNone rs)) (fun _ => getvalue) w.
Proof.
  intros H. unfold writelines, bind at 1, get_self. rewrite H. reflexivity.
Qed.

(** [writelines] when header inference finds a non-empty mapping first. *)
Lemma writelines_inference rs m kw w :
  kw_asdict kw = true -> has_headers (w_self w) = false ->
  first_row rs = Some (WDict m) -> m <> [] ->
  writelines rs kw w
  = bind (writer kw (with_block rs (WDict m)
                       (match rs with
                        | RowsList _ => rs
                        | RowsGen items fin => RowsGen (tail items) fin
                        end)))
         (fun _ => getvalue) (with_headers (Some (dict_keys m)) w).
Proof.
  intros Ha Hh Hf Hm. unfold writelines, bind at 1, get_self. rewrite Ha, Hh.
  destruct rs as [[|x l] | [|x items] fin]; simpl in Hf; try discriminate;
    injection Hf as ->; destruct m; try congruence; reflexivity.
Qed.

Lemma with_block_list_rows recs h d outs w :
  csv_lines d recs = Some outs ->
  with_block (RowsList (map WList recs)) WNone (RowsList (map WList recs))
    (ListWriter h d) w
  = (Ok tt, emits h outs w).
Proof.
  intros Hl. unfold with_block. rewrite bind_get_self. simpl is_dict_writer.
  rewrite !andb_false_r, !bind_ret_l. simpl is_generator. cbv iota.
  rewrite bind_ret_l. simpl write_rows. now apply write_each_list.
Qed.

Lemma writelines_list_rows recs kw w h d outs :
  kw_asdict kw = false ->
  file_is_exists (w_self w) && negb (kw_overwrite kw) = false ->
  sink (w_self w) = Some h -> resolves (w_self w) d ->
  csv_lines d recs = Some outs ->
  writelines (RowsList (map WList recs)) kw w
  = getvalue (emits h outs (truncated h w)).
Proof.
  intros Ha He Hs Hd Hl.
  rewrite writelines_no_inference by (rewrite Ha; reflexivity).
  apply (bind_ok _ (fun _ => getvalue) w tt (emits h outs (truncated h w))).
  rewrite writer_eq, He, Ha, (open_w_sink _ _ h Hs).
  assert (Hd' : resolves (w_self (truncated h w)) d) by (destruct h; exact Hd).
  rewrite (bind_ok _ _ _ _ _ (resolve_ok _ _ Hd')).
  now apply with_block_list_rows.
Qed.

Lemma writerow_dict h d names m str w :
  fits names m = true -> csv_writerow d (dict_values names m) = Line str ->
  writerow (DictWriter h d names) (WDict m) w = (Ok tt, emit h str w).
Proof.
  intros Hf Hl. unfold writerow, bind, lift.
  rewrite dict_to_list_eq, Hf. now apply emit_record_line.
Qed.

Lemma with_block_inferred rs m ds h d outs w :
  has_headers (w_self w) = true ->
  all_rows rs = WDict m :: map WDict ds -> ends_normally rs ->
  forallb (fits (dict_keys m)) ds = true ->
  csv_lines d (dict_keys m :: map (dict_values (dict_keys m)) (m :: ds)) = Some outs ->
  with_block rs (WDict m)
    (match rs with
     | RowsList _ => rs
     | RowsGen items fin => RowsGen (tail items) fin
     end)
    (DictWriter h d (dict_keys m)) w
  = (Ok tt, emits h outs w).
Proof.
  intros Hk Hr Hn Hf Hl. simpl in Hl.
  destruct (csv_writerow d (dict_keys m)) as [hl|] eqn:Eh; [|discriminate].
  destruct (csv_writerow d (dict_values (dict_keys m) m)) as [fl|] eqn:Ef; [|discriminate].
  destruct (csv_lines d (map (dict_values (dict_keys m)) ds)) as [ls|] eqn:El;
    [|discriminate].
  injection Hl as <-.
  unfold with_block. rewrite bind_get_self, Hk. simpl is_dict_writer.
  simpl negb. simpl andb. cbv iota. rewrite bind_ret_l.
  rewrite (bind_ok _ _ _ _ _ (writeheader_ok h d _ hl _ Eh)).
  destruct rs as [l | items fin]; simpl in Hr, Hn; simpl is_generator; cbv iota.
  - rewrite bind_ret_l. subst l. simpl write_rows.
    change (WDict m :: map WDict ds) with (map WDict (m :: ds)).
    apply (write_each_dict h d (dict_keys m) (m :: ds) (fl :: ls)).
    + simpl. now rewrite fits_own_keys.
    + simpl. now rewrite Ef, El.
  - subst items fin.
    rewrite (bind_ok _ _ _ _ _ (writerow_dict h d _ m fl _ (fits_own_keys m) Ef)).
    simpl tail. simpl write_rows.
    rewrite (bind_ok _ _ _ _ _ (write_each_dict h d _ ds ls _ Hf El)).
    reflexivity.
Qed.

Lemma writelines_inferred rs m ds kw w h d outs :
  kw_asdict kw = true -> has_headers (w_self w) = false ->
  all_rows rs = WDict m :: map WDict ds -> m <> [] -> ends_normally rs ->
  file_is_exists (w_self w) && negb (kw_overwrite kw) = false ->
  sink (w_self w) = Some h -> resolves (w_self w) d ->
  forallb (fits (dict_keys m)) ds = true ->
  csv_lines d (dict_keys m :: map (dict_values (dict_keys m)) (m :: ds)) = Some outs ->
  writelines rs kw w
  = getvalue (emits h outs (truncated h (with_headers (Some (dict_keys m)) w))).
Proof.
  intros Ha Hh Hr Hm Hn He Hs Hd Hf Hl.
  rewrite (writelines_inference rs m) by
    (try assumption; destruct rs; simpl in *; now rewrite Hr).
  set (w1 := with_headers (Some (dict_keys m)) w).
  assert (Hk : has_headers (w_self w1) = true).
  { unfold has_headers; simpl. destruct m; [congruence | reflexivity]. }
  apply (bind_ok _ (fun _ => getvalue) w1 tt (emits h outs (truncated h w1))).
  rewrite writer_eq.
  change (file_is_exists (w_self w1)) with (file_is_exists (w_self w)).
  rewrite He, Ha, Hk.
  rewrite (open_w_sink _ _ h) by exact Hs.
  assert (Hd' : resolves (w_self (truncated h w1)) d) by (destruct h; exact Hd).
  rewrite (bind_ok _ _ _ _ _ (resolve_ok _ _ Hd')).
  change (default [] (headers (w_self w1))) with (dict_keys m).
  apply with_block_inferred with (ds := ds); try assumption.
  destruct h; exact Hk.
Qed.

End WritelinesFacts.

(** ** A generator handed to [writelines] without header inference *)

Section GeneratorFacts.
Context {csv : CsvLib}.

Lemma writerow_none_failing x w : failing (writerow x WNone w).
Proof. destruct x; apply raise_failing. Qed.

Lemma writerow_none_eq x w : exists e, writerow x WNone w = (Raise e, w).
Proof. destruct x; eexists; reflexivity. Qed.

Lemma emit_record_cases h d l w :
  (exists w', emit_record h d l w = (Ok tt, w')) \/ failing (emit_record h d l w).
Proof.
  unfold emit_record. destruct (csv_writerow d l).
  - left. rewrite stream_write_ok. eexists; reflexivity.
  - right. apply raise_failing.
Qed.

Lemma writeheader_cases x w :
  (exists w', writeheader x w = (Ok tt, w')) \/ failing (writeheader x w).
Proof.
  destruct x as [h d | h d names]; [right; apply raise_failing |].
  unfold writeheader, writerow, bind, lift.
  rewrite dict_to_list_eq, dict_zip_self_fits, dict_zip_self_values.
  destruct (emit_record_cases h d names w) as [[w' ->] | [e He]].
  - left; eexists; reflexivity.
  - right. destruct (emit_record h d names w) as [[a|e'|x] w']; simpl in He;
      try discriminate. exists e'; reflexivity.
Qed.

(** With a generator, the block always reaches [writer.writerow(first_line)]
    or fails before it; with [first_line = None] it fails there. *)
Lemma with_block_placeholder_failing items fin rest x w :
  failing (with_block (RowsGen items fin) WNone rest x w).
Proof.
  unfold with_block. rewrite bind_get_self.
  destruct (negb (has_headers (w_self w)) && is_dict_writer x);
    [apply raise_failing | rewrite bind_ret_l].
  destruct (has_headers (w_self w) && is_dict_writer x).
  - destruct (writeheader_cases x w) as [[w' Hw] | Hf].
    + eapply bind_failing_r; [exact Hw |]. apply bind_failing_l, writerow_none_failing.
    + now apply bind_failing_l.
  - rewrite bind_ret_l. apply bind_failing_l, writerow_none_failing.
Qed.

Lemma with_block_placeholder_ext items fin items' fin' x w :
  with_block (RowsGen items fin) WNone (RowsGen items fin) x w
  = with_block (RowsGen items' fin') WNone (RowsGen items' fin') x w.
Proof.
  unfold with_block. rewrite !bind_get_self.
  apply bind_ext. intros _ w1. apply bind_ext. intros _ w2. simpl is_generator.
  cbv iota. unfold bind.
  destruct (writerow_none_eq x w2) as [e ->]. reflexivity.
Qed.

End GeneratorFacts.

Section GeneratorContract.
Context {csv : CsvLib}.

(** C5. When [writelines] receives a generator and header inference has
    not consumed a first element (asdict is false, or the headers are
    already set), it still writes the placeholder [first_line = None] before
    iterating: the call ends with an exception, whatever the generator
    holds, and none of its rows is consumed or serialized (the outcome and
    the final state are those of any other generator). When the csv writer
    is reached in list mode, the exception is the one of
    [writer.writerow(None)]. *)
Theorem writelines_generator_placeholder (s : tsv) (disk : gmap string string)
    (items : list wrow) (fin : result unit) (kw : write_kwargs) :
  kw_asdict kw = false \/ has_headers s = true ->
  failing (writelines (RowsGen items fin) kw (start s disk))
  /\ (forall items' fin',
        writelines (RowsGen items' fin') kw (start s disk)
        = writelines (RowsGen items fin) kw (start s disk))
  /\ (forall h d,
        kw_asdict kw = false ->
        file_is_exists s && negb (kw_overwrite kw) = false ->
        sink s = Some h -> resolves s d ->
        writelines (RowsGen items fin) kw (start s disk)
        = (Raise (CsvError "iterable expected, not NoneType"),
           truncated h (start s disk))).
Proof.
  intros H.
  assert (Hc : kw_asdict kw && negb (has_headers (w_self (start s disk))) = false).
  { simpl. destruct H as [-> | ->]; [reflexivity | apply andb_false_r]. }
  split; [|split].
  - rewrite writelines_no_inference by exact Hc.
    apply bind_failing_l, writer_failing. intros x w'.
    apply with_block_placeholder_failing.
  - intros items' fin'. rewrite !writelines_no_inference by exact Hc.
    unfold bind. rewrite (writer_ext kw _ (with_block (RowsGen items fin) WNone
                                             (RowsGen items fin))).
    + reflexivity.
    + intros x w. apply with_block_placeholder_ext.
  - intros h d Ha He Hs Hd. rewrite writelines_no_inference by exact Hc.
    apply bind_raise. rewrite writer_eq. simpl w_self. rewrite He, Ha.
    rewrite (open_w_sink _ _ h) by exact Hs.
    assert (Hd' : resolves (w_self (truncated h (start s disk))) d)
      by (destruct h; exact Hd).
    rewrite (bind_ok _ _ _ _ _ (resolve_ok _ _ Hd')).
    unfold with_block. rewrite bind_get_self. simpl is_dict_writer.
    rewrite !andb_false_r, !bind_ret_l. reflexivity.
Qed.

End GeneratorContract.

(** ** Construction *)

Section InitFacts.
Context {csv : CsvLib}.
Variable sniff : string -> option Dialect.

Lemma same_source_refl s : same_source s s.
Proof. repeat split; auto. Qed.

Lemma same_source_trans s1 s2 s3 :
  same_source s1 s2 -> same_source s2 s3 -> same_source s1 s3.
Proof.
  intros (A1 & A3 & A4 & A5 & A6 & A7) (B1 & B3 & B4 & B5 & B6 & B7).
  repeat split; try congruence; tauto.
Qed.

Lemma keeps_bind {A B} (m : M A) (k : A -> M B) :
  keeps m -> (forall a, keeps (k a)) -> keeps (bind m k).
Proof.
  intros Hm Hk w. unfold bind. specialize (Hm w).
  destruct (m w) as [[a|e|x] w']; simpl in *; try exact Hm.
  eapply same_source_trans; [exact Hm | apply Hk].
Qed.

Lemma keeps_pure {A} (m : M A) : (forall w, snd (m w) = w) -> keeps m.
Proof. intros H w. rewrite H. apply same_source_refl. Qed.

Lemma keeps_modify_text (f : StringIO -> StringIO) :
  keeps (modify_self (fun s => set_text (option_map f (text s)) s)).
Proof.
  intros w. simpl. repeat split; auto; simpl;
    destruct (text (w_self w)); simpl; congruence.
Qed.

Lemma keeps_path_open mode p : keeps (path_open mode p).
Proof.
  intros w. unfold path_open, bind, get_disk.
  destruct mode; [destruct (w_disk w !! p) |]; apply same_source_refl.
Qed.

Lemma keeps_open {A} mode (body : handle -> M A) :
  (forall h, keeps (body h)) -> keeps (open mode body).
Proof.
  intros H w. rewrite open_eq.
  destruct (text (w_self w)).
  - apply keeps_bind; [apply H |]. intros a.
    destruct (filename (w_self w));
      try (apply keeps_pure; reflexivity).
    apply keeps_bind; [apply keeps_path_open | intros; apply keeps_pure; reflexivity].
  - destruct (filename (w_self w));
      try apply same_source_refl.
    apply keeps_bind; [apply keeps_path_open | intros; apply H].
Qed.

Lemma keeps_detect_dialect : keeps (_detect_dialect sniff).
Proof.
  unfold _detect_dialect. apply keeps_bind.
  - apply keeps_open. intros h.
    assert (Hseek : keeps (stream_seek0 h)).
    { destruct h; [apply keeps_modify_text | apply keeps_pure; reflexivity]. }
    apply keeps_bind; [exact Hseek | intros _].
    apply keeps_bind; [destruct h; apply keeps_pure; reflexivity | intros content].
    apply keeps_bind.
    { destruct h; [apply (keeps_modify_text (fun io => sio_seek _ io))
                  | apply keeps_pure; reflexivity]. }
    intros _. destruct (sniff _); [| apply keeps_pure; reflexivity].
    apply keeps_bind; [exact Hseek | intros; apply keeps_pure; reflexivity].
  - intros d. apply keeps_bind; [| intros; apply keeps_pure; reflexivity].
    intros w. simpl. repeat split; auto.
Qed.

(** The source attributes of a constructed session. *)
Lemma init_source (a : init_args) (disk : gmap string string) (s : tsv) :
  __init__ sniff a disk = Ok s ->
  filename s = a_filename a
  /\ headers s = a_headers a
  /\ headers_is_first_line s = a_headers_is_first_line a
  /\ headers_process_by s = a_headers_process_by a
  /\ match a_text a with
     | None => text s = None
                /\ file_is_exists s = match a_filename a with
                                      | Some p => disk_exists disk p
                                      | None => false
                                      end
     | Some _ => text s <> None /\ file_is_exists s = true
     end.
Proof.
  unfold __init__.
  destruct (filename_truthy (a_filename a) && text_truthy (a_text a)); [discriminate |].
  destruct (bool_decide (a_filename a = None) && bool_decide (a_text a = None));
    [discriminate |].
  assert (Hgen : forall t e s,
    configure sniff a disk (partial a t e) = Ok s ->
    filename s = a_filename a
    /\ headers s = a_headers a
    /\ headers_is_first_line s = a_headers_is_first_line a
    /\ headers_process_by s = a_headers_process_by a
    /\ (text s = None <-> t = None) /\ file_is_exists s = e).
  { intros t e s0. unfold configure. destruct (dialect_truthy (a_dialect a)).
    - intros [= <-]. simpl. tauto.
    - pose proof (keeps_detect_dialect (start (partial a t e) disk)) as Hk.
      destruct (_detect_dialect sniff (start (partial a t e) disk)) as [[d|e0|x] w];
        try discriminate.
      intros [= <-]. simpl in *. destruct Hk as (K1 & K3 & K4 & K5 & _).
      repeat split; try assumption; tauto. }
  destruct (a_text a) as [[str | io | b] |]; try discriminate; intros Hs;
    apply Hgen in Hs; destruct Hs as (H1 & H3 & H4 & H5 & H6 & H7);
    repeat split; try assumption.
  - intros Hn. apply H6 in Hn. discriminate.
  - intros Hn. apply H6 in Hn. discriminate.
  - now apply H6.
Qed.

End InitFacts.

(** ** The overwrite gate *)

Section GateFacts.
Context {csv : CsvLib}.

Lemma writer_refused {A} kw (body : writer_obj -> M A) w :
  file_is_exists (w_self w) && negb (kw_overwrite kw) = true ->
  writer kw body w = (Raise (FileExistsError (filename (w_self w))), w).
Proof. intros H. now rewrite writer_eq, H. Qed.

(** A refused write: the call does not return normally and the
    destination is left as it was; the exception is [FileExistsError]
    unless header inference has failed before. *)
Lemma writelines_refused rs kw w :
  file_is_exists (w_self w) && negb (kw_overwrite kw) = true ->
  (forall v, fst (writelines rs kw w) <> Ok v)
  /\ text (w_self (snd (writelines rs kw w))) = text (w_self w)
  /\ w_disk (snd (writelines rs kw w)) = w_disk w
  /\ (kw_asdict kw && negb (has_headers (w_self w)) = false ->
      writelines rs kw w = (Raise (FileExistsError (filename (w_self w))), w))
  /\ (forall m, first_row rs = Some (WDict m) -> m <> [] ->
      fst (writelines rs kw w) = Raise (FileExistsError (filename (w_self w)))).
Proof.
  intros He.
  destruct (kw_asdict kw && negb (has_headers (w_self w))) eqn:Hc.
  - apply andb_true_iff in Hc as [Ha Hh]. apply negb_true_iff in Hh.
    assert (Hin : forall m, first_row rs = Some (WDict m) -> m <> [] ->
              writelines rs kw w
              = (Raise (FileExistsError (filename (w_self w))),
                 with_headers (Some (dict_keys m)) w)).
    { intros m Hf Hm. rewrite (writelines_inference rs m) by assumption.
      apply bind_raise. now rewrite writer_refused. }
    destruct (first_row rs) as [[l | [|kv m] |] |] eqn:Hf.
    5: { destruct rs as [[|x l] | [|x items] fin]; simpl in Hf; try discriminate;
         unfold writelines; rewrite bind_get_self, Ha, Hh; simpl;
         try destruct fin; simpl; repeat split; intros; congruence. }
    3: { rewrite (Hin (kv :: m)) by congruence. simpl.
         repeat split; intros; congruence. }
    all: destruct rs as [[|x l'] | [|x items] fin]; simpl in Hf; try discriminate;
      injection Hf as ->; unfold writelines; rewrite bind_get_self, Ha, Hh; simpl;
      repeat split; intros; congruence.
  - rewrite writelines_no_inference by exact Hc.
    rewrite (bind_raise _ _ _ _ _ (writer_refused kw _ w He)). simpl.
    repeat split; intros; congruence.
Qed.

End GateFacts.

(** ** What the caller observes of a write *)

Section Observations.
Context {csv : CsvLib}.

Lemma sink_text s io : text_session s io -> sink s = Some HText.
Proof. intros [Ht Hf]. unfold sink. now rewrite Ht, Hf. Qed.

Lemma sink_file s p : file_session s p -> sink s = Some (HFile p).
Proof. intros (Ht & Hf). unfold sink. now rewrite Ht, Hf. Qed.

(** Lines written to an in-memory destination: they are in the buffer, they
    are the result of the call, and the disk is untouched. *)
Lemma observe_text rs kw s disk io outs (w : world) :
  text (w_self w) = Some io -> w_disk w = disk ->
  writelines rs kw (start s disk) = getvalue (emits HText outs w) ->
  write_all rs kw s disk
  = (Ok (Some (sio_value (sio_writes io outs))),
     Some (sio_value (sio_writes io outs)), disk).
Proof.
  intros Ht Hd Hw. unfold write_all. rewrite Hw, getvalue_eq.
  destruct (emits_text outs w io Ht) as [H1 H2]. now rewrite H1, H2, Hd.
Qed.

(** Lines written to a file: the file holds exactly these lines, and the
    call returns [None]. *)
Lemma observe_file rs kw s disk p outs (w : world) :
  text (w_self w) = None -> w_disk w = disk ->
  writelines rs kw (start s disk)
  = getvalue (emits (HFile p) outs (truncated (HFile p) w)) ->
  write_all rs kw s disk = (Ok None, None, <[p := str_concat outs]> disk).
Proof.
  intros Ht Hd Hw. unfold write_all. rewrite Hw, getvalue_eq.
  destruct (emits_file p outs (truncated (HFile p) w) EmptyString) as [H1 H2].
  { simpl. apply lookup_insert_eq. }
  rewrite H1, H2. simpl. rewrite Ht, Hd. simpl.
  now rewrite insert_insert_eq.
Qed.

End Observations.

(** ** The write contracts *)

Section WriteContracts.
Context {csv : CsvLib}.

Lemma emits_headers h outs w :
  headers (w_self (emits h outs w)) = headers (w_self w).
Proof.
  revert w. induction outs as [|o outs IH]; intros w; [reflexivity |].
  unfold emits in *; simpl. rewrite IH. apply emit_self.
Qed.

(** C4. A generator written in mapping mode with the headers unset: the
    first element, consumed by header inference, is written as a data row
    right after the header row, and the following elements are written in
    order. The lines written are those the csv writer produces for the
    header names, the first mapping and the mappings after it; they make up
    the result for an in-memory destination and the contents of the file
    otherwise. *)
Theorem generator_first_row_not_lost (s : tsv) (disk : gmap string string)
    (m : pydict) (ds : list pydict) (kw : write_kwargs) (d : Dialect)
    (outs : list string) :
  kw_asdict kw = true -> has_headers s = false ->
  wrow_truthy (WDict m) = true ->
  file_is_exists s && negb (kw_overwrite kw) = false ->
  resolves s d ->
  forallb (fits (dict_keys m)) ds = true ->
  csv_lines d (dict_keys m :: dict_values (dict_keys m) m
               :: map (dict_values (dict_keys m)) ds) = Some outs ->
  (forall io, text_session s io ->
     write_all (RowsGen (WDict m :: map WDict ds) (Ok tt)) kw s disk
     = (Ok (Some (sio_value (sio_writes io outs))),
        Some (sio_value (sio_writes io outs)), disk))
  /\ (forall p, file_session s p ->
     write_all (RowsGen (WDict m :: map WDict ds) (Ok tt)) kw s disk
     = (Ok None, None, <[p := str_concat outs]> disk)).
Proof.
  intros Ha Hh Hm He Hd Hf Hl.
  assert (Hm' : m <> []) by (destruct m; [discriminate | congruence]).
  split.
  - intros io Hs.
    apply (observe_text _ _ _ _ io outs
             (truncated HText (with_headers (Some (dict_keys m)) (start s disk))));
      [apply Hs | reflexivity |].
    apply (writelines_inferred _ m ds kw _ _ d outs); try assumption; try reflexivity.
    now apply (sink_text s io).
  - intros p Hs.
    apply (observe_file _ _ _ _ p outs
             (with_headers (Some (dict_keys m)) (start s disk)));
      [apply Hs | reflexivity |].
    apply (writelines_inferred _ m ds kw _ _ d outs); try assumption; try reflexivity.
    now apply sink_file.
Qed.

(** C8. A mapping-mode write with no explicit headers whose first row is a
    non-empty mapping takes the headers from the keys of that mapping, in
    their order, and writes a header row, then that first row, then the
    remaining rows. When the first row is not a mapping the call raises
    ValueError, asking for the headers to be supplied. *)
Theorem mapping_write_infers_headers (s : tsv) (disk : gmap string string)
    (kw : write_kwargs) :
  kw_asdict kw = true -> has_headers s = false ->
  (forall rs m ds d outs,
     all_rows rs = WDict m :: map WDict ds -> ends_normally rs ->
     wrow_truthy (WDict m) = true ->
     file_is_exists s && negb (kw_overwrite kw) = false ->
     resolves s d ->
     forallb (fits (dict_keys m)) ds = true ->
     csv_lines d (dict_keys m :: dict_values (dict_keys m) m
                  :: map (dict_values (dict_keys m)) ds) = Some outs ->
     (forall h, sink s = Some h ->
        headers (w_self (snd (writelines rs kw (start s disk))))
        = Some (dict_keys m))
     /\ (forall io, text_session s io ->
        write_all rs kw s disk
        = (Ok (Some (sio_value (sio_writes io outs))),
           Some (sio_value (sio_writes io outs)), disk))
     /\ (forall p, file_session s p ->
        write_all rs kw s disk = (Ok None, None, <[p := str_concat outs]> disk)))
  /\ (forall rs r, first_row rs = Some r ->
        (forall m, r <> WDict m) ->
        writelines rs kw (start s disk)
        = (Raise (ValueError "Can not detect headers because 1st row not a dict, supply headers manually"),
           start s disk)).
Proof.
  intros Ha Hh. split.
  - intros rs m ds d outs Hr Hn Hm He Hd Hf Hl.
    assert (Hm' : m <> []) by (destruct m; [discriminate | congruence]).
    assert (Hw : forall h, sink s = Some h ->
              writelines rs kw (start s disk)
              = getvalue (emits h outs (truncated h
                            (with_headers (Some (dict_keys m)) (start s disk))))).
    { intros h Hs. apply (writelines_inferred _ m ds kw _ _ d outs); assumption. }
    split; [|split].
    + intros h Hs. rewrite (Hw h Hs), getvalue_eq. simpl snd.
      rewrite emits_headers. now destruct h.
    + intros io Hs.
      apply (observe_text _ _ _ _ io outs
               (truncated HText (with_headers (Some (dict_keys m)) (start s disk))));
        [apply Hs | reflexivity |].
      apply Hw. now apply (sink_text s io).
    + intros p Hs.
      apply (observe_file _ _ _ _ p outs
               (with_headers (Some (dict_keys m)) (start s disk)));
        [apply Hs | reflexivity |].
      apply Hw. now apply sink_file.
  - intros rs r Hfirst Hnot.
    unfold writelines. rewrite bind_get_self. simpl w_self. rewrite Ha, Hh. simpl.
    destruct rs as [[|x l] | [|x items] fin]; simpl in Hfirst; try discriminate;
      injection Hfirst as ->; destruct r as [l0 | m0 |]; try reflexivity;
      now elim (Hnot m0).
Qed.

End WriteContracts.

(** ** The overwrite gate, for files and for in-memory text *)

Section GateContracts.
Context {csv : CsvLib}.
Variable sniff : string -> option Dialect.

(** The gate for a file that is there when the session is built. Writing
    without overwrite permission is refused before the file is opened: [writer]
    raises FileExistsError in an unchanged world, and [writelines] does not
    return normally and leaves the disk as it was, with FileExistsError as
    its exception whenever header inference has not failed first. With
    overwrite=True, writing a list of sequences succeeds, returns [None],
    and the file then holds exactly the serialized rows. *)
Theorem overwrite_gate_on_existing_file (a : init_args)
    (disk : gmap string string) (s : tsv) (p old : string)
    (kw0 : write_kwargs) (rs : rows) :
  __init__ sniff a disk = Ok s ->
  a_filename a = Some p -> a_text a = None -> disk !! p = Some old ->
  kw_overwrite kw0 = false ->
  (forall A (body : writer_obj -> M A) w,
     w_self w = s -> writer kw0 body w = (Raise (FileExistsError (Some p)), w))
  /\ (forall v, fst (writelines rs kw0 (start s disk)) <> Ok v)
  /\ w_disk (snd (writelines rs kw0 (start s disk))) = disk
  /\ (kw_asdict kw0 && negb (has_headers s) = false ->
      writelines rs kw0 (start s disk)
      = (Raise (FileExistsError (Some p)), start s disk))
  /\ (forall m, first_row rs = Some (WDict m) -> m <> [] ->
      fst (writelines rs kw0 (start s disk)) = Raise (FileExistsError (Some p)))
  /\ (forall kw1 recs d outs,
        kw_overwrite kw1 = true -> kw_asdict kw1 = false ->
        resolves s d -> csv_lines d recs = Some outs ->
        write_all (RowsList (map WList recs)) kw1 s disk
        = (Ok None, None, <[p := str_concat outs]> disk)).
Proof.
  intros Hi Hf Ht Hp H0.
  destruct (init_source sniff a disk s Hi) as (S1 & _ & _ & _ & S6).
  rewrite Ht in S6. destruct S6 as [S6 S7]. rewrite Hf in S1, S7.
  unfold disk_exists in S7. rewrite Hp in S7.
  assert (Hs : file_session s p) by (repeat split; assumption).
  assert (He : file_is_exists (w_self (start s disk)) && negb (kw_overwrite kw0) = true)
    by (simpl; now rewrite S7, H0).
  destruct (writelines_refused rs kw0 (start s disk) He) as (R1 & _ & R3 & R4 & R5).
  simpl in R4, R5. rewrite S1 in R4, R5.
  split; [|split; [|split; [|split; [|split]]]]; try assumption.
  - intros A body w <-. rewrite writer_refused; [now rewrite S1 |].
    now rewrite S7, H0.
  - intros kw1 recs d outs H1 Ha Hd Hl.
    apply (observe_file _ _ _ _ p outs (start s disk)); [apply Hs | reflexivity |].
    apply (writelines_list_rows recs kw1 _ (HFile p) d outs); try assumption.
    + simpl. now rewrite H1, andb_false_r.
    + now apply sink_file.
Qed.

(** C9. A session built on in-memory text is marked as existing. Writing
    to it without overwrite permission is refused as for an existing file:
    [writer] raises FileExistsError in an unchanged world, and [writelines]
    does not return normally and leaves the buffer as it was, with
    FileExistsError as its exception whenever header inference has not
    failed first. With overwrite=True and no file name, writing a list of
    sequences succeeds and returns the buffer. *)
Theorem in_memory_session_marked_existing (a : init_args)
    (disk : gmap string string) (s : tsv) (kw0 : write_kwargs) (rs : rows) :
  __init__ sniff a disk = Ok s -> a_text a <> None ->
  kw_overwrite kw0 = false ->
  file_is_exists s = true
  /\ (forall A (body : writer_obj -> M A) w,
        w_self w = s ->
        writer kw0 body w = (Raise (FileExistsError (filename s)), w))
  /\ (forall v, fst (writelines rs kw0 (start s disk)) <> Ok v)
  /\ text (w_self (snd (writelines rs kw0 (start s disk)))) = text s
  /\ (kw_asdict kw0 && negb (has_headers s) = false ->
      writelines rs kw0 (start s disk)
      = (Raise (FileExistsError (filename s)), start s disk))
  /\ (forall m, first_row rs = Some (WDict m) -> m <> [] ->
      fst (writelines rs kw0 (start s disk)) = Raise (FileExistsError (filename s)))
  /\ (forall kw1 recs d outs io,
        kw_overwrite kw1 = true -> kw_asdict kw1 = false ->
        a_filename a = None -> text s = Some io ->
        resolves s d -> csv_lines d recs = Some outs ->
        write_all (RowsList (map WList recs)) kw1 s disk
        = (Ok (Some (sio_value (sio_writes io outs))),
           Some (sio_value (sio_writes io outs)), disk)).
Proof.
  intros Hi Ht H0.
  destruct (init_source sniff a disk s Hi) as (S1 & _ & _ & _ & S6).
  destruct (a_text a) as [t|]; [|congruence]. destruct S6 as [_ S7].
  assert (He : file_is_exists (w_self (start s disk)) && negb (kw_overwrite kw0) = true)
    by (simpl; now rewrite S7, H0).
  destruct (writelines_refused rs kw0 (start s disk) He) as (R1 & R2 & _ & R4 & R5).
  split; [|split; [|split; [|split; [|split; [|split]]]]]; try assumption.
  - intros A body w <-. apply writer_refused. now rewrite S7, H0.
  - intros kw1 recs d outs io H1 Ha Hf Hio Hd Hl.
    assert (Hs : text_session s io) by (split; congruence).
    apply (observe_text _ _ _ _ io outs (start s disk)); [exact Hio | reflexivity |].
    apply (writelines_list_rows recs kw1 _ HText d outs); try assumption.
    + simpl. now rewrite H1, andb_false_r.
    + now apply (sink_text s io).
Qed.

End GateContracts.

(** ** Reading rows in list mode *)

Section ReadFacts.
Context {csv : CsvLib}.

Lemma same_source_text (f : StringIO -> StringIO) s :
  same_source s (set_text (option_map f (text s)) s).
Proof. repeat split; simpl; auto; destruct (text s); simpl; congruence. Qed.

(** One call of [next] on a [csv.reader]. *)
Lemma csv_next_list w c e es :
  w_reader w = Some (ListReader c) -> rd_events c = e :: es ->
  exists w1,
    csv_next w = (match ev_out e with
                  | Fields l => Ok l
                  | Malformed what => Raise (CsvError what)
                  end, w1)
    /\ w_reader w1 = Some (ListReader {| rd_handle := rd_handle c; rd_events := es;
                                         rd_line_num := rd_line_num c + ev_lines e |})
    /\ w_yield w1 = w_yield w /\ w_disk w1 = w_disk w
    /\ same_source (w_self w) (w_self w1).
Proof.
  intros Hr He. unfold csv_next, bind, get_reader. rewrite Hr. simpl. rewrite He.
  simpl. destruct (rd_handle c); simpl; destruct (ev_out e); eexists;
    (split; [reflexivity |]); simpl; repeat split; auto;
    try (destruct (text (w_self w)); simpl; congruence).
Qed.

Lemma csv_next_stop w c :
  w_reader w = Some (ListReader c) -> rd_events c = [] ->
  csv_next w = (Raise StopIteration, w).
Proof.
  intros Hr He. unfold csv_next, bind, get_reader. rewrite Hr. simpl. now rewrite He.
Qed.

Lemma bind_get_reader {B} (k : reader_obj -> M B) w r :
  w_reader w = Some r -> bind get_reader k w = k r w.
Proof. intros H. unfold bind, get_reader. now rewrite H. Qed.

Lemma reader_next_list w c :
  w_reader w = Some (ListReader c) ->
  reader_next w = bind csv_next (fun l => ret (RList l)) w.
Proof. intros Hr. unfold reader_next. now rewrite (bind_get_reader _ _ _ Hr). Qed.

(** The loop [for line in reader] over a [csv.reader], without a row
    callback: every record is yielded as a list, up to the first malformed
    one, where csv.Error is raised with [line_num] on that record. *)
Lemma read_loop_list evs : forall fuel w c,
  w_reader w = Some (ListReader c) -> rd_events c = evs ->
  length evs < fuel ->
  exists w',
    read_loop fuel None w
    = (match snd (drain evs (rd_line_num c)) with
       | None => Ok tt
       | Some (_, what) => Raise (CsvError what)
       end, w')
    /\ w_yield w' = w_yield w ++ fst (drain evs (rd_line_num c))
    /\ w_disk w' = w_disk w
    /\ same_source (w_self w) (w_self w')
    /\ (forall n what, snd (drain evs (rd_line_num c)) = Some (n, what) ->
        exists r, w_reader w' = Some r /\ line_num_of r = n).
Proof.
  induction evs as [|e es IH]; intros fuel w c Hr He Hfuel;
    (destruct fuel as [|fuel]; [simpl in Hfuel; lia |]).
  - exists w. simpl read_loop. unfold bind at 1, try_except.
    unfold bind at 1. rewrite (reader_next_list w c Hr).
    unfold bind at 1. rewrite (csv_next_stop w c Hr He). simpl.
    rewrite app_nil_r. repeat split; auto using same_source_refl. intros; discriminate.
  - destruct (csv_next_list w c e es Hr He) as (w1 & Hn & Hr1 & Hy1 & Hd1 & Hs1).
    simpl read_loop. unfold bind at 1, try_except.
    unfold bind at 1. rewrite (reader_next_list w c Hr).
    unfold bind at 1. rewrite Hn.
    simpl drain. destruct (ev_out e) as [l | what].
    + simpl. unfold bind at 1, ret at 1, bind at 1, yield.
      set (w2 := {| w_self := w_self w1; w_disk := w_disk w1;
                    w_reader := w_reader w1; w_yield := w_yield w1 ++ [RList l] |}).
      destruct (IH fuel w2 _ Hr1 eq_refl) as (w' & Hl & Hy & Hd & Hs & Hx).
      { simpl in Hfuel. simpl. lia. }
      simpl rd_line_num in *.
      exists w'. rewrite Hl.
      destruct (drain es (rd_line_num c + ev_lines e)) as [rs x]. simpl in *.
      split; [reflexivity |]. split; [rewrite Hy, Hy1, <- app_assoc; reflexivity |].
      split; [congruence |]. split; [eapply same_source_trans; eassumption |].
      exact Hx.
    + simpl. exists w1. split; [reflexivity |]. rewrite app_nil_r.
      repeat split; try assumption; try apply Hs1.
      intros n what' [= <- <-]. eexists. split; [exact Hr1 | reflexivity].
Qed.

End ReadFacts.

(** ** [readlines] in list mode *)

Section ReadlinesFacts.
Context {csv : CsvLib}.

Lemma reader_eq {A} asdict (body : M A) w :
  reader asdict body w
  = if file_is_exists (w_self w) then
      open ModeR (fun h =>
        bind resolve_dialect (fun d =>
        bind (stream_content h) (fun content =>
        bind (set_reader
                (if asdict
                 then DictReader (if asdict && has_headers (w_self w)
                                  then headers (w_self w) else None) 0
                        {| rd_handle := h;
                           rd_events := csv_records d (is_file h) content;
                           rd_line_num := 0 |}
                 else ListReader
                        {| rd_handle := h;
                           rd_events := csv_records d (is_file h) content;
                           rd_line_num := 0 |}))
             (fun _ => body)))) w
    else (Raise (FileNotFoundError (filename (w_self w))), w).
Proof.
  unfold reader, _check_file_exists, bind at 1, bind at 1, get_self.
  destruct (file_is_exists (w_self w)); reflexivity.
Qed.

Lemma bind_set_reader {B} r (k : unit -> M B) w :
  bind (set_reader r) k w = k tt (reading r w).
Proof. reflexivity. Qed.

Lemma open_r_source {A} (body : handle -> M A) w h content :
  source (w_self w) (w_disk w) = Some (h, content) ->
  open ModeR body w = body h w /\ stream_content h w = (Ok content, w).
Proof.
  unfold source. intros H.
  destruct (text (w_self w)) as [io|] eqn:Ht, (filename (w_self w)) as [p|] eqn:Hf;
    try discriminate.
  - injection H as <- <-. split.
    + apply (open_text _ _ _ io). exact (conj Ht Hf).
    + unfold stream_content, bind, get_self. now rewrite Ht.
  - destruct (w_disk w !! p) as [c|] eqn:Hc; [|discriminate].
    injection H as <- <-. split.
    + apply (open_file_r _ _ p c); [exact (conj Ht Hf) | exact Hc].
    + unfold stream_content, bind, get_disk. now rewrite Hc.
Qed.

Lemma detect_headers_gated w :
  has_headers (w_self w) || negb (headers_is_first_line (w_self w)) = true ->
  _detect_headers w = (Ok tt, w).
Proof.
  intros H. unfold _detect_headers. rewrite bind_get_self.
  destruct (has_headers (w_self w)); [reflexivity |].
  simpl in H. now rewrite H.
Qed.

Lemma process_headers_none w :
  headers_process_by (w_self w) = None -> _process_headers w = (Ok tt, w).
Proof. intros H. unfold _process_headers. now rewrite bind_get_self, H. Qed.

(** The body of [readlines] under [with self.reader(...)]. *)
Lemma readlines_list_start (s : tsv) (disk : gmap string string) h content d :
  file_is_exists s = true ->
  source s disk = Some (h, content) -> resolves s d ->
  readlines list_mode (start s disk)
  = generator_body
      (bind _detect_headers (fun _ =>
       bind _process_headers (fun _ =>
       bind remaining (fun k =>
       exit_on_csv_error (read_loop (S k) None)))))
      (reading (ListReader {| rd_handle := h;
                              rd_events := csv_records d (is_file h) content;
                              rd_line_num := 0 |}) (start s disk)).
Proof.
  intros He Hsrc Hd. unfold readlines, generator_body, try_except.
  rewrite reader_eq. simpl w_self. rewrite He.
  destruct (open_r_source
              (fun h0 => bind resolve_dialect (fun d0 =>
                 bind (stream_content h0) (fun content0 =>
                 bind (set_reader (ListReader
                         {| rd_handle := h0;
                            rd_events := csv_records d0 (is_file h0) content0;
                            rd_line_num := 0 |}))
                      (fun _ => bind _detect_headers (fun _ =>
                         bind _process_headers (fun _ =>
                         bind remaining (fun k =>
                         exit_on_csv_error (read_loop (S k) (r_process_by list_mode)))))))))
              (start s disk) h content Hsrc) as [Ho Hc].
  cbn [r_asdict list_mode]. cbv iota. rewrite Ho.
  rewrite (bind_ok _ _ _ _ _ (resolve_ok (start s disk) d Hd)).
  rewrite (bind_ok _ _ _ _ _ Hc).
  rewrite bind_set_reader. reflexivity.
Qed.

(** [readlines] in list mode when no header line is looked for: the rows
    are the records of the source, in order, up to the first malformed one,
    where the process exits with the file name and the line number. *)
Lemma readlines_list_mode (s : tsv) (disk : gmap string string) h content d :
  file_is_exists s = true ->
  source s disk = Some (h, content) -> resolves s d ->
  has_headers s || negb (headers_is_first_line s) = true ->
  headers_process_by s = None ->
  read_all list_mode s disk
  = (match snd (drain (csv_records d (is_file h) content) 0) with
     | None => Ok tt
     | Some (n, what) =>
         Exit {| em_file := filename s; em_line := n; em_error := what |}
     end,
     fst (drain (csv_records d (is_file h) content) 0),
     headers s).
Proof.
  intros He Hsrc Hd Hg Hp. unfold read_all.
  rewrite (readlines_list_start s disk h content d He Hsrc Hd).
  set (c0 := {| rd_handle := h; rd_events := csv_records d (is_file h) content;
                rd_line_num := 0 |}).
  set (w0 := reading (ListReader c0) (start s disk)).
  unfold generator_body, try_except.
  rewrite (bind_ok _ _ _ _ _ (detect_headers_gated w0 Hg)).
  rewrite (bind_ok _ _ _ _ _ (process_headers_none w0 Hp)).
  assert (Hk : remaining w0 = (Ok (length (rd_events c0)), w0)) by reflexivity.
  rewrite (bind_ok _ _ _ _ _ Hk).
  destruct (read_loop_list (rd_events c0) (S (length (rd_events c0))) w0 c0
              eq_refl eq_refl (Nat.lt_succ_diag_r _))
    as (w' & Hl & Hy & Hdk & Hs & Hx).
  unfold exit_on_csv_error, try_except. rewrite Hl.
  simpl rd_line_num in *. simpl rd_events in *.
  destruct (drain (csv_records d (is_file h) content) 0) as [rs [[n what]|]];
    simpl in *.
  - destruct (Hx n what eq_refl) as (r & Hr & Hn).
    rewrite bind_get_self, (bind_get_reader _ w' r Hr). unfold sys_exit. simpl.
    destruct Hs as (S1 & _ & S4 & _). now rewrite Hy, Hn, S1, S4.
  - destruct Hs as (S1 & _ & S4 & _). now rewrite Hy, S4.
Qed.

End ReadlinesFacts.

(** ** [readlines] in list mode when a header line is looked for *)

Section HeaderLine.
Context {csv : CsvLib}.

(** The loop [while not headers: headers = next(reader)] over a
    [csv.reader]. *)
Lemma skip_empty_list evs : forall fuel w c,
  w_reader w = Some (ListReader c) -> rd_events c = evs ->
  length evs < fuel ->
  exists w',
    skip_empty fuel w
    = (match find_header evs (rd_line_num c) with
       | HStop => Raise StopIteration
       | HBad what => Raise (CsvError what)
       | HFound names _ _ => Ok (RList names)
       end, w')
    /\ w_yield w' = w_yield w /\ w_disk w' = w_disk w
    /\ same_source (w_self w) (w_self w')
    /\ (forall names rest ln,
          find_header evs (rd_line_num c) = HFound names rest ln ->
          w_reader w' = Some (ListReader {| rd_handle := rd_handle c;
                                            rd_events := rest; rd_line_num := ln |})
          /\ row_truthy (RList names) = true).
Proof.
  induction evs as [|e es IH]; intros fuel w c Hr He Hfuel;
    (destruct fuel as [|fuel]; [simpl in Hfuel; lia |]).
  - exists w. simpl skip_empty. unfold bind at 1. rewrite (reader_next_list w c Hr).
    unfold bind at 1. rewrite (csv_next_stop w c Hr He). simpl.
    split; [reflexivity |]. split; [reflexivity |]. split; [reflexivity |].
    split; [apply same_source_refl |]. intros names rest ln; discriminate.
  - destruct (csv_next_list w c e es Hr He) as (w1 & Hn & Hr1 & Hy1 & Hd1 & Hs1).
    simpl skip_empty. unfold bind at 1. rewrite (reader_next_list w c Hr).
    unfold bind at 1. rewrite Hn. simpl find_header.
    destruct (ev_out e) as [[|x l] | what].
    + simpl. destruct (IH fuel w1 _ Hr1 eq_refl) as (w' & Hl & Hy & Hd & Hs & Hx).
      { simpl in Hfuel. simpl. lia. }
      simpl rd_line_num in *. simpl rd_handle in *.
      exists w'. rewrite Hl. split; [reflexivity |].
      split; [congruence |]. split; [congruence |].
      split; [eapply same_source_trans; eassumption | exact Hx].
    + simpl. exists w1. split; [reflexivity |].
      split; [assumption |]. split; [assumption |]. split; [assumption |].
      intros names rest ln [= <- <- <-]. split; [exact Hr1 | reflexivity].
    + simpl. exists w1. split; [reflexivity |].
      split; [assumption |]. split; [assumption |]. split; [assumption |].
      intros names rest ln; discriminate.
Qed.

(** [readlines] in list mode when the headers are unset and looked for on
    the first line (no callback): on an exhausted stream the generator ends
    with the RuntimeError that replaces StopIteration; a malformed record
    met before the header line raises csv.Error; otherwise the first
    non-empty record becomes the headers and the records after it are
    yielded, up to the first malformed one, where the process exits. *)
Lemma readlines_list_mode_header (s : tsv) (disk : gmap string string) h content d :
  file_is_exists s = true ->
  source s disk = Some (h, content) -> resolves s d ->
  has_headers s = false -> headers_is_first_line s = true ->
  headers_process_by s = None ->
  read_all list_mode s disk
  = match find_header (csv_records d (is_file h) content) 0 with
    | HStop => (Raise (RuntimeError "generator raised StopIteration"), [], headers s)
    | HBad what => (Raise (CsvError what), [], headers s)
    | HFound names rest ln =>
        (match snd (drain rest ln) with
         | None => Ok tt
         | Some (n, what) =>
             Exit {| em_file := filename s; em_line := n; em_error := what |}
         end, fst (drain rest ln), Some names)
    end.
Proof.
  intros He Hsrc Hd Hh Hf Hp. unfold read_all.
  rewrite (readlines_list_start s disk h content d He Hsrc Hd).
  set (c0 := {| rd_handle := h; rd_events := csv_records d (is_file h) content;
                rd_line_num := 0 |}).
  set (w0 := reading (ListReader c0) (start s disk)).
  destruct (skip_empty_list (rd_events c0) (S (length (rd_events c0))) w0 c0
              eq_refl eq_refl (Nat.lt_succ_diag_r _))
    as (w1 & Hl & Hy & Hdk & Hs & Hx).
  assert (Hdet : _detect_headers w0
                 = bind (skip_empty (S (length (rd_events c0)))) (fun hd =>
                     bind (if row_truthy hd then ret tt else raise (Error EmptyFile))
                       (fun _ =>
                          match hd with
                          | RDict _ rest =>
                              match rest with
                              | Some l =>
                                  bind (modify_self (set_headers (Some l)))
                                       (fun _ => fieldnames_setter (Some l))
                              | None => raise KeyError
                              end
                          | RList l => modify_self (set_headers (Some l))
                          end)) w0).
  { unfold _detect_headers. rewrite bind_get_self.
    change (w_self w0) with s. rewrite Hh, Hf. cbn [negb].
    assert (Hg : getattr_fieldnames w0 = (Ok None, w0)) by reflexivity.
    rewrite (bind_ok _ _ _ _ _ Hg). cbn [names_truthy].
    assert (Hk : remaining w0 = (Ok (length (rd_events c0)), w0)) by reflexivity.
    now rewrite (bind_ok _ _ _ _ _ Hk). }
  unfold generator_body, try_except. unfold bind at 1. rewrite Hdet.
  unfold bind at 1. rewrite Hl.
  simpl rd_line_num in *. simpl rd_events in *. simpl rd_handle in *.
  destruct (find_header (csv_records d (is_file h) content) 0)
    as [| what | names rest ln] eqn:Efind.
  - simpl. destruct Hs as (_ & _ & S4 & _). now rewrite Hy, S4.
  - simpl. destruct Hs as (_ & _ & S4 & _). now rewrite Hy, S4.
  - destruct (Hx names rest ln eq_refl) as [Hr1 Ht]. rewrite Ht.
    rewrite bind_ret_l. unfold bind at 1, modify_self.
    set (w2 := {| w_self := set_headers (Some names) (w_self w1);
                  w_disk := w_disk w1; w_reader := w_reader w1;
                  w_yield := w_yield w1 |}).
    destruct Hs as (S1 & _ & _ & _ & _ & S7).
    assert (Hp2 : headers_process_by (w_self w2) = None).
    { simpl. rewrite S7. exact Hp. }
    rewrite (process_headers_none w2 Hp2).
    set (c1 := {| rd_handle := h; rd_events := rest; rd_line_num := ln |}) in *.
    assert (Hr2 : w_reader w2 = Some (ListReader c1)) by exact Hr1.
    assert (Hk2 : remaining w2 = (Ok (length (rd_events c1)), w2)).
    { unfold remaining. now rewrite (bind_get_reader _ w2 (ListReader c1) Hr2). }
    rewrite (bind_ok _ _ _ _ _ Hk2).
    destruct (read_loop_list (rd_events c1) (S (length (rd_events c1))) w2 c1
                Hr2 eq_refl (Nat.lt_succ_diag_r _))
      as (w' & Hl' & Hy' & Hdk' & Hs' & Hx').
    unfold exit_on_csv_error, try_except. rewrite Hl'.
    simpl rd_line_num in *. simpl rd_events in *.
    destruct (drain rest ln) as [rs [[n what]|]]; simpl in *.
    + destruct (Hx' n what eq_refl) as (r & Hr & Hn).
      rewrite bind_get_self, (bind_get_reader _ w' r Hr). unfold sys_exit. simpl.
      destruct Hs' as (T1 & _ & T4 & _). simpl in T1, T4.
      now rewrite Hy', Hy, Hn, T1, S1, T4.
    + destruct Hs' as (T1 & _ & T4 & _). simpl in T4. now rewrite Hy', Hy, T4.
Qed.

End HeaderLine.

(** ** The read contracts *)

Section ReadContracts.
Context {csv : CsvLib}.

Lemma drain_well_formed evs : forall ln,
  forallb well_formed evs = true ->
  drain evs ln = (map (fun e => RList (event_fields e)) evs, None).
Proof.
  induction evs as [|e es IH]; intros ln H; [reflexivity |].
  simpl in *. apply andb_true_iff in H as [He Hes].
  unfold well_formed, event_fields in *. destruct (ev_out e); [|discriminate].
  now rewrite (IH _ Hes).
Qed.

(** [readlines] in list mode on a source without malformed record, when no
    header line is looked for. *)
Lemma readlines_list_mode_rows (s : tsv) (disk : gmap string string) h content d :
  file_is_exists s = true ->
  source s disk = Some (h, content) -> resolves s d ->
  has_headers s || negb (headers_is_first_line s) = true ->
  headers_process_by s = None ->
  forallb well_formed (csv_records d (is_file h) content) = true ->
  read_all list_mode s disk
  = (Ok tt, map (fun e => RList (event_fields e)) (csv_records d (is_file h) content),
     headers s).
Proof.
  intros He Hsrc Hd Hg Hp Hw.
  rewrite (readlines_list_mode s disk h content d) by assumption.
  now rewrite (drain_well_formed _ 0 Hw).
Qed.

Lemma materialise_lists (recs : list (list string)) :
  materialise (map RList recs) = Some (RowsList (map WList recs)).
Proof.
  unfold materialise. induction recs as [|r recs IH]; [reflexivity |].
  simpl in *. destruct (mapM as_written (map RList recs)) as [l|]; [|discriminate].
  simpl in *. now injection IH as ->.
Qed.

(** Header detection before reading is gated by [headers_is_first_line],
    not by the mode. For a source read in list mode with no explicit headers
    and [headers_is_first_line=False] (no header callback, no row callback),
    [readlines] consumes no line as a header line: it yields every record of
    the source as an ordered field list, in order, and the headers of the
    session stay unset. *)
Theorem list_mode_without_header_line (s : tsv) (disk : gmap string string)
    (h : handle) (content : string) (d : Dialect) :
  file_is_exists s = true ->
  source s disk = Some (h, content) -> resolves s d ->
  has_headers s = false -> headers_is_first_line s = false ->
  headers_process_by s = None ->
  forallb well_formed (csv_records d (is_file h) content) = true ->
  read_all list_mode s disk
  = (Ok tt, map (fun e => RList (event_fields e)) (csv_records d (is_file h) content),
     headers s).
Proof.
  intros He Hsrc Hd Hh Hf Hp Hw.
  apply readlines_list_mode_rows; try assumption. now rewrite Hh, Hf.
Qed.

(** The wrapper adds nothing to a round trip of the csv library. The text
    is read by a session with [headers_is_first_line=False] and no explicit
    headers, the rows are collected in a list, and the list is written with
    overwrite=True to a session over an empty in-memory text with the same
    dialect. If the csv writer gives back the text for the records the csv
    reader found in it (a hypothesis on the library and the text, not a
    result), then the result of the write is the text. *)
Theorem list_mode_round_trip (sr sw : tsv) (disk : gmap string string)
    (h : handle) (content : string) (d : Dialect) (outs : list string) :
  file_is_exists sr = true ->
  source sr disk = Some (h, content) -> resolves sr d ->
  has_headers sr = false -> headers_is_first_line sr = false ->
  headers_process_by sr = None ->
  forallb well_formed (csv_records d (is_file h) content) = true ->
  csv_lines d (map event_fields (csv_records d (is_file h) content)) = Some outs ->
  str_concat outs = content ->
  text_session sw {| sio_value := EmptyString; sio_pos := 0 |} ->
  resolves sw d ->
  written_back sr sw disk = Some (Ok (Some content)).
Proof.
  intros He Hsrc Hd Hh Hf Hp Hw Hl Hc Hsw Hdw.
  unfold written_back.
  rewrite (readlines_list_mode_rows sr disk h content d) by
    (try assumption; now rewrite Hh, Hf).
  simpl snd. rewrite <- (map_map event_fields RList), materialise_lists.
  rewrite (observe_text _ _ sw disk {| sio_value := EmptyString; sio_pos := 0 |}
             outs (start sw disk)); [| apply Hsw | reflexivity |].
  - simpl fst.
    change {| sio_value := EmptyString; sio_pos := 0 |}
      with {| sio_value := EmptyString; sio_pos := String.length EmptyString |}.
    rewrite sio_writes_at_end. simpl sio_value. now rewrite str_app_nil_l, Hc.
  - apply (writelines_list_rows _ _ _ HText d outs); try assumption; try reflexivity.
    + simpl. apply andb_false_r.
    + now apply (sink_text sw {| sio_value := EmptyString; sio_pos := 0 |}).
Qed.

(** The loop over the rows never lets csv.Error reach the caller. *)
Lemma exit_on_csv_error_no_csv_error (m : M unit) w what :
  fst (exit_on_csv_error m w) <> Raise (CsvError what).
Proof.
  unfold exit_on_csv_error, try_except.
  destruct (m w) as [[a|e|x] w']; simpl; try discriminate.
  destruct e; simpl; try discriminate.
  unfold bind, get_self, get_reader, sys_exit.
  destruct (w_reader w'); simpl; discriminate.
Qed.

End ReadContracts.

(** ** Header detection never raises the wrapper's [Error] *)

Section DeadBranch.
Context {csv : CsvLib}.

Lemma ne_bind {A B} (m : M A) (k : A -> M B) (P : A -> Prop) :
  never_error m ->
  (forall w a w', m w = (Ok a, w') -> P a) ->
  (forall a, P a -> never_error (k a)) ->
  never_error (bind m k).
Proof.
  intros Hm HP Hk w e. unfold bind. specialize (Hm w e). specialize (HP w).
  destruct (m w) as [[a|e'|x] w']; simpl in *; try congruence.
  apply (Hk a); eauto.
Qed.

Lemma ne_bind' {A B} (m : M A) (k : A -> M B) :
  never_error m -> (forall a, never_error (k a)) -> never_error (bind m k).
Proof. intros Hm Hk. apply (ne_bind m k (fun _ => True)); auto. Qed.

Lemma ne_try_except {A} (m : M A) handler :
  never_error m ->
  (forall e h, handler e = Some h -> never_error h) ->
  never_error (try_except m handler).
Proof.
  intros Hm Hh w k. unfold try_except. specialize (Hm w k).
  destruct (m w) as [[a|e|x] w']; simpl in *; try congruence.
  destruct (handler e) as [h|] eqn:E; [apply (Hh e h E) | exact Hm].
Qed.

Lemma ne_pure {A} (m : M A) :
  (forall w, exists a w', m w = (Ok a, w')) -> never_error m.
Proof. intros H w k. destruct (H w) as (a & w' & ->). discriminate. Qed.

Lemma ne_get_reader : never_error get_reader.
Proof. intros w k. unfold get_reader. destruct (w_reader w); discriminate. Qed.

Lemma ne_stream_advance h n : never_error (stream_advance h n).
Proof. destruct h; apply ne_pure; intros w; eexists; eexists; reflexivity. Qed.

Lemma ne_set_reader r : never_error (set_reader r).
Proof. apply ne_pure; intros w; eexists; eexists; reflexivity. Qed.

Lemma ne_ret {A} (a : A) : never_error (ret a).
Proof. intros w k; discriminate. Qed.

Lemma ne_csv_next : never_error csv_next.
Proof.
  unfold csv_next. apply ne_bind'; [apply ne_get_reader | intros r].
  destruct (rd_events (inner r)) as [|e es]; [intros w k; discriminate |].
  apply ne_bind'; [apply ne_set_reader | intros _].
  apply ne_bind'; [apply ne_stream_advance | intros _].
  destruct (ev_out e); intros w k; discriminate.
Qed.

Lemma ne_fieldnames_setter v : never_error (fieldnames_setter v).
Proof.
  unfold fieldnames_setter. apply ne_bind'; [apply ne_get_reader | intros r].
  destruct r; [intros w k; discriminate | apply ne_set_reader].
Qed.

Lemma ne_sync_line_num : never_error sync_line_num.
Proof.
  unfold sync_line_num. apply ne_bind'; [apply ne_get_reader | intros r].
  destruct r; [apply ne_ret | apply ne_set_reader].
Qed.

Lemma ne_fieldnames_getter : never_error fieldnames_getter.
Proof.
  unfold fieldnames_getter. apply ne_bind'; [apply ne_get_reader | intros r].
  destruct r as [c | f n c]; [intros w k; discriminate |].
  apply ne_bind'.
  - destruct f; [apply ne_ret |]. apply ne_try_except.
    + apply ne_bind'; [apply ne_csv_next | intros; apply ne_fieldnames_setter].
    + intros e h. destruct e; try discriminate. intros [= <-]. apply ne_ret.
  - intros _. apply ne_bind'; [apply ne_sync_line_num | intros _].
    apply ne_bind'; [apply ne_get_reader | intros; apply ne_ret].
Qed.

Lemma ne_skip_blank fuel : forall l, never_error (skip_blank fuel l).
Proof.
  induction fuel as [|n IH]; intros [|x l]; simpl; try apply ne_ret.
  - intros w k; discriminate.
  - apply ne_bind'; [apply ne_csv_next | apply IH].
Qed.

Lemma ne_reader_next : never_error reader_next.
Proof.
  unfold reader_next. apply ne_bind'; [apply ne_get_reader | intros r].
  destruct r as [c | f n c].
  - apply ne_bind'; [apply ne_csv_next | intros; apply ne_ret].
  - apply ne_bind'.
    { destruct (n =? 0); [|apply ne_ret].
      apply ne_bind'; [apply ne_fieldnames_getter | intros; apply ne_ret]. }
    intros _. apply ne_bind'; [apply ne_csv_next | intros l].
    apply ne_bind'; [apply ne_sync_line_num | intros _].
    apply ne_bind'.
    { unfold remaining. apply ne_bind'; [apply ne_get_reader | intros; apply ne_ret]. }
    intros k. apply ne_bind'; [apply ne_skip_blank | intros l'].
    apply ne_bind'; [apply ne_fieldnames_getter | intros [names|]].
    + apply ne_ret.
    + intros w e; discriminate.
Qed.

Lemma ne_skip_empty fuel : never_error (skip_empty fuel).
Proof.
  induction fuel as [|n IH]; simpl; [intros w k; discriminate |].
  apply ne_bind'; [apply ne_reader_next | intros h].
  destruct (row_truthy h); [apply ne_ret | exact IH].
Qed.

(** The loop that skips the empty lines only ever returns a non-empty
    row. *)
Lemma skip_empty_truthy fuel : forall w h w',
  skip_empty fuel w = (Ok h, w') -> row_truthy h = true.
Proof.
  induction fuel as [|n IH]; intros w h w'; simpl; [discriminate |].
  unfold bind. destruct (reader_next w) as [[r|e|x] w1]; try discriminate.
  destruct (row_truthy r) eqn:E; [intros [= <- _]; exact E | apply IH].
Qed.

(** The test [if not headers: raise Error(...)] after the loop is dead
    code: whatever the session and the reader, [_detect_headers] never
    raises the wrapper's [Error]. *)
Lemma detect_headers_never_error : never_error _detect_headers.
Proof.
  unfold _detect_headers. apply ne_bind'; [apply ne_pure; eauto | intros s].
  destruct (has_headers s); [apply ne_ret |].
  destruct (negb (headers_is_first_line s)); [apply ne_ret |].
  apply ne_bind'.
  { unfold getattr_fieldnames. apply ne_bind'; [apply ne_get_reader | intros r].
    destruct r; [apply ne_ret | apply ne_fieldnames_getter]. }
  intros fn. destruct (names_truthy fn).
  { apply ne_bind'; [apply ne_fieldnames_getter | intros].
    apply ne_pure; intros w; eexists; eexists; reflexivity. }
  apply ne_bind'.
  { unfold remaining. apply ne_bind'; [apply ne_get_reader | intros; apply ne_ret]. }
  intros k.
  apply (ne_bind _ _ (fun h => row_truthy h = true)).
  - apply ne_skip_empty.
  - apply skip_empty_truthy.
  - intros h Hh. rewrite Hh. apply ne_bind'; [apply ne_ret | intros _].
    destruct h as [l | named [l|]].
    + apply ne_pure; intros w; eexists; eexists; reflexivity.
    + apply ne_bind'; [apply ne_pure; intros w; eexists; eexists; reflexivity |].
      intros _. apply ne_fieldnames_setter.
    + intros w e; discriminate.
Qed.

End DeadBranch.

(** ** The configuration check of the constructor *)

Section ConfigurationCheck.
Context {csv : CsvLib}.
Variable sniff : string -> option Dialect.

(** Neither a file name nor a text: the configuration error. *)
Lemma init_neither (a : init_args) (disk : gmap string string) :
  a_filename a = None -> a_text a = None ->
  __init__ sniff a disk = Raise (Error NoSource).
Proof. intros Hf Ht. unfold __init__. now rewrite Hf, Ht. Qed.

(** A non-empty file name and a text that is not the empty string: the
    configuration error. *)
Lemma init_both_truthy (a : init_args) (disk : gmap string string) :
  filename_truthy (a_filename a) = true -> text_truthy (a_text a) = true ->
  __init__ sniff a disk = Raise (Error BothSources).
Proof. intros Hf Ht. unfold __init__. now rewrite Hf, Ht. Qed.

(** Exactly one of the two, a text of a valid type and a named dialect:
    the session is constructed. *)
Lemma init_exactly_one (a : init_args) (disk : gmap string string) :
  dialect_truthy (a_dialect a) = true ->
  (a_filename a = None /\ exists t, a_text a = Some t /\ forall b, t <> TextOther b)
  \/ (a_filename a <> None /\ a_text a = None) ->
  exists s, __init__ sniff a disk = Ok s.
Proof.
  intros Hd [[Hf (t & Ht & Hv)] | [Hf Ht]]; unfold __init__, configure;
    rewrite ?Hf, ?Ht, Hd; simpl.
  - destruct t as [c | io | b]; [eexists; reflexivity .. | now elim (Hv b)].
  - rewrite andb_false_r. destruct (a_filename a) as [p|]; [|congruence].
    simpl. eexists; reflexivity.
Qed.

End ConfigurationCheck.

(** ** The read contracts and the constructor on concrete input *)

(** The sessions used below are those the constructor builds. *)
Example init_text_tsv :
  __init__ (csv := py_csv) no_sniff (text_args tsv_source) ∅ = Ok (text_tsv tsv_source).
Proof. reflexivity. Qed.

Example init_headerless_tsv :
  __init__ (csv := py_csv) no_sniff (with_first_line false (text_args crlf_text)) ∅
  = Ok (headerless_tsv crlf_text).
Proof. reflexivity. Qed.

(** C1. The example of the module docstring,
    [tsv(text=tsv_source).readlines()], for which the docstring gives both
    lines of the text as the rows. Read with the default parameters in list
    mode, the first line is consumed as the header line: only the second
    line is yielded, and the rows are not the records of the text. *)
Theorem list_mode_default_consumes_first_line :
  read_all list_mode (text_tsv tsv_source) ∅
  = (Ok tt,
     [RList ["base"; "params"; "basekey2"; "basevalue2"]%string],
     Some ["base"; "params"; "basekey1"; "basevalue1"]%string)
  /\ snd (fst (read_all list_mode (text_tsv tsv_source) ∅))
     <> map (fun e => RList (event_fields e))
          (csv_records (CsvLib := py_csv) PyCsv.excel_tab false tsv_source).
Proof. split; [reflexivity | vm_compute; discriminate]. Qed.

Lemma list_mode_without_header_line_witness :
  (file_is_exists (headerless_tsv tsv_source) = true
   /\ source (headerless_tsv tsv_source) ∅
      = Some (HText, tsv_source)
   /\ resolves (headerless_tsv tsv_source) PyCsv.excel_tab
   /\ has_headers (headerless_tsv tsv_source) = false
   /\ headers_is_first_line (headerless_tsv tsv_source) = false
   /\ headers_process_by (headerless_tsv tsv_source) = None
   /\ forallb well_formed
        (csv_records (CsvLib := py_csv) PyCsv.excel_tab (is_file HText) tsv_source)
      = true)
  /\ read_all list_mode (headerless_tsv tsv_source) ∅
     = (Ok tt,
        [RList ["base"; "params"; "basekey1"; "basevalue1"]%string;
         RList ["base"; "params"; "basekey2"; "basevalue2"]%string],
        None).
Proof.
  split.
  - repeat split; reflexivity.
  - exact (list_mode_without_header_line (csv := py_csv) (headerless_tsv tsv_source) ∅
             HText tsv_source PyCsv.excel_tab
             eq_refl eq_refl eq_refl eq_refl eq_refl eq_refl eq_refl).
Defined.

(** C2. The example of the module docstring: the rows of
    [tsv(text=tsv_source).readlines()] written by
    [tsv(text=...).writelines(rows_, overwrite=True)] to an empty text, for
    which the docstring gives the text read as the result. The generator of
    [readlines] handed to [writelines] as it is makes the write fail with
    csv.Error; collected in a list, the rows written back lack the first
    line, consumed as the header line. With [headers_is_first_line=False]
    both lines come back, each ended by the line terminator of the dialect
    instead of separated by a line feed. The same holds for a text in the
    form the csv writer gives to its records. *)
Theorem round_trip_differs :
  piped (text_tsv tsv_source) (text_tsv "") ∅
    = Some (Raise (CsvError "iterable expected, not NoneType"))
  /\ written_back (text_tsv tsv_source) (text_tsv "") ∅
     = Some (Ok (Some (tab_line ["base"; "params"; "basekey2"; "basevalue2"]%string)))
  /\ written_back (text_tsv tsv_source) (text_tsv "") ∅ <> Some (Ok (Some tsv_source))
  /\ written_back (headerless_tsv tsv_source) (text_tsv "") ∅
     = Some (Ok (Some (tab_line ["base"; "params"; "basekey1"; "basevalue1"]%string
                       +:+ tab_line ["base"; "params"; "basekey2"; "basevalue2"]%string)))
  /\ written_back (headerless_tsv tsv_source) (text_tsv "") ∅
     <> Some (Ok (Some tsv_source))
  /\ written_back (text_tsv crlf_text) (text_tsv "") ∅
     = Some (Ok (Some (tab_line ["c"; "d"]%string)))
  /\ written_back (text_tsv crlf_text) (text_tsv "") ∅ <> Some (Ok (Some crlf_text))
  /\ piped (headerless_tsv crlf_text) (text_tsv "") ∅
     = Some (Raise (CsvError "iterable expected, not NoneType")).
Proof.
  repeat split; try reflexivity; vm_compute; discriminate.
Qed.

Lemma list_mode_round_trip_witness :
  (file_is_exists (headerless_tsv crlf_text) = true
   /\ source (headerless_tsv crlf_text) ∅ = Some (HText, crlf_text)
   /\ resolves (headerless_tsv crlf_text) PyCsv.excel_tab
   /\ has_headers (headerless_tsv crlf_text) = false
   /\ headers_is_first_line (headerless_tsv crlf_text) = false
   /\ headers_process_by (headerless_tsv crlf_text) = None
   /\ forallb well_formed
        (csv_records (CsvLib := py_csv) PyCsv.excel_tab (is_file HText) crlf_text) = true
   /\ csv_lines (csv := py_csv) PyCsv.excel_tab
        (map event_fields
           (csv_records (CsvLib := py_csv) PyCsv.excel_tab (is_file HText) crlf_text))
      = Some [tab_line ["a"; "b"]; tab_line ["c"; "d"]]%string
   /\ str_concat [tab_line ["a"; "b"]; tab_line ["c"; "d"]]%string = crlf_text
   /\ text_session (text_tsv "") {| sio_value := ""; sio_pos := 0 |}
   /\ resolves (text_tsv "") PyCsv.excel_tab)
  /\ written_back (headerless_tsv crlf_text) (text_tsv "") ∅
     = Some (Ok (Some crlf_text)).
Proof.
  split.
  - repeat split; reflexivity.
  - exact (list_mode_round_trip (csv := py_csv) (headerless_tsv crlf_text)
             (text_tsv "") ∅ HText crlf_text PyCsv.excel_tab
             [tab_line ["a"; "b"]; tab_line ["c"; "d"]]%string
             eq_refl eq_refl eq_refl eq_refl eq_refl eq_refl eq_refl eq_refl eq_refl
             (conj eq_refl eq_refl) eq_refl).
Defined.

(** C3. On a source without any non-empty record, header detection does
    not fail with the wrapper's [Error]: [next(reader)] raises StopIteration
    inside the loop that skips the empty lines, the test after the loop is
    never reached, and the generator of [readlines] ends with the
    RuntimeError that replaces a StopIteration leaving its body. This holds
    for the empty text and for a text of blank lines, in both modes. *)
Theorem empty_source_header_detection :
  read_all dict_mode (text_tsv "") ∅
    = (Raise (RuntimeError "generator raised StopIteration"), [], None)
  /\ read_all dict_mode (text_tsv (nl +:+ nl)) ∅
     = (Raise (RuntimeError "generator raised StopIteration"), [], None)
  /\ read_all list_mode (text_tsv (nl +:+ nl)) ∅
     = (Raise (RuntimeError "generator raised StopIteration"), [], None)
  /\ fst (_detect_headers
            (reading (DictReader None 0
                        {| rd_handle := HText; rd_events := []; rd_line_num := 0 |})
                     (start (text_tsv "") ∅)))
     = Raise StopIteration
  /\ fst (fst (read_all dict_mode (text_tsv "") ∅)) <> Raise (Error EmptyFile).
Proof. repeat split; try reflexivity. vm_compute. discriminate. Qed.

(** C6. A session given both a file name and the empty text is
    constructed: the test [filename and text] takes the empty string for an
    absent text, and the second test sees that one of the two is set. *)
Theorem init_accepts_file_name_and_empty_text :
  __init__ (csv := py_csv) no_sniff (both_args "out.tsv") ∅
  = Ok (py_session (Some "out.tsv"%string)
          (Some {| sio_value := ""; sio_pos := 0 |}) true None true)
  /\ a_filename (both_args "out.tsv") <> None
  /\ a_text (both_args "out.tsv") <> None.
Proof. repeat split; try reflexivity; discriminate. Qed.

(** C10. A malformed first line met by header detection is outside the
    [try] block of [readlines]: csv.Error reaches the caller as an ordinary
    exception and the process does not exit. A malformed line met by the
    loop over the rows does end the process. *)
Theorem malformed_header_line_raises :
  read_all list_mode (text_tsv broken_text) ∅
  = (Raise (CsvError "new-line character seen in unquoted field - do you need to open the file in universal-newline mode?"),
     [], None)
  /\ read_all list_mode (headerless_tsv broken_text) ∅
     = (Exit {| em_file := None; em_line := 1;
                em_error := "new-line character seen in unquoted field - do you need to open the file in universal-newline mode?" |},
        [], None).
Proof. split; reflexivity. Qed.

(** ** The write contracts on concrete input *)

Lemma generator_first_row_not_lost_witness :
  (kw_asdict overwrite_dict = true
   /\ has_headers (text_tsv "") = false
   /\ wrow_truthy (WDict row_ab) = true
   /\ file_is_exists (text_tsv "") && negb (kw_overwrite overwrite_dict) = false
   /\ resolves (text_tsv "") PyCsv.excel_tab
   /\ forallb (fits (dict_keys row_ab)) [row_ab'] = true
   /\ csv_lines (csv := py_csv) PyCsv.excel_tab
        [["a"; "b"]; ["1"; "2"]; ["3"; "4"]]%string
      = Some [tab_line ["a"; "b"]; tab_line ["1"; "2"]; tab_line ["3"; "4"]]%string
   /\ text_session (text_tsv "") {| sio_value := ""; sio_pos := 0 |})
  /\ write_all (RowsGen [WDict row_ab; WDict row_ab'] (Ok tt)) overwrite_dict
       (text_tsv "") ∅
     = (Ok (Some (str_concat [tab_line ["a"; "b"]; tab_line ["1"; "2"];
                              tab_line ["3"; "4"]]%string)),
        Some (str_concat [tab_line ["a"; "b"]; tab_line ["1"; "2"];
                          tab_line ["3"; "4"]]%string), ∅).
Proof.
  split.
  - repeat split; reflexivity.
  - exact (proj1 (generator_first_row_not_lost (csv := py_csv) (text_tsv "") ∅
                    row_ab [row_ab'] overwrite_dict PyCsv.excel_tab
                    [tab_line ["a"; "b"]; tab_line ["1"; "2"]; tab_line ["3"; "4"]]%string
                    eq_refl eq_refl eq_refl eq_refl eq_refl eq_refl eq_refl)
                 {| sio_value := ""; sio_pos := 0 |} (conj eq_refl eq_refl)).
Defined.

Lemma writelines_generator_placeholder_witness :
  (kw_asdict overwrite_list = false \/ has_headers (text_tsv "") = true)
  /\ writelines (RowsGen [WList ["a"; "b"]%string] (Ok tt)) overwrite_list
       (start (text_tsv "") ∅)
     = (Raise (CsvError "iterable expected, not NoneType"), start (text_tsv "") ∅).
Proof.
  split.
  - left. reflexivity.
  - exact (proj2 (proj2 (writelines_generator_placeholder (csv := py_csv)
                           (text_tsv "") ∅ [WList ["a"; "b"]%string] (Ok tt)
                           overwrite_list (or_introl eq_refl)))
                 HText PyCsv.excel_tab eq_refl eq_refl eq_refl eq_refl).
Defined.

Lemma overwrite_gate_on_existing_file_witness :
  (__init__ (csv := py_csv) no_sniff (file_args "out.tsv") (one_file "out.tsv" "old")
   = Ok (file_tsv "out.tsv")
   /\ a_filename (file_args "out.tsv") = Some "out.tsv"%string
   /\ a_text (file_args "out.tsv") = None
   /\ one_file "out.tsv" "old" !! "out.tsv"%string = Some "old"%string
   /\ kw_overwrite refuse_list = false)
  /\ writelines (RowsList [WList ["a"; "b"]%string]) refuse_list
       (start (file_tsv "out.tsv") (one_file "out.tsv" "old"))
     = (Raise (FileExistsError (Some "out.tsv"%string)),
        start (file_tsv "out.tsv") (one_file "out.tsv" "old"))
  /\ write_all (RowsList (map WList [["a"; "b"]%string])) overwrite_list
       (file_tsv "out.tsv") (one_file "out.tsv" "old")
     = (Ok None, None,
        <["out.tsv"%string := str_concat [tab_line ["a"; "b"]%string]]>
          (one_file "out.tsv" "old")).
Proof.
  pose proof (overwrite_gate_on_existing_file (csv := py_csv) no_sniff
                (file_args "out.tsv") (one_file "out.tsv" "old") (file_tsv "out.tsv")
                "out.tsv" "old" refuse_list (RowsList [WList ["a"; "b"]%string])
                eq_refl eq_refl eq_refl eq_refl eq_refl)
    as (_ & _ & _ & H4 & _ & H6).
  split; [repeat split; reflexivity | split].
  - exact (H4 eq_refl).
  - exact (H6 overwrite_list [["a"; "b"]%string] PyCsv.excel_tab
              [tab_line ["a"; "b"]%string] eq_refl eq_refl eq_refl eq_refl).
Defined.

(** C7. The existence of the destination is looked up once, when the
    session is built, and the gate of [writer] tests that flag. A session
    built while the file is not there writes over a file created since
    without overwrite permission: no FileExistsError, and the file is
    replaced. So does a second write through the same session, over the
    file its first write created. A session built while the file is there
    refuses the same write and leaves the file as it was. *)
Theorem file_created_after_construction_is_replaced :
  __init__ (csv := py_csv) no_sniff (file_args "out.tsv") ∅
    = Ok (new_file_tsv "out.tsv")
  /\ write_all (RowsList [WList ["a"; "b"]%string]) refuse_list
       (new_file_tsv "out.tsv") (one_file "out.tsv" "old")
     = (Ok None, None, one_file "out.tsv" (tab_line ["a"; "b"]%string))
  /\ writelines (RowsList [WList ["a"; "b"]%string]) refuse_list
       (start (new_file_tsv "out.tsv") ∅)
     = (Ok None,
        start (new_file_tsv "out.tsv") (one_file "out.tsv" (tab_line ["a"; "b"]%string)))
  /\ write_all (RowsList [WList ["c"; "d"]%string]) refuse_list
       (new_file_tsv "out.tsv") (one_file "out.tsv" (tab_line ["a"; "b"]%string))
     = (Ok None, None, one_file "out.tsv" (tab_line ["c"; "d"]%string))
  /\ __init__ (csv := py_csv) no_sniff (file_args "out.tsv") (one_file "out.tsv" "old")
     = Ok (file_tsv "out.tsv")
  /\ write_all (RowsList [WList ["a"; "b"]%string]) refuse_list
       (file_tsv "out.tsv") (one_file "out.tsv" "old")
     = (Raise (FileExistsError (Some "out.tsv"%string)), None, one_file "out.tsv" "old").
Proof.
  repeat split; reflexivity.
Qed.

Lemma mapping_write_infers_headers_witness :
  (kw_asdict overwrite_dict = true /\ has_headers (text_tsv "") = false)
  /\ headers (w_self (snd (writelines (RowsList [WDict row_ab; WDict row_ab'])
                             overwrite_dict (start (text_tsv "") ∅))))
     = Some ["a"; "b"]%string
  /\ write_all (RowsList [WDict row_ab; WDict row_ab']) overwrite_dict (text_tsv "") ∅
     = (Ok (Some (str_concat [tab_line ["a"; "b"]; tab_line ["1"; "2"];
                              tab_line ["3"; "4"]]%string)),
        Some (str_concat [tab_line ["a"; "b"]; tab_line ["1"; "2"];
                          tab_line ["3"; "4"]]%string), ∅)
  /\ writelines (RowsList [WList ["1"; "2"]%string]) overwrite_dict
       (start (text_tsv "") ∅)
     = (Raise (ValueError "Can not detect headers because 1st row not a dict, supply headers manually"),
        start (text_tsv "") ∅).
Proof.
  pose proof (mapping_write_infers_headers (csv := py_csv) (text_tsv "") ∅
                overwrite_dict eq_refl eq_refl) as [HA HB].
  pose proof (HA (RowsList [WDict row_ab; WDict row_ab']) row_ab [row_ab']
                PyCsv.excel_tab
                [tab_line ["a"; "b"]; tab_line ["1"; "2"]; tab_line ["3"; "4"]]%string
                eq_refl I eq_refl eq_refl eq_refl eq_refl eq_refl)
    as (H1 & H2 & _).
  split; [split; reflexivity | split; [|split]].
  - exact (H1 HText eq_refl).
  - exact (H2 {| sio_value := ""; sio_pos := 0 |} (conj eq_refl eq_refl)).
  - apply (HB (RowsList [WList ["1"; "2"]%string]) (WList ["1"; "2"]%string) eq_refl).
    intros m; discriminate.
Defined.

Lemma in_memory_session_marked_existing_witness :
  (__init__ (csv := py_csv) no_sniff (text_args "") ∅ = Ok (text_tsv "")
   /\ a_text (text_args "") <> None
   /\ kw_overwrite refuse_list = false)
  /\ file_is_exists (text_tsv "") = true
  /\ writelines (RowsList [WList ["a"; "b"]%string]) refuse_list (start (text_tsv "") ∅)
     = (Raise (FileExistsError None), start (text_tsv "") ∅)
  /\ write_all (RowsList (map WList [["a"; "b"]%string])) overwrite_list (text_tsv "") ∅
     = (Ok (Some (tab_line ["a"; "b"]%string)), Some (tab_line ["a"; "b"]%string), ∅).
Proof.
  assert (Ht : a_text (text_args "") <> None) by discriminate.
  pose proof (in_memory_session_marked_existing (csv := py_csv) no_sniff
                (text_args "") ∅ (text_tsv "") refuse_list
                (RowsList [WList ["a"; "b"]%string]) eq_refl Ht eq_refl)
    as (H1 & _ & _ & _ & H5 & _ & H7).
  split; [repeat split; try reflexivity; exact Ht | split; [exact H1 | split]].
  - exact (H5 eq_refl).
  - exact (H7 overwrite_list [["a"; "b"]%string] PyCsv.excel_tab
              [tab_line ["a"; "b"]%string] {| sio_value := ""; sio_pos := 0 |}
              eq_refl eq_refl eq_refl eq_refl eq_refl eq_refl).
Defined.

(** ** Writing over a buffer *)

Lemma str_take_drop (n : nat) (v : string) : str_take n v +:+ str_drop n v = v.
Proof.
  revert v; induction n as [|n IH]; intros [|c v]; try reflexivity.
  simpl. rewrite str_app_cons. now rewrite IH.
Qed.

Lemma str_length_take (n : nat) (v : string) :
  n <= String.length v -> String.length (str_take n v) = n.
Proof.
  revert v; induction n as [|n IH]; intros [|c v] H; simpl in *; try lia.
  rewrite IH; lia.
Qed.

Lemma str_take_app (a b : string) : str_take (String.length a) (a +:+ b) = a.
Proof.
  induction a as [|c a IH]; [now destruct b |].
  rewrite str_app_cons. simpl. now rewrite IH.
Qed.

Lemma str_take_app_more (a b : string) (n : nat) :
  str_take (String.length a + n) (a +:+ b) = a +:+ str_take n b.
Proof.
  induction a as [|c a IH]; [reflexivity |].
  rewrite !str_app_cons. simpl. now rewrite IH.
Qed.

Lemma str_drop_app_more (a b : string) (n : nat) :
  str_drop (String.length a + n) (a +:+ b) = str_drop n b.
Proof.
  induction a as [|c a IH]; [reflexivity |].
  rewrite str_app_cons. simpl. exact IH.
Qed.

Lemma str_drop_drop (n m : nat) (v : string) :
  str_drop n (str_drop m v) = str_drop (m + n) v.
Proof.
  revert v; induction m as [|m IH]; intros v; [reflexivity |].
  destruct v as [|c v]; simpl; [now destruct n | apply IH].
Qed.

Lemma nuls_0 (p n : nat) : p <= n -> nuls (p - n) = EmptyString.
Proof. intros H. replace (p - n) with 0 by lia. reflexivity. Qed.

(** One write inside the buffer. *)
Lemma sio_write_inside (v str : string) (p : nat) :
  p <= String.length v ->
  sio_write {| sio_value := v; sio_pos := p |} str
  = {| sio_value := overwritten v p str; sio_pos := p + String.length str |}.
Proof.
  intros Hp. unfold overwritten. destruct str as [|c str].
  - simpl. rewrite Nat.add_0_r, str_app_nil_l, str_take_drop. reflexivity.
  - unfold sio_write; cbn [sio_value sio_pos]. rewrite nuls_0 by exact Hp.
    now rewrite str_app_nil_l.
Qed.

Lemma overwritten_length (v str : string) (p : nat) :
  p <= String.length v -> p + String.length str <= String.length (overwritten v p str).
Proof.
  intros Hp. unfold overwritten.
  rewrite !str_length_app, str_length_take by exact Hp. lia.
Qed.

Lemma overwritten_twice (v a b : string) (p : nat) :
  p <= String.length v ->
  overwritten (overwritten v p a) (p + String.length a) b = overwritten v p (a +:+ b).
Proof.
  intros Hp. unfold overwritten.
  assert (Hl : String.length (str_take p v +:+ a) = p + String.length a).
  { rewrite str_length_app, str_length_take by exact Hp. reflexivity. }
  rewrite <- !str_app_assoc.
  rewrite <- Hl at 1. rewrite str_take_app.
  rewrite <- Hl at 1. rewrite str_drop_app_more, str_drop_drop.
  rewrite !str_app_assoc, str_length_app.
  now rewrite Nat.add_assoc.
Qed.

Lemma sio_writes_inside (outs : list string) : forall (v : string) (p : nat),
  p <= String.length v ->
  sio_writes {| sio_value := v; sio_pos := p |} outs
  = {| sio_value := overwritten v p (str_concat outs);
       sio_pos := p + String.length (str_concat outs) |}.
Proof.
  induction outs as [|o outs IH]; intros v p Hp.
  - simpl. unfold overwritten. simpl.
    now rewrite Nat.add_0_r, str_app_nil_l, str_take_drop.
  - unfold sio_writes in *. simpl fold_left. rewrite sio_write_inside by exact Hp.
    rewrite IH by (apply overwritten_length; exact Hp).
    simpl str_concat. rewrite overwritten_twice by exact Hp.
    rewrite str_length_app. f_equal. lia.
Qed.

Lemma overwritten_covers (v str : string) :
  String.length v <= String.length str -> overwritten v 0 str = str.
Proof.
  intros H. unfold overwritten. simpl.
  replace (String.length str) with (String.length v + (String.length str - String.length v))
    by lia.
  rewrite str_drop_past. rewrite str_app_nil_l. apply str_app_nil_r.
Qed.

(** ** What a write leaves behind, however it ends *)

Section WriteOutcomes.
Context {csv : CsvLib}.

(** What is observed once lines have been written, however the call ends. *)
Lemma observe_text_result rs kw s disk io outs r (w : world) :
  text (w_self w) = Some io -> w_disk w = disk ->
  writelines rs kw (start s disk) = (r, emits HText outs w) ->
  write_all rs kw s disk = (r, Some (sio_value (sio_writes io outs)), disk).
Proof.
  intros Ht Hd Hw. unfold write_all. rewrite Hw.
  destruct (emits_text outs w io Ht) as [H1 H2]. now rewrite H1, H2, Hd.
Qed.

Lemma observe_file_result rs kw s disk p outs r (w : world) :
  text (w_self w) = None -> w_disk w = disk ->
  writelines rs kw (start s disk) = (r, emits (HFile p) outs (truncated (HFile p) w)) ->
  write_all rs kw s disk = (r, None, <[p := str_concat outs]> disk).
Proof.
  intros Ht Hd Hw. unfold write_all. rewrite Hw.
  destruct (emits_file p outs (truncated (HFile p) w) EmptyString) as [H1 H2].
  { simpl. apply lookup_insert_eq. }
  rewrite H1, H2. simpl. rewrite Ht, Hd. simpl.
  now rewrite insert_insert_eq.
Qed.

(** A [DictWriter] stops at the first mapping with a key outside its field
    names; the mappings before it have been written. *)
Lemma write_each_dict_refused h d names good bad rest outs w :
  forallb (fits names) good = true -> fits names bad = false ->
  csv_lines d (map (dict_values names) good) = Some outs ->
  write_each (DictWriter h d names) (map WDict (good ++ bad :: rest)) w
  = (Raise (ValueError "dict contains fields not in fieldnames"), emits h outs w).
Proof.
  revert outs w. induction good as [|r good IH]; intros outs w Hf Hb H; simpl in *.
  - injection H as <-. unfold bind at 1, bind at 1, lift.
    now rewrite dict_to_list_eq, Hb.
  - apply andb_true_iff in Hf as [Hr Hf].
    destruct (csv_writerow d (dict_values names r)) as [str|] eqn:E; [|discriminate].
    destruct (csv_lines d (map (dict_values names) good)) as [ls|]; [|discriminate].
    injection H as <-.
    unfold bind at 1, bind at 1, lift. rewrite dict_to_list_eq, Hr.
    rewrite (emit_record_line h d _ str w E).
    now rewrite (IH ls).
Qed.

(** A [csv.writer] handed mappings writes their keys. *)
Lemma write_each_keys h d ds outs w :
  csv_lines d (map dict_keys ds) = Some outs ->
  write_each (ListWriter h d) (map WDict ds) w = (Ok tt, emits h outs w).
Proof.
  revert outs w. induction ds as [|r ds IH]; intros outs w H; simpl in *.
  - injection H as <-. reflexivity.
  - destruct (csv_writerow d (dict_keys r)) as [str|] eqn:E; [|discriminate].
    destruct (csv_lines d (map dict_keys ds)) as [ls|]; [|discriminate].
    injection H as <-.
    rewrite (bind_ok _ _ _ _ _ (emit_record_line h d _ str w E)).
    now rewrite (IH ls).
Qed.

(** [writelines] on a list, once the destination is open, in list mode and
    in mapping mode with the headers set. *)
Lemma writelines_list_open l kw w h d :
  kw_asdict kw = false ->
  file_is_exists (w_self w) && negb (kw_overwrite kw) = false ->
  sink (w_self w) = Some h -> resolves (w_self w) d ->
  writelines (RowsList l) kw w
  = bind (write_each (ListWriter h d) l) (fun _ => getvalue) (truncated h w).
Proof.
  intros Ha He Hs Hd.
  rewrite writelines_no_inference by (rewrite Ha; reflexivity).
  unfold bind at 1. rewrite writer_eq, He, Ha, (open_w_sink _ _ h Hs).
  assert (Hd' : resolves (w_self (truncated h w)) d) by (destruct h; exact Hd).
  rewrite (bind_ok _ _ _ _ _ (resolve_ok _ _ Hd')).
  unfold with_block. rewrite bind_get_self. simpl is_dict_writer.
  rewrite !andb_false_r, !bind_ret_l. simpl is_generator. cbv iota.
  rewrite bind_ret_l. reflexivity.
Qed.

Lemma writelines_dict_open l kw w h d names :
  kw_asdict kw = true ->
  headers (w_self w) = Some names -> has_headers (w_self w) = true ->
  file_is_exists (w_self w) && negb (kw_overwrite kw) = false ->
  sink (w_self w) = Some h -> resolves (w_self w) d ->
  writelines (RowsList l) kw w
  = bind (bind (writeheader (DictWriter h d names))
               (fun _ => write_each (DictWriter h d names) l))
         (fun _ => getvalue) (truncated h w).
Proof.
  intros Ha Hn Hh He Hs Hd.
  rewrite writelines_no_inference by (rewrite Ha, Hh; reflexivity).
  unfold bind at 1. rewrite writer_eq, He, Ha, Hh, Hn, (open_w_sink _ _ h Hs).
  assert (Hd' : resolves (w_self (truncated h w)) d) by (destruct h; exact Hd).
  rewrite (bind_ok _ _ _ _ _ (resolve_ok _ _ Hd')).
  unfold with_block. rewrite bind_get_self.
  assert (Hh' : has_headers (w_self (truncated h w)) = true) by (destruct h; exact Hh).
  rewrite Hh'. simpl is_dict_writer. simpl negb. simpl andb. cbv iota.
  rewrite bind_ret_l. simpl is_generator. cbv iota.
  simpl default. unfold bind. 
  destruct (writeheader (DictWriter h d names) (truncated h w)) as [[a|e|x] w1];
    reflexivity.
Qed.

End WriteOutcomes.

(** ** Construction: dialect detection and the file that is not there *)

Section DialectDetection.
Context {csv : CsvLib}.
Variable sniff : string -> option Dialect.

Lemma detect_dialect_text (s : tsv) (disk : gmap string string) (io : StringIO) :
  text_session s io ->
  _detect_dialect sniff (start s disk)
  = match sniff (str_take DETECT_READ_BYTES_NUM (sio_value io)) with
    | Some d =>
        (Ok d, start (set_dialect (DObj d) (set_text (Some (sio_seek 0 io)) s)) disk)
    | None =>
        (Raise (CsvError "Could not determine delimiter"),
         start (set_text (Some (sio_seek (min DETECT_READ_BYTES_NUM
                                              (String.length (sio_value io))) io)) s) disk)
    end.
Proof.
  intros [Ht Hf]. unfold _detect_dialect.
  unfold bind at 1. rewrite (open_text _ _ _ io) by (split; assumption).
  unfold stream_seek0, stream_content, stream_advance, bind, modify_self, get_self, ret.
  cbn [w_self start set_text text]. rewrite Ht.
  cbn [option_map sio_seek sio_pos sio_value str_drop w_self set_text text].
  destruct (sniff (str_take DETECT_READ_BYTES_NUM (sio_value io))); reflexivity.
Qed.

Lemma detect_dialect_file (s : tsv) (disk : gmap string string) (p : string) :
  file_session s p ->
  _detect_dialect sniff (start s disk)
  = match disk !! p with
    | None => (Raise (FileNotFoundError (Some p)), start s disk)
    | Some c =>
        match sniff (str_take DETECT_READ_BYTES_NUM c) with
        | Some d => (Ok d, start (set_dialect (DObj d) s) disk)
        | None => (Raise (CsvError "Could not determine delimiter"), start s disk)
        end
    end.
Proof.
  intros [Ht Hf]. unfold _detect_dialect.
  destruct (disk !! p) as [c|] eqn:Hc.
  - unfold bind at 1.
    rewrite (open_file_r _ _ p c) by (try split; assumption).
    unfold stream_seek0, stream_advance. rewrite !bind_ret_l.
    assert (Hs : stream_content (HFile p) (start s disk) = (Ok c, start s disk)).
    { unfold stream_content, bind, get_disk, ret. cbn [w_disk start]. now rewrite Hc. }
    rewrite (bind_ok _ _ _ _ _ Hs), bind_ret_l.
    destruct (sniff (str_take DETECT_READ_BYTES_NUM c)); reflexivity.
  - unfold bind at 1. rewrite open_eq. cbn [w_self start]. rewrite Ht, Hf.
    unfold path_open, bind at 1, bind at 1, get_disk. cbn [w_disk start].
    now rewrite Hc.
Qed.

(** X2. Construction with no dialect over an in-memory text: the sniffer
    is given the first [DETECT_READ_BYTES_NUM] characters of the text, read
    from its start whatever the position of a [StringIO] was, and the text
    is left at position 0. The dialect of the session is the object the
    sniffer returns; when it finds none, the constructor raises csv.Error. *)
Theorem dialect_detection_on_text (a : init_args) (disk : gmap string string)
    (io : StringIO) :
  dialect_truthy (a_dialect a) = false -> a_filename a = None ->
  (a_text a = Some (TextStr (sio_value io)) \/ a_text a = Some (TextIO io)) ->
  __init__ sniff a disk
  = match sniff (str_take DETECT_READ_BYTES_NUM (sio_value io)) with
    | Some d => Ok (built a (Some {| sio_value := sio_value io; sio_pos := 0 |})
                      true (DObj d))
    | None => Raise (CsvError "Could not determine delimiter")
    end.
Proof.
  intros Hd Hf Ht. unfold __init__. rewrite Hf. cbn [filename_truthy andb].
  rewrite (bool_decide_eq_false_2 (a_text a = None)) by (destruct Ht as [-> | ->]; discriminate).
  rewrite andb_false_r.
  assert (Hc : forall io0, sio_value io0 = sio_value io ->
            configure sniff a disk (partial a (Some io0) true)
            = match sniff (str_take DETECT_READ_BYTES_NUM (sio_value io)) with
              | Some d => Ok (built a (Some {| sio_value := sio_value io; sio_pos := 0 |})
                                true (DObj d))
              | None => Raise (CsvError "Could not determine delimiter")
              end).
  { intros io0 Hv. unfold configure. rewrite Hd.
    rewrite (detect_dialect_text _ disk io0) by (split; [reflexivity | exact Hf]).
    rewrite Hv.
    destruct (sniff (str_take DETECT_READ_BYTES_NUM (sio_value io))); [|reflexivity].
    unfold built, finish, sio_seek. cbn [sio_value]. now rewrite Hv. }
  destruct Ht as [-> | ->]; now apply Hc.
Qed.

(** X3. Construction with no dialect over a file: the file is opened for
    reading, so a missing file makes the constructor raise
    FileNotFoundError; otherwise the sniffer is given the first
    [DETECT_READ_BYTES_NUM] characters of the file. *)
Theorem dialect_detection_on_file (a : init_args) (disk : gmap string string)
    (p : string) :
  dialect_truthy (a_dialect a) = false -> a_filename a = Some p -> a_text a = None ->
  __init__ sniff a disk
  = match disk !! p with
    | None => Raise (FileNotFoundError (Some p))
    | Some c =>
        match sniff (str_take DETECT_READ_BYTES_NUM c) with
        | Some d => Ok (built a None true (DObj d))
        | None => Raise (CsvError "Could not determine delimiter")
        end
    end.
Proof.
  intros Hd Hf Ht. unfold __init__. rewrite Hf, Ht. cbn [text_truthy].
  rewrite andb_false_r, (bool_decide_eq_false_2 (Some p = None)) by discriminate.
  cbn [andb]. unfold configure. rewrite Hd.
  rewrite (detect_dialect_file _ disk p) by (split; [reflexivity | exact Hf]).
  unfold disk_exists.
  destruct (disk !! p) as [c|]; [|reflexivity].
  destruct (sniff (str_take DETECT_READ_BYTES_NUM c)); [|reflexivity].
  unfold built, finish. cbn. now rewrite Hf.
Qed.

(** X1. A session built on a file that is not there: the file is looked
    for once, at construction. [reader] raises FileNotFoundError with the
    file name before anything is opened, and so does [readlines], also when
    the file has been created since. *)
Theorem read_of_missing_file_refused (a : init_args) (disk : gmap string string)
    (s : tsv) (p : string) :
  __init__ sniff a disk = Ok s ->
  a_filename a = Some p -> a_text a = None -> disk !! p = None ->
  file_is_exists s = false
  /\ (forall A asdict (body : M A) w,
        w_self w = s ->
        reader asdict body w = (Raise (FileNotFoundError (Some p)), w))
  /\ (forall kw disk',
        readlines kw (start s disk')
        = (Raise (FileNotFoundError (Some p)), start s disk')).
Proof.
  intros Hi Hf Ht Hp.
  destruct (init_source sniff a disk s Hi) as (S1 & _ & _ & _ & S6).
  rewrite Ht in S6. destruct S6 as [S6 S7]. rewrite Hf in S1, S7.
  unfold disk_exists in S7. rewrite Hp in S7.
  assert (Hr : forall A asdict (body : M A) w,
            w_self w = s ->
            reader asdict body w = (Raise (FileNotFoundError (Some p)), w)).
  { intros A asdict body w Hw. rewrite reader_eq, Hw, S7, S1. reflexivity. }
  split; [exact S7 | split; [exact Hr |]].
  intros kw disk'. unfold readlines, generator_body, try_except.
  now rewrite Hr.
Qed.

End DialectDetection.

(** ** Construction: where the wrapper's own error comes from *)

Section ConstructorErrors.
Context {csv : CsvLib}.
Variable sniff : string -> option Dialect.

Lemma ne_raise_other {A} e : (forall k, e <> Error k) -> never_error (@raise _ A e).
Proof. intros H w k. simpl. intros [= E]. now apply (H k). Qed.

Lemma ne_path_open mode p : never_error (path_open mode p).
Proof.
  intros w k. unfold path_open, bind, get_disk. destruct mode; simpl; [|discriminate].
  destruct (w_disk w !! p); discriminate.
Qed.

Lemma ne_open {A} mode (body : handle -> M A) :
  (forall h, never_error (body h)) -> never_error (open mode body).
Proof.
  intros H w k. rewrite open_eq.
  destruct (text (w_self w)); destruct (filename (w_self w)) as [p|].
  - apply (ne_bind' (body HText)
             (fun a => bind (path_open mode p)
                         (fun _ => @raise _ A (RuntimeError "generator didn't stop"))));
      [apply H | intros a].
    apply ne_bind'; [apply ne_path_open | intros _]. now apply ne_raise_other.
  - apply (ne_bind' (body HText) (fun a => ret a)); [apply H | intros a; apply ne_ret].
  - apply (ne_bind' (path_open mode p) (fun _ => body (HFile p)));
      [apply ne_path_open | intros _; apply H].
  - discriminate.
Qed.

Lemma ne_detect_dialect : never_error (_detect_dialect sniff).
Proof.
  unfold _detect_dialect. apply ne_bind'.
  - apply ne_open. intros h.
    assert (Hseek : never_error (stream_seek0 h)).
    { destruct h; apply ne_pure; intros w; eexists; eexists; reflexivity. }
    apply ne_bind'; [exact Hseek | intros _].
    apply ne_bind'.
    { destruct h; apply ne_pure; intros w; eexists; eexists; reflexivity. }
    intros content. apply ne_bind'; [apply ne_stream_advance | intros _].
    destruct (sniff _); [| now apply ne_raise_other].
    apply ne_bind'; [exact Hseek | intros _; apply ne_ret].
  - intros d. apply ne_bind'; [| intros _; apply ne_ret].
    apply ne_pure; intros w; eexists; eexists; reflexivity.
Qed.

(** X4. The constructor raises the wrapper's [Error] in two cases only: a
    non-empty file name together with a text whose truth value is true, and
    neither a file name nor a text. Dialect detection never raises it. *)
Theorem constructor_error_is_the_source_check (a : init_args)
    (disk : gmap string string) (k : tsv_error) :
  __init__ sniff a disk = Raise (Error k)
  <-> (k = BothSources
       /\ filename_truthy (a_filename a) = true /\ text_truthy (a_text a) = true)
      \/ (k = NoSource /\ a_filename a = None /\ a_text a = None).
Proof.
  assert (Hconf : forall s, configure sniff a disk s <> Raise (Error k)).
  { intros s. unfold configure. destruct (dialect_truthy (a_dialect a)); [discriminate |].
    pose proof (ne_detect_dialect (start s disk) k) as Hne.
    destruct (_detect_dialect sniff (start s disk)) as [[d|e|x] w]; simpl in Hne;
      congruence. }
  unfold __init__. split.
  - destruct (filename_truthy (a_filename a)) eqn:Hf, (text_truthy (a_text a)) eqn:Ht;
      simpl; try (intros [= <-]; left; now repeat split).
    all: destruct (bool_decide (a_filename a = None)) eqn:Hfn;
      destruct (bool_decide (a_text a = None)) eqn:Htn; simpl;
      try (intros [= <-]; right; apply bool_decide_eq_true in Hfn, Htn; now repeat split).
    all: destruct (a_text a) as [[str | io | b] |]; try discriminate;
      intros H; now elim (Hconf _ H).
  - intros [(-> & Hf & Ht) | (-> & Hf & Ht)].
    + now rewrite Hf, Ht.
    + now rewrite Hf, Ht.
Qed.

End ConstructorErrors.

(** ** Reading: the start of [readlines] and the row callback *)

Section ReadStart.
Context {csv : CsvLib}.

Lemma readlines_start (kw : read_kwargs) (s : tsv) (disk : gmap string string)
    h content d :
  file_is_exists s = true ->
  source s disk = Some (h, content) -> resolves s d ->
  readlines kw (start s disk)
  = generator_body
      (bind _detect_headers (fun _ =>
       bind _process_headers (fun _ =>
       bind remaining (fun k =>
       exit_on_csv_error (read_loop (S k) (r_process_by kw))))))
      (reading (fresh_reader (r_asdict kw) s h d content) (start s disk)).
Proof.
  intros He Hsrc Hd. unfold readlines, generator_body, try_except.
  rewrite reader_eq. simpl w_self. rewrite He.
  destruct (open_r_source
              (fun h0 => bind resolve_dialect (fun d0 =>
                 bind (stream_content h0) (fun content0 =>
                 bind (set_reader
                         (if r_asdict kw
                          then DictReader (if r_asdict kw && has_headers s
                                           then headers s else None) 0
                                 {| rd_handle := h0;
                                    rd_events := csv_records d0 (is_file h0) content0;
                                    rd_line_num := 0 |}
                          else ListReader
                                 {| rd_handle := h0;
                                    rd_events := csv_records d0 (is_file h0) content0;
                                    rd_line_num := 0 |}))
                      (fun _ => bind _detect_headers (fun _ =>
                         bind _process_headers (fun _ =>
                         bind remaining (fun k =>
                         exit_on_csv_error (read_loop (S k) (r_process_by kw)))))))))
              (start s disk) h content Hsrc) as [Ho Hc].
  rewrite Ho.
  rewrite (bind_ok _ _ _ _ _ (resolve_ok (start s disk) d Hd)).
  rewrite (bind_ok _ _ _ _ _ Hc).
  rewrite bind_set_reader. unfold fresh_reader.
  destruct (r_asdict kw); reflexivity.
Qed.

(** The loop [for line in reader] over a [csv.reader] whose records are all
    well formed, with a row callback that never fails. *)
Lemma read_loop_list_by g evs : forall fuel w c,
  w_reader w = Some (ListReader c) -> rd_events c = evs ->
  forallb well_formed evs = true ->
  length evs < fuel ->
  exists w',
    read_loop fuel (Some (total_hook g)) w = (Ok tt, w')
    /\ w_yield w' = w_yield w ++ processed g (filename (w_self w)) evs (rd_line_num c)
    /\ w_disk w' = w_disk w
    /\ same_source (w_self w) (w_self w').
Proof.
  induction evs as [|e es IH]; intros fuel w c Hr He Hwf Hfuel;
    (destruct fuel as [|fuel]; [simpl in Hfuel; lia |]).
  - exists w. simpl read_loop. unfold bind at 1, try_except.
    unfold bind at 1. rewrite (reader_next_list w c Hr).
    unfold bind at 1. rewrite (csv_next_stop w c Hr He). simpl.
    rewrite app_nil_r. repeat split; auto using same_source_refl.
  - destruct (csv_next_list w c e es Hr He) as (w1 & Hn & Hr1 & Hy1 & Hd1 & Hs1).
    simpl in Hwf. apply andb_true_iff in Hwf as [Hwe Hwf].
    unfold well_formed in Hwe.
    simpl read_loop. unfold bind at 1, try_except.
    unfold bind at 1. rewrite (reader_next_list w c Hr).
    unfold bind at 1. rewrite Hn.
    simpl processed. unfold event_fields.
    destruct (ev_out e) as [l | what]; [|discriminate].
    cbn [ret]. cbv beta iota.
    pose proof Hs1 as (F1 & _).
    assert (Hh : bind get_reader (fun r => bind get_self (fun s0 =>
                   lift (total_hook g (RList l) (line_num_of r) (filename s0)))) w1
                 = (Ok (g (RList l) (rd_line_num c + ev_lines e) (filename (w_self w))),
                    w1)).
    { rewrite (bind_get_reader _ w1 _ Hr1), bind_get_self.
      unfold lift, total_hook. cbn [line_num_of rd_line_num]. now rewrite F1. }
    destruct (g (RList l) (rd_line_num c + ev_lines e) (filename (w_self w))) as [r|].
    + set (w2 := {| w_self := w_self w1; w_disk := w_disk w1;
                    w_reader := w_reader w1; w_yield := w_yield w1 ++ [r] |}).
      destruct (IH fuel w2 _ Hr1 eq_refl Hwf) as (w' & Hl & Hy & Hd & Hs).
      { simpl in Hfuel. simpl. lia. }
      exists w'. rewrite (bind_ok _ _ _ _ _ Hh).
      unfold bind at 1, yield at 1. fold w2. rewrite Hl. split; [reflexivity |].
      simpl in Hy. rewrite F1 in Hy.
      split; [rewrite Hy, Hy1, <- app_assoc; reflexivity |].
      split; [simpl in Hd; congruence |].
      eapply same_source_trans; [exact Hs1 | exact Hs].
    + destruct (IH fuel w1 _ Hr1 eq_refl Hwf) as (w' & Hl & Hy & Hd & Hs).
      { simpl in Hfuel. simpl. lia. }
      exists w'. rewrite (bind_ok _ _ _ _ _ Hh).
      rewrite bind_ret_l, Hl. split; [reflexivity |].
      simpl in Hy. rewrite F1 in Hy.
      split; [rewrite Hy, Hy1; reflexivity |].
      split; [congruence |].
      eapply same_source_trans; [exact Hs1 | exact Hs].
Qed.

Lemma drain_app good : forall ln bad rest what,
  forallb well_formed good = true -> ev_out bad = Malformed what ->
  drain (good ++ bad :: rest) ln
  = (map (fun e => RList (event_fields e)) good,
     Some (ln + lines_of good + ev_lines bad, what)).
Proof.
  induction good as [|e es IH]; intros ln bad rest what Hg Hb; simpl.
  - rewrite Hb, Nat.add_0_r. reflexivity.
  - simpl in Hg. apply andb_true_iff in Hg as [He Hg].
    unfold well_formed in He. unfold event_fields at 1.
    destruct (ev_out e) as [l|]; [|discriminate].
    rewrite (IH _ bad rest what Hg Hb). do 3 f_equal. lia.
Qed.

End ReadStart.

(** ** Reading in list mode: header detection and the header callback *)

Section ListModeFacts.
Context {csv : CsvLib}.

Lemma find_header_app blanks : forall ln hd rest names,
  forallb blank blanks = true -> ev_out hd = Fields names -> names <> [] ->
  find_header (blanks ++ hd :: rest) ln
  = HFound names rest (ln + lines_of blanks + ev_lines hd).
Proof.
  induction blanks as [|e es IH]; intros ln hd rest names Hb Hh Hn; simpl.
  - rewrite Hh, Nat.add_0_r. destruct names; [congruence | reflexivity].
  - simpl in Hb. apply andb_true_iff in Hb as [He Hb]. unfold blank in He.
    destruct (ev_out e) as [[|x l]|]; try discriminate.
    rewrite (IH _ hd rest names Hb Hh Hn). f_equal. lia.
Qed.

(** Header detection over a [csv.reader]. *)
Lemma detect_headers_list (w0 : world) (c0 : csv_reader) :
  w_reader w0 = Some (ListReader c0) ->
  has_headers (w_self w0) = false -> headers_is_first_line (w_self w0) = true ->
  exists w1,
    _detect_headers w0
    = (match find_header (rd_events c0) (rd_line_num c0) with
       | HStop => Raise StopIteration
       | HBad what => Raise (CsvError what)
       | HFound _ _ _ => Ok tt
       end, w1)
    /\ w_yield w1 = w_yield w0 /\ w_disk w1 = w_disk w0
    /\ filename (w_self w1) = filename (w_self w0)
    /\ headers_process_by (w_self w1) = headers_process_by (w_self w0)
    /\ match find_header (rd_events c0) (rd_line_num c0) with
       | HFound names rest ln =>
           w_reader w1 = Some (ListReader {| rd_handle := rd_handle c0;
                                             rd_events := rest; rd_line_num := ln |})
           /\ headers (w_self w1) = Some names
       | _ => headers (w_self w1) = headers (w_self w0)
       end.
Proof.
  intros Hr Hh Hf.
  destruct (skip_empty_list (rd_events c0) (S (length (rd_events c0))) w0 c0
              Hr eq_refl (Nat.lt_succ_diag_r _))
    as (w1 & Hl & Hy & Hdk & Hs & Hx).
  assert (Hdet : _detect_headers w0
                 = bind (skip_empty (S (length (rd_events c0)))) (fun hd =>
                     bind (if row_truthy hd then ret tt else raise (Error EmptyFile))
                       (fun _ =>
                          match hd with
                          | RDict _ rest =>
                              match rest with
                              | Some l =>
                                  bind (modify_self (set_headers (Some l)))
                                       (fun _ => fieldnames_setter (Some l))
                              | None => raise KeyError
                              end
                          | RList l => modify_self (set_headers (Some l))
                          end)) w0).
  { unfold _detect_headers. rewrite bind_get_self, Hh, Hf. cbn [negb].
    assert (Hg : getattr_fieldnames w0 = (Ok None, w0)).
    { unfold getattr_fieldnames. now rewrite (bind_get_reader _ w0 _ Hr). }
    rewrite (bind_ok _ _ _ _ _ Hg). cbn [names_truthy].
    assert (Hk : remaining w0 = (Ok (length (rd_events c0)), w0)).
    { unfold remaining. now rewrite (bind_get_reader _ w0 _ Hr). }
    now rewrite (bind_ok _ _ _ _ _ Hk). }
  rewrite Hdet. unfold bind at 1. rewrite Hl.
  destruct Hs as (S1 & _ & S3 & _ & _ & S7).
  destruct (find_header (rd_events c0) (rd_line_num c0)) as [| what | names rest ln].
  - exists w1. repeat split; assumption.
  - exists w1. repeat split; assumption.
  - destruct (Hx names rest ln eq_refl) as [Hr1 Ht]. rewrite Ht, bind_ret_l.
    eexists. split; [reflexivity |]. simpl. repeat split; assumption.
Qed.

(** The header callback when the reader is a [csv.reader]: its result
    replaces the headers of the session. *)
Lemma process_headers_list (w : world) (c : csv_reader) :
  w_reader w = Some (ListReader c) ->
  _process_headers w
  = match headers_process_by (w_self w) with
    | None => (Ok tt, w)
    | Some f =>
        match f (headers (w_self w)) with
        | Ok h' => (Ok tt, with_headers h' w)
        | Raise e => (Raise e, w)
        | Exit m => (Exit m, w)
        end
    end.
Proof.
  intros Hr. unfold _process_headers. rewrite bind_get_self.
  destruct (headers_process_by (w_self w)) as [f|]; [|reflexivity].
  unfold bind at 1, lift. destruct (f (headers (w_self w))) as [h'|e|m]; try reflexivity.
  unfold bind at 1, modify_self. unfold getattr_fieldnames.
  unfold bind at 1. unfold bind at 1, get_reader. unfold with_headers.
  simpl. rewrite Hr. reflexivity.
Qed.

End ListModeFacts.

(** ** Reading in list mode: the properties *)

Section ListModeProperties.
Context {csv : CsvLib}.

(** The loop of [readlines] with its [try] block, over a [csv.reader]. *)
Lemma rows_loop_list (w : world) (c : csv_reader) :
  w_reader w = Some (ListReader c) ->
  exists w',
    bind remaining (fun k => exit_on_csv_error (read_loop (S k) None)) w
    = (match snd (drain (rd_events c) (rd_line_num c)) with
       | None => Ok tt
       | Some (n, what) =>
           Exit {| em_file := filename (w_self w); em_line := n; em_error := what |}
       end, w')
    /\ w_yield w' = w_yield w ++ fst (drain (rd_events c) (rd_line_num c))
    /\ w_disk w' = w_disk w
    /\ headers (w_self w') = headers (w_self w).
Proof.
  intros Hr.
  assert (Hk : remaining w = (Ok (length (rd_events c)), w)).
  { unfold remaining. now rewrite (bind_get_reader _ w _ Hr). }
  rewrite (bind_ok _ _ _ _ _ Hk).
  destruct (read_loop_list (rd_events c) (S (length (rd_events c))) w c
              Hr eq_refl (Nat.lt_succ_diag_r _))
    as (w' & Hl & Hy & Hdk & Hs & Hx).
  unfold exit_on_csv_error, try_except. rewrite Hl.
  destruct Hs as (S1 & _ & S4 & _).
  destruct (drain (rd_events c) (rd_line_num c)) as [rs [[n what]|]]; simpl in *.
  - destruct (Hx n what eq_refl) as (r & Hr' & Hn).
    rewrite bind_get_self, (bind_get_reader _ w' r Hr'). unfold sys_exit.
    exists w'. rewrite Hn, S1. repeat split; assumption.
  - exists w'. repeat split; assumption.
Qed.

Lemma rows_loop_list_by g (w : world) (c : csv_reader) :
  w_reader w = Some (ListReader c) ->
  forallb well_formed (rd_events c) = true ->
  exists w',
    bind remaining
         (fun k => exit_on_csv_error (read_loop (S k) (Some (total_hook g)))) w
    = (Ok tt, w')
    /\ w_yield w'
       = w_yield w ++ processed g (filename (w_self w)) (rd_events c) (rd_line_num c)
    /\ w_disk w' = w_disk w
    /\ headers (w_self w') = headers (w_self w).
Proof.
  intros Hr Hwf.
  assert (Hk : remaining w = (Ok (length (rd_events c)), w)).
  { unfold remaining. now rewrite (bind_get_reader _ w _ Hr). }
  rewrite (bind_ok _ _ _ _ _ Hk).
  destruct (read_loop_list_by g (rd_events c) (S (length (rd_events c))) w c
              Hr eq_refl Hwf (Nat.lt_succ_diag_r _))
    as (w' & Hl & Hy & Hdk & Hs).
  unfold exit_on_csv_error, try_except. rewrite Hl.
  destruct Hs as (S1 & _ & S4 & _).
  exists w'. repeat split; assumption.
Qed.

(** X5. List mode with the default parameters (headers unset, looked for
    on the first line): the records without fields at the start are
    skipped, the first record with fields becomes the headers of the session
    and is not yielded, and the records after it are yielded in order, those
    without fields as empty lists. *)
Theorem default_read_takes_the_header_line (s : tsv) (disk : gmap string string)
    (h : handle) (content : string) (d : Dialect)
    (blanks : list event) (hd : event) (rest : list event) (names : list string) :
  file_is_exists s = true ->
  source s disk = Some (h, content) -> resolves s d ->
  has_headers s = false -> headers_is_first_line s = true ->
  headers_process_by s = None ->
  csv_records d (is_file h) content = blanks ++ hd :: rest ->
  forallb blank blanks = true -> ev_out hd = Fields names -> names <> [] ->
  forallb well_formed rest = true ->
  read_all list_mode s disk = (Ok tt, list_rows rest, Some names).
Proof.
  intros He Hsrc Hd Hh Hf Hp Hev Hb Hhd Hn Hwf.
  rewrite (readlines_list_mode_header s disk h content d) by assumption.
  rewrite Hev, (find_header_app blanks 0 hd rest names Hb Hhd Hn).
  now rewrite (drain_well_formed _ _ Hwf).
Qed.

(** X6. The header callback is called with the headers found on the
    header line; what it returns replaces the headers of the session (a
    callback that returns [None] clears them), and in list mode the rows are
    not affected. When it raises, the exception reaches the caller and no
    row is yielded. *)
Theorem header_callback_replaces_headers (s : tsv) (disk : gmap string string)
    (h : handle) (content : string) (d : Dialect) (f : headers_hook)
    (blanks : list event) (hd : event) (rest : list event) (names : list string) :
  file_is_exists s = true ->
  source s disk = Some (h, content) -> resolves s d ->
  has_headers s = false -> headers_is_first_line s = true ->
  headers_process_by s = Some f ->
  csv_records d (is_file h) content = blanks ++ hd :: rest ->
  forallb blank blanks = true -> ev_out hd = Fields names -> names <> [] ->
  forallb well_formed rest = true ->
  (forall h', f (Some names) = Ok h' ->
     read_all list_mode s disk = (Ok tt, list_rows rest, h'))
  /\ (forall e, f (Some names) = Raise e -> e <> StopIteration ->
     read_all list_mode s disk = (Raise e, [], Some names)).
Proof.
  intros He Hsrc Hd Hh Hf Hp Hev Hb Hhd Hn Hwf.
  pose proof (readlines_start list_mode s disk h content d He Hsrc Hd) as Hstart.
  cbn [fresh_reader list_mode r_asdict r_process_by] in Hstart.
  set (c0 := {| rd_handle := h; rd_events := csv_records d (is_file h) content;
                rd_line_num := 0 |}) in *.
  set (w0 := reading (ListReader c0) (start s disk)) in *.
  destruct (detect_headers_list w0 c0 eq_refl Hh Hf)
    as (w1 & Hdet & Hy1 & Hd1 & Hf1 & Hp1 & Hfound).
  cbn [rd_events rd_line_num c0] in Hdet, Hfound.
  rewrite Hev, (find_header_app blanks 0 hd rest names Hb Hhd Hn) in Hdet, Hfound.
  destruct Hfound as [Hr1 Hh1].
  pose proof (process_headers_list w1 _ Hr1) as Hproc.
  change (headers_process_by (w_self w0)) with (headers_process_by s) in Hp1.
  rewrite Hp1, Hp, Hh1 in Hproc.
  unfold read_all. rewrite Hstart. unfold generator_body, try_except.
  rewrite (bind_ok _ _ _ _ _ Hdet).
  split.
  - intros h' Hok. rewrite Hok in Hproc. rewrite (bind_ok _ _ _ _ _ Hproc).
    destruct (rows_loop_list (with_headers h' w1) _ Hr1)
      as (w' & Hl & Hy & Hdk & Hhd').
    rewrite Hl. cbn [rd_events rd_line_num] in *.
    rewrite (drain_well_formed _ _ Hwf) in *. cbn [fst snd] in *.
    rewrite Hy, Hhd'. simpl. now rewrite Hy1.
  - intros e Hraise Hne. rewrite Hraise in Hproc.
    rewrite (bind_raise _ _ _ _ _ Hproc).
    destruct e; try congruence; simpl; now rewrite Hy1, Hh1.
Qed.

(** X7. The row callback is called for every record with the row, the
    line number the reader has reached and the file name; the rows for which
    it returns [None] are skipped and the others are replaced by what it
    returns. *)
Theorem row_callback_filters_rows (s : tsv) (disk : gmap string string)
    (h : handle) (content : string) (d : Dialect)
    (g : row -> nat -> option string -> option row) :
  file_is_exists s = true ->
  source s disk = Some (h, content) -> resolves s d ->
  has_headers s || negb (headers_is_first_line s) = true ->
  headers_process_by s = None ->
  forallb well_formed (csv_records d (is_file h) content) = true ->
  read_all {| r_asdict := false; r_process_by := Some (total_hook g) |} s disk
  = (Ok tt, processed g (filename s) (csv_records d (is_file h) content) 0, headers s).
Proof.
  intros He Hsrc Hd Hg Hp Hwf. unfold read_all.
  rewrite (readlines_start _ s disk h content d He Hsrc Hd).
  cbn [fresh_reader r_asdict r_process_by].
  set (c0 := {| rd_handle := h; rd_events := csv_records d (is_file h) content;
                rd_line_num := 0 |}).
  set (w0 := reading (ListReader c0) (start s disk)).
  unfold generator_body, try_except.
  rewrite (bind_ok _ _ _ _ _ (detect_headers_gated w0 Hg)).
  rewrite (bind_ok _ _ _ _ _ (process_headers_none w0 Hp)).
  destruct (rows_loop_list_by g w0 c0 eq_refl Hwf) as (w' & Hl & Hy & Hdk & Hhd).
  rewrite Hl. now rewrite Hy, Hhd.
Qed.

(** X8. A malformed record met by the loop over the rows: the rows before
    it have been yielded, and the process exits with the file name, the line
    number of the malformed record and the message of csv.Error. *)
Theorem malformed_row_ends_the_process (s : tsv) (disk : gmap string string)
    (h : handle) (content : string) (d : Dialect)
    (good : list event) (bad : event) (rest : list event) (what : string) :
  file_is_exists s = true ->
  source s disk = Some (h, content) -> resolves s d ->
  has_headers s || negb (headers_is_first_line s) = true ->
  headers_process_by s = None ->
  csv_records d (is_file h) content = good ++ bad :: rest ->
  forallb well_formed good = true -> ev_out bad = Malformed what ->
  read_all list_mode s disk
  = (Exit {| em_file := filename s; em_line := lines_of good + ev_lines bad;
             em_error := what |},
     list_rows good, headers s).
Proof.
  intros He Hsrc Hd Hg Hp Hev Hwf Hbad.
  rewrite (readlines_list_mode s disk h content d) by assumption.
  now rewrite Hev, (drain_app good 0 bad rest what Hwf Hbad).
Qed.

End ListModeProperties.

(** ** csv.py: [DictReader] step by step *)

Section DictReaderFacts.
Context {csv : CsvLib}.

(** One call of [next] on the [csv.reader] inside any reader object. *)
Lemma csv_next_any w r e es :
  w_reader w = Some r -> rd_events (inner r) = e :: es ->
  exists w1,
    csv_next w = (match ev_out e with
                  | Fields l => Ok l
                  | Malformed what => Raise (CsvError what)
                  end, w1)
    /\ w_reader w1
       = Some (set_inner {| rd_handle := rd_handle (inner r); rd_events := es;
                            rd_line_num := rd_line_num (inner r) + ev_lines e |} r)
    /\ w_yield w1 = w_yield w /\ w_disk w1 = w_disk w
    /\ same_source (w_self w) (w_self w1).
Proof.
  intros Hr He. unfold csv_next, bind, get_reader. rewrite Hr. simpl. rewrite He.
  simpl. destruct (rd_handle (inner r)); simpl; destruct (ev_out e); eexists;
    (split; [reflexivity |]); simpl; repeat split; auto;
    try (destruct (text (w_self w)); simpl; congruence).
Qed.

Lemma csv_next_any_stop w r :
  w_reader w = Some r -> rd_events (inner r) = [] ->
  csv_next w = (Raise StopIteration, w).
Proof.
  intros Hr He. unfold csv_next, bind, get_reader. rewrite Hr. simpl. now rewrite He.
Qed.

(** [while row == []: row = next(self.reader)], started on an empty row. *)
Lemma skip_blank_dict evs : forall fuel w f n c,
  w_reader w = Some (DictReader f n c) -> rd_events c = evs ->
  length evs < fuel ->
  exists w',
    skip_blank fuel [] w
    = (match find_header evs (rd_line_num c) with
       | HStop => Raise StopIteration
       | HBad what => Raise (CsvError what)
       | HFound l _ _ => Ok l
       end, w')
    /\ w_yield w' = w_yield w /\ w_disk w' = w_disk w
    /\ same_source (w_self w) (w_self w')
    /\ (forall l rest ln,
          find_header evs (rd_line_num c) = HFound l rest ln ->
          w_reader w' = Some (DictReader f n {| rd_handle := rd_handle c;
                                                rd_events := rest; rd_line_num := ln |})).
Proof.
  induction evs as [|e es IH]; intros fuel w f n c Hr He Hfuel;
    (destruct fuel as [|fuel]; [simpl in Hfuel; lia |]).
  - exists w. simpl skip_blank. unfold bind at 1.
    rewrite (csv_next_any_stop w _ Hr He). simpl.
    repeat split; auto using same_source_refl. intros; discriminate.
  - destruct (csv_next_any w _ e es Hr He) as (w1 & Hn & Hr1 & Hy1 & Hd1 & Hs1).
    simpl in Hr1.
    simpl skip_blank. unfold bind at 1. rewrite Hn. simpl find_header.
    destruct (ev_out e) as [[|x l] | what].
    + destruct (IH fuel w1 f n _ Hr1 eq_refl) as (w' & Hl & Hy & Hd & Hs & Hx).
      { simpl in Hfuel. simpl. lia. }
      simpl rd_line_num in *. simpl rd_handle in *.
      exists w'. rewrite Hl. split; [reflexivity |].
      split; [congruence |]. split; [congruence |].
      split; [eapply same_source_trans; eassumption | exact Hx].
    + exists w1. split; [destruct fuel; reflexivity |].
      split; [assumption |]. split; [assumption |]. split; [assumption |].
      intros l0 rest ln [= <- <- <-]. exact Hr1.
    + exists w1. split; [reflexivity |].
      split; [assumption |]. split; [assumption |]. split; [assumption |].
      intros; discriminate.
Qed.

End DictReaderFacts.

Section DictReaderNext.
Context {csv : CsvLib}.

Lemma find_header_found evs : forall ln l rest ln',
  forallb well_formed evs = true ->
  find_header evs ln = HFound l rest ln' ->
  List.filter nonblank (map event_fields evs)
  = l :: List.filter nonblank (map event_fields rest)
  /\ length rest < length evs /\ forallb well_formed rest = true /\ l <> [].
Proof.
  induction evs as [|e es IH]; intros ln l rest ln' Hwf Hf; [discriminate |].
  cbn [forallb] in Hwf. apply andb_true_iff in Hwf as [He Hwf].
  cbn [find_header] in Hf. cbn [map List.filter length].
  unfold well_formed in He.
  destruct (ev_out e) as [[|x l0] | what] eqn:E; try discriminate.
  - assert (Hef : event_fields e = []) by (unfold event_fields; now rewrite E).
    rewrite Hef. cbn [nonblank].
    destruct (IH _ _ _ _ Hwf Hf) as (H1 & H2 & H3 & H4).
    repeat split; try assumption. now apply Nat.lt_lt_succ_r.
  - assert (Hef : event_fields e = x :: l0) by (unfold event_fields; now rewrite E).
    rewrite Hef. cbn [nonblank].
    injection Hf as <- <- <-.
    repeat split; try assumption; [apply Nat.lt_succ_diag_r | discriminate].
Qed.

Lemma find_header_stop evs : forall ln,
  forallb well_formed evs = true ->
  find_header evs ln = HStop ->
  List.filter nonblank (map event_fields evs) = [].
Proof.
  induction evs as [|e es IH]; intros ln Hwf Hf; [reflexivity |].
  cbn [forallb] in Hwf. apply andb_true_iff in Hwf as [He Hwf].
  cbn [find_header] in Hf. cbn [map List.filter].
  unfold well_formed in He.
  destruct (ev_out e) as [[|x l0] | what] eqn:E; try discriminate.
  assert (Hef : event_fields e = []) by (unfold event_fields; now rewrite E).
  rewrite Hef. cbn [nonblank]. exact (IH _ Hwf Hf).
Qed.

Lemma find_header_not_bad evs : forall ln what,
  forallb well_formed evs = true -> find_header evs ln <> HBad what.
Proof.
  induction evs as [|e es IH]; intros ln what Hwf; simpl in *; [discriminate |].
  apply andb_true_iff in Hwf as [He Hwf]. unfold well_formed in He.
  destruct (ev_out e) as [[|x l0] | w0]; try discriminate. now apply IH.
Qed.

Lemma sync_line_num_dict w f n c :
  w_reader w = Some (DictReader f n c) ->
  sync_line_num w = (Ok tt, reading (DictReader f (rd_line_num c) c) w).
Proof.
  intros Hr. unfold sync_line_num. now rewrite (bind_get_reader _ w _ Hr).
Qed.

(** The property [fieldnames] once the field names are known. *)
Lemma fieldnames_getter_some w names n c :
  w_reader w = Some (DictReader (Some names) n c) ->
  fieldnames_getter w
  = (Ok (Some names), reading (DictReader (Some names) (rd_line_num c) c) w).
Proof.
  intros Hr. unfold fieldnames_getter. rewrite (bind_get_reader _ w _ Hr).
  rewrite bind_ret_l.
  now rewrite (bind_ok _ _ _ _ _ (sync_line_num_dict w _ n c Hr)).
Qed.

Lemma reading_reading r r' w : reading r (reading r' w) = reading r w.
Proof. reflexivity. Qed.

(** [DictReader.__next__] once the field names are known: the next record
    with fields, as a mapping. *)
Lemma reader_next_dict w names n c :
  w_reader w = Some (DictReader (Some names) n c) ->
  exists w',
    reader_next w
    = (match find_header (rd_events c) (rd_line_num c) with
       | HStop => Raise StopIteration
       | HBad what => Raise (CsvError what)
       | HFound l _ _ => Ok (dict_row names l)
       end, w')
    /\ w_yield w' = w_yield w /\ w_disk w' = w_disk w
    /\ same_source (w_self w) (w_self w')
    /\ (forall l rest ln,
          find_header (rd_events c) (rd_line_num c) = HFound l rest ln ->
          w_reader w' = Some (DictReader (Some names) ln
                                {| rd_handle := rd_handle c; rd_events := rest;
                                   rd_line_num := ln |})).
Proof.
  intros Hr. unfold reader_next. rewrite (bind_get_reader _ w _ Hr).
  assert (HA : exists nA,
             (if n =? 0 then bind fieldnames_getter (fun _ => ret tt) else ret tt) w
             = (Ok tt, reading (DictReader (Some names) nA c) w)).
  { destruct (n =? 0).
    - exists (rd_line_num c).
      now rewrite (bind_ok _ _ _ _ _ (fieldnames_getter_some w names n c Hr)).
    - exists n. unfold ret, reading. rewrite <- Hr. now destruct w. }
  destruct HA as (nA & HA').
  rewrite (bind_ok _ _ _ _ _ HA'). clear HA'.
  set (wA := reading (DictReader (Some names) nA c) w).
  assert (HrA : w_reader wA = Some (DictReader (Some names) nA c)) by reflexivity.
  destruct (rd_events c) as [|e es] eqn:Hev.
  - exists wA. rewrite (bind_raise _ _ _ _ _ (csv_next_any_stop wA _ HrA Hev)).
    simpl. repeat split; auto using same_source_refl. intros; discriminate.
  - destruct (csv_next_any wA _ e es HrA Hev) as (w1 & Hn & Hr1 & Hy1 & Hd1 & Hs1).
    simpl in Hr1. simpl find_header.
    destruct (ev_out e) as [l | what].
    + rewrite (bind_ok _ _ _ _ _ Hn).
      rewrite (bind_ok _ _ _ _ _ (sync_line_num_dict w1 _ _ _ Hr1)).
      set (c1 := {| rd_handle := rd_handle c; rd_events := es;
                    rd_line_num := rd_line_num c + ev_lines e |}) in *.
      set (w2 := reading (DictReader (Some names) (rd_line_num c1) c1) w1).
      assert (Hr2 : w_reader w2 = Some (DictReader (Some names) (rd_line_num c1) c1))
        by reflexivity.
      assert (Hk : remaining w2 = (Ok (length es), w2)).
      { unfold remaining. now rewrite (bind_get_reader _ w2 _ Hr2). }
      rewrite (bind_ok _ _ _ _ _ Hk).
      destruct l as [|x l].
      * destruct (skip_blank_dict es (S (length es)) w2 _ _ c1 Hr2 eq_refl
                    (Nat.lt_succ_diag_r _)) as (w3 & Hl & Hy & Hd & Hs & Hx).
        unfold bind at 1. rewrite Hl. cbn [rd_line_num c1] in *.
        destruct (find_header es (rd_line_num c + ev_lines e)) as [|what|l' rest ln].
        -- exists w3. split; [reflexivity |]. simpl in *.
           split; [congruence |]. split; [congruence |].
           split; [eapply same_source_trans; eassumption |]. intros; discriminate.
        -- exists w3. split; [reflexivity |]. simpl in *.
           split; [congruence |]. split; [congruence |].
           split; [eapply same_source_trans; eassumption |]. intros; discriminate.
        -- pose proof (Hx l' rest ln eq_refl) as Hr3. cbn [rd_handle c1] in Hr3.
           rewrite (bind_ok _ _ _ _ _ (fieldnames_getter_some w3 names _ _ Hr3)).
           eexists. split; [reflexivity |]. simpl in *.
           split; [congruence |]. split; [congruence |].
           split; [eapply same_source_trans; eassumption |].
           intros l0 rest0 ln0 [= <- <- <-]. reflexivity.
      * assert (Hsk : skip_blank (S (length es)) (x :: l) w2 = (Ok (x :: l), w2))
          by reflexivity.
        rewrite (bind_ok _ _ _ _ _ Hsk).
        rewrite (bind_ok _ _ _ _ _ (fieldnames_getter_some w2 names _ _ Hr2)).
        eexists. split; [reflexivity |]. simpl in *.
        split; [congruence |]. split; [congruence |].
        split; [assumption |].
        intros l0 rest0 ln0 [= <- <- <-]. reflexivity.
    + rewrite (bind_raise _ _ _ _ _ Hn). exists w1. split; [reflexivity |].
      simpl in *. repeat split; try assumption; try apply Hs1. intros; discriminate.
Qed.

End DictReaderNext.

(** ** Reading in mapping mode: the loop *)

Section DictLoop.
Context {csv : CsvLib}.

(** The loop [for line in reader] over a [DictReader] whose field names are
    known and whose records are well formed. *)
Lemma read_loop_dict names : forall fuel evs w n c,
  w_reader w = Some (DictReader (Some names) n c) -> rd_events c = evs ->
  forallb well_formed evs = true ->
  length evs < fuel ->
  exists w',
    read_loop fuel None w = (Ok tt, w')
    /\ w_yield w' = w_yield w ++ dict_rows names evs
    /\ w_disk w' = w_disk w
    /\ same_source (w_self w) (w_self w').
Proof.
  induction fuel as [|fuel IH]; intros evs w n c Hr He Hwf Hfuel; [lia |].
  destruct (reader_next_dict w names n c Hr) as (w1 & Hn & Hy1 & Hd1 & Hs1 & Hx).
  rewrite He in Hn, Hx.
  simpl read_loop. unfold bind at 1, try_except. unfold bind at 1. rewrite Hn.
  destruct (find_header evs (rd_line_num c)) as [| what | l rest ln] eqn:Ef.
  - exists w1. split; [reflexivity |].
    unfold dict_rows. rewrite (find_header_stop evs _ Hwf Ef). simpl.
    rewrite app_nil_r. repeat split; try assumption; apply Hs1.
  - now elim (find_header_not_bad evs (rd_line_num c) what Hwf).
  - destruct (find_header_found evs _ _ _ _ Hwf Ef) as (F1 & F2 & F3 & F4).
    pose proof (Hx l rest ln eq_refl) as Hr1.
    cbn [ret]. cbv beta iota. rewrite bind_ret_l.
    unfold bind at 1, yield at 1.
    set (w2 := {| w_self := w_self w1; w_disk := w_disk w1;
                  w_reader := w_reader w1; w_yield := w_yield w1 ++ [dict_row names l] |}).
    destruct (IH rest w2 _ _ Hr1 eq_refl F3) as (w' & Hl & Hy & Hd & Hs).
    { lia. }
    exists w'. rewrite Hl. split; [reflexivity |].
    unfold dict_rows in *. rewrite F1. simpl in Hy |- *.
    split; [rewrite Hy, Hy1, <- app_assoc; reflexivity |].
    split; [simpl in Hd; congruence |].
    eapply same_source_trans; [exact Hs1 | exact Hs].
Qed.

Lemma rows_loop_dict names (w : world) n (c : csv_reader) :
  w_reader w = Some (DictReader (Some names) n c) ->
  forallb well_formed (rd_events c) = true ->
  exists w',
    bind remaining (fun k => exit_on_csv_error (read_loop (S k) None)) w = (Ok tt, w')
    /\ w_yield w' = w_yield w ++ dict_rows names (rd_events c)
    /\ w_disk w' = w_disk w
    /\ headers (w_self w') = headers (w_self w).
Proof.
  intros Hr Hwf.
  assert (Hk : remaining w = (Ok (length (rd_events c)), w)).
  { unfold remaining. now rewrite (bind_get_reader _ w _ Hr). }
  rewrite (bind_ok _ _ _ _ _ Hk).
  destruct (read_loop_dict names (S (length (rd_events c))) (rd_events c) w n c
              Hr eq_refl Hwf (Nat.lt_succ_diag_r _))
    as (w' & Hl & Hy & Hdk & Hs).
  unfold exit_on_csv_error, try_except. rewrite Hl.
  destruct Hs as (S1 & _ & S4 & _).
  exists w'. repeat split; assumption.
Qed.

End DictLoop.

(** ** Reading in mapping mode: header detection *)

Section DictDetect.
Context {csv : CsvLib}.

Lemma fieldnames_setter_dict w f n c v :
  w_reader w = Some (DictReader f n c) ->
  fieldnames_setter v w = (Ok tt, reading (DictReader v n c) w).
Proof.
  intros Hr. unfold fieldnames_setter. now rewrite (bind_get_reader _ w _ Hr).
Qed.

Lemma find_header_nonempty evs : forall ln l rest ln',
  find_header evs ln = HFound l rest ln' -> nonblank l = true.
Proof.
  induction evs as [|e es IH]; intros ln l rest ln' Hf; [discriminate |].
  cbn [find_header] in Hf.
  destruct (ev_out e) as [[|x l0] | what]; try discriminate.
  - exact (IH _ _ _ _ Hf).
  - now injection Hf as <- <- <-.
Qed.

(** With no field name, every field of a record goes under the key [None]. *)
Lemma dict_row_no_names l : nonblank l = true -> dict_row [] l = RDict [] (Some l).
Proof. destruct l; [discriminate | reflexivity]. Qed.

(** The first access to the property [fieldnames] of a [DictReader] built
    without field names reads a record of the stream. *)
Lemma fieldnames_getter_fresh w n c :
  w_reader w = Some (DictReader None n c) ->
  exists w1,
    fieldnames_getter w
    = (match rd_events c with
       | [] => Ok None
       | e :: _ =>
           match ev_out e with
           | Fields l => Ok (Some l)
           | Malformed what => Raise (CsvError what)
           end
       end, w1)
    /\ w_yield w1 = w_yield w /\ w_disk w1 = w_disk w
    /\ same_source (w_self w) (w_self w1)
    /\ match rd_events c with
       | [] => w_reader w1 = Some (DictReader None (rd_line_num c) c)
                /\ w_self w1 = w_self w
       | e :: es =>
           match ev_out e with
           | Fields l =>
               w_reader w1
               = Some (DictReader (Some l) (rd_line_num c + ev_lines e)
                         {| rd_handle := rd_handle c; rd_events := es;
                            rd_line_num := rd_line_num c + ev_lines e |})
           | Malformed _ => True
           end
       end.
Proof.
  intros Hr. unfold fieldnames_getter. rewrite (bind_get_reader _ w _ Hr).
  destruct (rd_events c) as [|e es] eqn:Hev.
  - assert (Hg : try_except (bind csv_next (fun l => fieldnames_setter (Some l)))
                   (fun e => match e with StopIteration => Some (ret tt) | _ => None end)
                   w = (Ok tt, w)).
    { unfold try_except, bind. now rewrite (csv_next_any_stop w _ Hr Hev). }
    rewrite (bind_ok _ _ _ _ _ Hg).
    rewrite (bind_ok _ _ _ _ _ (sync_line_num_dict w _ _ _ Hr)).
    eexists. split; [reflexivity |]. simpl.
    repeat split; auto.
  - destruct (csv_next_any w _ e es Hr Hev) as (w1 & Hn & Hr1 & Hy1 & Hd1 & Hs1).
    cbn [set_inner inner] in Hr1.
    destruct (ev_out e) as [l | what].
    + assert (Hg : try_except (bind csv_next (fun l => fieldnames_setter (Some l)))
                   (fun e => match e with StopIteration => Some (ret tt) | _ => None end)
                   w = (Ok tt, reading (DictReader (Some l) n
                                          {| rd_handle := rd_handle c; rd_events := es;
                                             rd_line_num := rd_line_num c + ev_lines e |})
                                w1)).
      { unfold try_except. rewrite (bind_ok _ _ _ _ _ Hn).
        now rewrite (fieldnames_setter_dict w1 _ _ _ (Some l) Hr1). }
      rewrite (bind_ok _ _ _ _ _ Hg).
      set (c1 := {| rd_handle := rd_handle c; rd_events := es;
                    rd_line_num := rd_line_num c + ev_lines e |}) in *.
      rewrite (bind_ok _ _ _ _ _
                 (sync_line_num_dict (reading (DictReader (Some l) n c1) w1)
                    (Some l) n c1 eq_refl)).
      eexists. split; [reflexivity |]. simpl. repeat split; try assumption; apply Hs1.
    + assert (Hg : try_except (bind csv_next (fun l => fieldnames_setter (Some l)))
                   (fun e => match e with StopIteration => Some (ret tt) | _ => None end)
                   w = (Raise (CsvError what), w1)).
      { unfold try_except. now rewrite (bind_raise _ _ _ _ _ Hn). }
      rewrite (bind_raise _ _ _ _ _ Hg).
      exists w1. split; [reflexivity |]. repeat split; try assumption; apply Hs1.
Qed.

(** [next(reader)] on an exhausted [DictReader]. *)
Lemma reader_next_exhausted w f n c :
  w_reader w = Some (DictReader f n c) -> rd_events c = [] ->
  exists w1, reader_next w = (Raise StopIteration, w1)
    /\ w_yield w1 = w_yield w /\ w_disk w1 = w_disk w /\ w_self w1 = w_self w.
Proof.
  intros Hr Hev. unfold reader_next. rewrite (bind_get_reader _ w _ Hr).
  assert (HA : exists wA,
             (if n =? 0 then bind fieldnames_getter (fun _ => ret tt) else ret tt) w
             = (Ok tt, wA)
             /\ w_yield wA = w_yield w /\ w_disk wA = w_disk w /\ w_self wA = w_self w
             /\ exists nA, w_reader wA = Some (DictReader f nA c)).
  { destruct (n =? 0).
    - destruct f as [names|].
      + rewrite (bind_ok _ _ _ _ _ (fieldnames_getter_some w names n c Hr)).
        eexists. split; [reflexivity |]. simpl. repeat split; eauto.
      + destruct (fieldnames_getter_fresh w n c Hr) as (w1 & Hg & Hy & Hd & Hs & Hx).
        rewrite Hev in Hg, Hx. destruct Hx as [Hx1 Hx2].
        rewrite (bind_ok _ _ _ _ _ Hg). exists w1. split; [reflexivity |].
        repeat split; eauto.
    - exists w. split; [reflexivity |]. repeat split; eauto. }
  destruct HA as (wA & HA & Hy & Hd & Hs & nA & HrA).
  rewrite (bind_ok _ _ _ _ _ HA).
  rewrite (bind_raise _ _ _ _ _ (csv_next_any_stop wA _ HrA Hev)).
  exists wA. repeat split; assumption.
Qed.

(** Header detection over a [DictReader] built without field names. *)
Lemma detect_headers_dict (w0 : world) (c0 : csv_reader) :
  w_reader w0 = Some (DictReader None 0 c0) ->
  has_headers (w_self w0) = false -> headers_is_first_line (w_self w0) = true ->
  exists w1,
    _detect_headers w0
    = (match find_header (rd_events c0) (rd_line_num c0) with
       | HStop => Raise StopIteration
       | HBad what => Raise (CsvError what)
       | HFound _ _ _ => Ok tt
       end, w1)
    /\ w_yield w1 = w_yield w0 /\ w_disk w1 = w_disk w0
    /\ filename (w_self w1) = filename (w_self w0)
    /\ headers_process_by (w_self w1) = headers_process_by (w_self w0)
    /\ match find_header (rd_events c0) (rd_line_num c0) with
       | HFound names rest ln =>
           w_reader w1 = Some (DictReader (Some names) ln
                                 {| rd_handle := rd_handle c0;
                                    rd_events := rest; rd_line_num := ln |})
           /\ headers (w_self w1) = Some names
       | _ => headers (w_self w1) = headers (w_self w0)
       end.
Proof.
  intros Hr Hh Hf.
  unfold _detect_headers. rewrite bind_get_self, Hh, Hf. cbn [negb].
  assert (Hga : getattr_fieldnames w0 = fieldnames_getter w0).
  { unfold getattr_fieldnames. now rewrite (bind_get_reader _ w0 _ Hr). }
  destruct (fieldnames_getter_fresh w0 0 c0 Hr) as (w1 & Hg & Hy1 & Hd1 & Hs1 & Hx1).
  rewrite <- Hga in Hg.
  destruct Hs1 as (S1 & S2 & S3 & S4 & S5 & S6).
  destruct (rd_events c0) as [|e es] eqn:Hev.
  - destruct Hx1 as [Hr1 Hself].
    rewrite (bind_ok _ _ _ _ _ Hg). cbn [names_truthy].
    assert (Hk : remaining w1 = (Ok 0, w1)).
    { unfold remaining. rewrite (bind_get_reader _ w1 _ Hr1). simpl. now rewrite Hev. }
    rewrite (bind_ok _ _ _ _ _ Hk).
    destruct (reader_next_exhausted w1 _ _ _ Hr1 Hev) as (w2 & Hn & Hy2 & Hd2 & Hs2).
    exists w2. cbn [skip_empty]. unfold bind at 1. unfold bind at 1. rewrite Hn.
    cbn [find_header]. split; [reflexivity |]. rewrite Hs2. repeat split; congruence.
  - cbn [find_header].
    set (c1 := {| rd_handle := rd_handle c0; rd_events := es;
                  rd_line_num := rd_line_num c0 + ev_lines e |}) in *.
    destruct (ev_out e) as [[|x l] | what].
    + (* an empty first line: the next record with fields is the header *)
      rewrite (bind_ok _ _ _ _ _ Hg). cbn [names_truthy].
      assert (Hk : remaining w1 = (Ok (length es), w1)).
      { unfold remaining. now rewrite (bind_get_reader _ w1 _ Hx1). }
      rewrite (bind_ok _ _ _ _ _ Hk).
      destruct (reader_next_dict w1 [] _ c1 Hx1)
        as (w2 & Hn2 & Hy2 & Hd2 & Hs2 & Hx2).
      cbn [rd_events rd_line_num rd_handle c1] in Hn2, Hx2.
      cbn [skip_empty]. unfold bind at 1. unfold bind at 1. rewrite Hn2.
      destruct Hs2 as (T1 & T2 & T3 & T4 & T5 & T6).
      destruct (find_header es (rd_line_num c0 + ev_lines e))
        as [| what | names rest ln] eqn:Ef.
      * exists w2. split; [reflexivity |]. repeat split; congruence.
      * exists w2. split; [reflexivity |]. repeat split; congruence.
      * pose proof (Hx2 names rest ln eq_refl) as Hr2.
        rewrite (dict_row_no_names names (find_header_nonempty _ _ _ _ _ Ef)).
        cbn [row_truthy ret]. cbv beta iota. rewrite bind_ret_l.
        unfold bind at 1, modify_self at 1.
        set (w3 := {| w_self := set_headers (Some names) (w_self w2);
                      w_disk := w_disk w2; w_reader := w_reader w2;
                      w_yield := w_yield w2 |}).
        assert (Hr3 : w_reader w3 = Some (DictReader (Some []) ln
                                            {| rd_handle := rd_handle c0;
                                               rd_events := rest;
                                               rd_line_num := ln |})) by exact Hr2.
        rewrite (fieldnames_setter_dict w3 _ _ _ (Some names) Hr3).
        eexists. split; [reflexivity |].
        cbn [reading w_self w_yield w_disk w_reader w3 set_headers
             filename headers headers_process_by].
        repeat split; congruence.
    + rewrite (bind_ok _ _ _ _ _ Hg). cbn [names_truthy].
      rewrite (bind_ok _ _ _ _ _ (fieldnames_getter_some w1 _ _ _ Hx1)).
      unfold modify_self.
      eexists. split; [reflexivity |].
      cbn [reading w_self w_yield w_disk w_reader set_headers
           filename headers headers_process_by c1 rd_line_num].
      repeat split; congruence.
    + rewrite (bind_raise _ _ _ _ _ Hg).
      exists w1. split; [reflexivity |]. repeat split; congruence.
Qed.

End DictDetect.

(** ** Reading in mapping mode: the properties *)

Section MappingModeProperties.
Context {csv : CsvLib}.

(** The header callback when the reader is a [DictReader] that knows its
    field names: the names the callback returns become the headers of the
    session and the field names of the reader. *)
Lemma process_headers_dict (w : world) f names names' n c :
  w_reader w = Some (DictReader (Some names) n c) -> names <> [] ->
  headers_process_by (w_self w) = Some f ->
  f (headers (w_self w)) = Ok (Some names') ->
  exists w1,
    _process_headers w = (Ok tt, w1)
    /\ w_yield w1 = w_yield w /\ w_disk w1 = w_disk w
    /\ filename (w_self w1) = filename (w_self w)
    /\ headers (w_self w1) = Some names'
    /\ w_reader w1 = Some (DictReader (Some names') (rd_line_num c) c).
Proof.
  intros Hr Hn Hp Hf. unfold _process_headers. rewrite bind_get_self, Hp.
  unfold bind at 1, lift. rewrite Hf.
  unfold bind at 1, modify_self.
  set (w1 := {| w_self := set_headers (Some names') (w_self w); w_disk := w_disk w;
                w_reader := w_reader w; w_yield := w_yield w |}).
  assert (Hr1 : w_reader w1 = Some (DictReader (Some names) n c)) by exact Hr.
  assert (Hg : getattr_fieldnames w1
               = (Ok (Some names),
                  reading (DictReader (Some names) (rd_line_num c) c) w1)).
  { unfold getattr_fieldnames. rewrite (bind_get_reader _ w1 _ Hr1).
    exact (fieldnames_getter_some w1 names n c Hr1). }
  rewrite (bind_ok _ _ _ _ _ Hg).
  assert (Ht : names_truthy (Some names) = true) by (destruct names; [congruence | reflexivity]).
  rewrite Ht.
  destruct (decide (Some names = Some names')) as [E | E].
  - injection E as <-. eexists. split; [reflexivity |]. repeat split.
  - rewrite (fieldnames_setter_dict
               (reading (DictReader (Some names) (rd_line_num c) c) w1)
               (Some names) (rd_line_num c) c (Some names') eq_refl).
    eexists. split; [reflexivity |]. repeat split.
Qed.

(** [readlines] in mapping mode when the headers are set: no line is
    looked at for the headers, and every record with fields is yielded as a
    mapping under these headers. *)
Lemma readlines_dict_mode_known (s : tsv) (disk : gmap string string) h content d :
  file_is_exists s = true ->
  source s disk = Some (h, content) -> resolves s d ->
  has_headers s = true -> headers_process_by s = None ->
  forallb well_formed (csv_records d (is_file h) content) = true ->
  read_all dict_mode s disk
  = (Ok tt, dict_rows (default [] (headers s)) (csv_records d (is_file h) content),
     headers s).
Proof.
  intros He Hsrc Hd Hh Hp Hwf. unfold read_all.
  rewrite (readlines_start _ s disk h content d He Hsrc Hd).
  cbn [fresh_reader r_asdict r_process_by dict_mode]. rewrite Hh.
  destruct (headers s) as [names|] eqn:Hn;
    [| unfold has_headers in Hh; rewrite Hn in Hh; discriminate].
  set (c0 := {| rd_handle := h; rd_events := csv_records d (is_file h) content;
                rd_line_num := 0 |}).
  set (w0 := reading (DictReader (Some names) 0 c0) (start s disk)).
  unfold generator_body, try_except.
  assert (Hg : has_headers (w_self w0) || negb (headers_is_first_line (w_self w0)) = true)
    by (simpl; now rewrite Hh).
  rewrite (bind_ok _ _ _ _ _ (detect_headers_gated w0 Hg)).
  rewrite (bind_ok _ _ _ _ _ (process_headers_none w0 Hp)).
  destruct (rows_loop_dict names w0 0 c0 eq_refl Hwf) as (w' & Hl & Hy & Hdk & Hhd).
  rewrite Hl. simpl in Hy, Hhd. now rewrite Hy, Hhd, Hn.
Qed.

(** [readlines] in mapping mode when the headers are unset and looked for
    on the first line: the first record with fields gives the headers, the
    records after it are yielded as mappings. *)
Lemma readlines_dict_mode_header (s : tsv) (disk : gmap string string) h content d
    names rest ln :
  file_is_exists s = true ->
  source s disk = Some (h, content) -> resolves s d ->
  has_headers s = false -> headers_is_first_line s = true ->
  headers_process_by s = None ->
  find_header (csv_records d (is_file h) content) 0 = HFound names rest ln ->
  forallb well_formed rest = true ->
  read_all dict_mode s disk = (Ok tt, dict_rows names rest, Some names).
Proof.
  intros He Hsrc Hd Hh Hf Hp Hfind Hwf. unfold read_all.
  rewrite (readlines_start _ s disk h content d He Hsrc Hd).
  cbn [fresh_reader r_asdict r_process_by dict_mode]. rewrite Hh.
  set (c0 := {| rd_handle := h; rd_events := csv_records d (is_file h) content;
                rd_line_num := 0 |}).
  set (w0 := reading (DictReader None 0 c0) (start s disk)).
  destruct (detect_headers_dict w0 c0 eq_refl Hh Hf)
    as (w1 & Hdet & Hy1 & Hd1 & Hf1 & Hp1 & Hfound).
  cbn [rd_events rd_line_num c0] in Hdet, Hfound.
  rewrite Hfind in Hdet, Hfound.
  destruct Hfound as [Hr1 Hh1].
  unfold generator_body, try_except.
  rewrite (bind_ok _ _ _ _ _ Hdet).
  assert (Hp1' : headers_process_by (w_self w1) = None) by (rewrite Hp1; exact Hp).
  rewrite (bind_ok _ _ _ _ _ (process_headers_none w1 Hp1')).
  destruct (rows_loop_dict names w1 _ _ Hr1 Hwf) as (w' & Hl & Hy & Hdk & Hhd').
  rewrite Hl. cbn [rd_events] in Hy. now rewrite Hy, Hhd', Hy1, Hh1.
Qed.

(** X9. Mapping mode with explicit headers: no line is taken as the
    header line; every record with fields is yielded as a mapping under the
    headers (fields beyond the headers under the key [None], missing ones
    as [None]) and the records without fields are skipped. *)
Theorem mapping_read_with_explicit_headers (s : tsv) (disk : gmap string string)
    (h : handle) (content : string) (d : Dialect) (names : list string) :
  file_is_exists s = true ->
  source s disk = Some (h, content) -> resolves s d ->
  headers s = Some names -> names <> [] ->
  headers_process_by s = None ->
  forallb well_formed (csv_records d (is_file h) content) = true ->
  read_all dict_mode s disk
  = (Ok tt, dict_rows names (csv_records d (is_file h) content), Some names).
Proof.
  intros He Hsrc Hd Hn Hne Hp Hwf.
  assert (Hh : has_headers s = true).
  { unfold has_headers. rewrite Hn. destruct names; [congruence | reflexivity]. }
  rewrite (readlines_dict_mode_known s disk h content d) by assumption.
  now rewrite Hn.
Qed.

(** X10. Mapping mode with the default parameters: the first record with
    fields gives the headers, also when empty lines come before it, and the
    records after it are yielded as mappings under these headers. *)
Theorem mapping_read_takes_the_header_line (s : tsv) (disk : gmap string string)
    (h : handle) (content : string) (d : Dialect)
    (blanks : list event) (hd : event) (rest : list event) (names : list string) :
  file_is_exists s = true ->
  source s disk = Some (h, content) -> resolves s d ->
  has_headers s = false -> headers_is_first_line s = true ->
  headers_process_by s = None ->
  csv_records d (is_file h) content = blanks ++ hd :: rest ->
  forallb blank blanks = true -> ev_out hd = Fields names -> names <> [] ->
  forallb well_formed rest = true ->
  read_all dict_mode s disk = (Ok tt, dict_rows names rest, Some names).
Proof.
  intros He Hsrc Hd Hh Hf Hp Hev Hb Hhd Hn Hwf.
  apply (readlines_dict_mode_header s disk h content d names rest
           (0 + lines_of blanks + ev_lines hd)); try assumption.
  rewrite Hev. now apply find_header_app.
Qed.

(** X12. In mapping mode the names the header callback returns become the
    field names of the reader: the rows are keyed by them. *)
Theorem header_callback_renames_columns (s : tsv) (disk : gmap string string)
    (h : handle) (content : string) (d : Dialect) (f : headers_hook)
    (blanks : list event) (hd : event) (rest : list event)
    (names names' : list string) :
  file_is_exists s = true ->
  source s disk = Some (h, content) -> resolves s d ->
  has_headers s = false -> headers_is_first_line s = true ->
  headers_process_by s = Some f -> f (Some names) = Ok (Some names') ->
  csv_records d (is_file h) content = blanks ++ hd :: rest ->
  forallb blank blanks = true -> ev_out hd = Fields names -> names <> [] ->
  forallb well_formed rest = true ->
  read_all dict_mode s disk = (Ok tt, dict_rows names' rest, Some names').
Proof.
  intros He Hsrc Hd Hh Hf Hp Hfn Hev Hb Hhd Hn Hwf. unfold read_all.
  rewrite (readlines_start _ s disk h content d He Hsrc Hd).
  cbn [fresh_reader r_asdict r_process_by dict_mode]. rewrite Hh.
  set (c0 := {| rd_handle := h; rd_events := csv_records d (is_file h) content;
                rd_line_num := 0 |}).
  set (w0 := reading (DictReader None 0 c0) (start s disk)).
  destruct (detect_headers_dict w0 c0 eq_refl Hh Hf)
    as (w1 & Hdet & Hy1 & Hd1 & Hf1 & Hp1 & Hfound).
  cbn [rd_events rd_line_num c0] in Hdet, Hfound.
  rewrite Hev, (find_header_app blanks 0 hd rest names Hb Hhd Hn) in Hdet, Hfound.
  destruct Hfound as [Hr1 Hh1].
  unfold generator_body, try_except.
  rewrite (bind_ok _ _ _ _ _ Hdet).
  assert (Hp1' : headers_process_by (w_self w1) = Some f) by (rewrite Hp1; exact Hp).
  assert (Hfn' : f (headers (w_self w1)) = Ok (Some names')) by (rewrite Hh1; exact Hfn).
  destruct (process_headers_dict w1 f names names' _ _ Hr1 Hn Hp1' Hfn')
    as (w2 & Hproc & Hy2 & Hd2 & Hf2 & Hh2 & Hr2).
  rewrite (bind_ok _ _ _ _ _ Hproc).
  destruct (rows_loop_dict names' w2 _ _ Hr2 Hwf) as (w' & Hl & Hy & Hdk & Hhd').
  rewrite Hl. cbn [rd_events] in Hy. now rewrite Hy, Hhd', Hy2, Hy1, Hh2.
Qed.

End MappingModeProperties.

(** ** Reading in mapping mode without a header line *)

Section DictNoHeaderLine.
Context {csv : CsvLib}.

Lemma reading_self r w : w_reader w = Some r -> reading r w = w.
Proof. intros H. unfold reading. rewrite <- H. now destruct w. Qed.

Lemma reader_next_unfold w f n c :
  w_reader w = Some (DictReader f n c) ->
  reader_next w
  = bind (if n =? 0 then bind fieldnames_getter (fun _ => ret tt) else ret tt)
         (fun _ => dict_next_tail) w.
Proof. intros Hr. unfold reader_next. now rewrite (bind_get_reader _ w _ Hr). Qed.

(** Once the field names are known and [line_num] is up to date, the test
    on [line_num] changes nothing. *)
Lemma dict_next_tail_eq w names c :
  w_reader w = Some (DictReader (Some names) (rd_line_num c) c) ->
  dict_next_tail w = reader_next w.
Proof.
  intros Hr. rewrite (reader_next_unfold w _ _ _ Hr).
  destruct (rd_line_num c =? 0); [|reflexivity].
  rewrite (bind_ok _ _ _ _ _
             (bind_ok _ (fun _ => ret tt) _ _ _ (fieldnames_getter_some w names _ c Hr))).
  now rewrite (reading_self _ w Hr).
Qed.

(** The first call of [next] on a [DictReader] built without field names
    takes them from the first record. *)
Lemma reader_next_first w c e es names :
  w_reader w = Some (DictReader None 0 c) -> rd_events c = e :: es ->
  ev_out e = Fields names ->
  exists w',
    reader_next w
    = (match find_header es (rd_line_num c + ev_lines e) with
       | HStop => Raise StopIteration
       | HBad what => Raise (CsvError what)
       | HFound l _ _ => Ok (dict_row names l)
       end, w')
    /\ w_yield w' = w_yield w /\ w_disk w' = w_disk w
    /\ same_source (w_self w) (w_self w')
    /\ (forall l rest ln,
          find_header es (rd_line_num c + ev_lines e) = HFound l rest ln ->
          w_reader w' = Some (DictReader (Some names) ln
                                {| rd_handle := rd_handle c; rd_events := rest;
                                   rd_line_num := ln |})).
Proof.
  intros Hr Hev He. rewrite (reader_next_unfold w _ _ _ Hr). cbn [Nat.eqb].
  destruct (fieldnames_getter_fresh w 0 c Hr) as (w1 & Hg & Hy1 & Hd1 & Hs1 & Hx1).
  rewrite Hev, He in Hg, Hx1.
  rewrite (bind_ok _ _ _ _ _ (bind_ok _ (fun _ => ret tt) _ _ _ Hg)).
  set (c1 := {| rd_handle := rd_handle c; rd_events := es;
                rd_line_num := rd_line_num c + ev_lines e |}) in *.
  assert (Hr1 : w_reader w1 = Some (DictReader (Some names) (rd_line_num c1) c1))
    by exact Hx1.
  rewrite (dict_next_tail_eq w1 names c1 Hr1).
  destruct (reader_next_dict w1 names _ c1 Hr1) as (w2 & Hn & Hy2 & Hd2 & Hs2 & Hx2).
  exists w2. split; [exact Hn |].
  split; [congruence |]. split; [congruence |].
  split; [eapply same_source_trans; eassumption | exact Hx2].
Qed.

Lemma read_loop_dict_first names : forall fuel w c e es,
  w_reader w = Some (DictReader None 0 c) -> rd_events c = e :: es ->
  ev_out e = Fields names ->
  forallb well_formed es = true ->
  length (e :: es) < fuel ->
  exists w',
    read_loop fuel None w = (Ok tt, w')
    /\ w_yield w' = w_yield w ++ dict_rows names es
    /\ w_disk w' = w_disk w
    /\ same_source (w_self w) (w_self w').
Proof.
  intros fuel w c e es Hr Hev He Hwf Hfuel.
  destruct fuel as [|fuel]; [lia |].
  destruct (reader_next_first w c e es names Hr Hev He)
    as (w1 & Hn & Hy1 & Hd1 & Hs1 & Hx).
  simpl read_loop. unfold bind at 1, try_except. unfold bind at 1. rewrite Hn.
  destruct (find_header es (rd_line_num c + ev_lines e)) as [| what | l rest ln] eqn:Ef.
  - exists w1. split; [reflexivity |].
    unfold dict_rows. rewrite (find_header_stop es _ Hwf Ef). simpl.
    rewrite app_nil_r. repeat split; try assumption; apply Hs1.
  - now elim (find_header_not_bad es (rd_line_num c + ev_lines e) what Hwf).
  - destruct (find_header_found es _ _ _ _ Hwf Ef) as (F1 & F2 & F3 & F4).
    pose proof (Hx l rest ln eq_refl) as Hr1.
    cbn [ret]. cbv beta iota. rewrite bind_ret_l.
    unfold bind at 1, yield at 1.
    set (w2 := {| w_self := w_self w1; w_disk := w_disk w1;
                  w_reader := w_reader w1; w_yield := w_yield w1 ++ [dict_row names l] |}).
    destruct (read_loop_dict names fuel rest w2 _ _ Hr1 eq_refl F3)
      as (w' & Hl & Hy & Hd & Hs).
    { simpl in Hfuel. lia. }
    exists w'. rewrite Hl. split; [reflexivity |].
    unfold dict_rows in *. rewrite F1. simpl in Hy |- *.
    split; [rewrite Hy, Hy1, <- app_assoc; reflexivity |].
    split; [simpl in Hd; congruence |].
    eapply same_source_trans; [exact Hs1 | exact Hs].
Qed.

(** X11. Mapping mode with [headers_is_first_line=False] and no headers:
    [csv.DictReader] receives no field names and takes them from the first
    record itself, so the first record is not yielded and the rows are keyed
    by it, while the headers of the session stay as they were. *)
Theorem mapping_read_without_headers_takes_first_record (s : tsv)
    (disk : gmap string string) (h : handle) (content : string) (d : Dialect)
    (hd : event) (rest : list event) (names : list string) :
  file_is_exists s = true ->
  source s disk = Some (h, content) -> resolves s d ->
  has_headers s = false -> headers_is_first_line s = false ->
  headers_process_by s = None ->
  csv_records d (is_file h) content = hd :: rest ->
  ev_out hd = Fields names -> forallb well_formed rest = true ->
  read_all dict_mode s disk = (Ok tt, dict_rows names rest, headers s).
Proof.
  intros He Hsrc Hd Hh Hf Hp Hev Hhd Hwf. unfold read_all.
  rewrite (readlines_start _ s disk h content d He Hsrc Hd).
  cbn [fresh_reader r_asdict r_process_by dict_mode]. rewrite Hh.
  set (c0 := {| rd_handle := h; rd_events := csv_records d (is_file h) content;
                rd_line_num := 0 |}).
  set (w0 := reading (DictReader None 0 c0) (start s disk)).
  unfold generator_body, try_except.
  assert (Hg : has_headers (w_self w0) || negb (headers_is_first_line (w_self w0)) = true)
    by (simpl; now rewrite Hf, orb_true_r).
  rewrite (bind_ok _ _ _ _ _ (detect_headers_gated w0 Hg)).
  rewrite (bind_ok _ _ _ _ _ (process_headers_none w0 Hp)).
  assert (Hk : remaining w0 = (Ok (length (rd_events c0)), w0)) by reflexivity.
  rewrite (bind_ok _ _ _ _ _ Hk).
  destruct (read_loop_dict_first names (S (length (rd_events c0))) w0 c0 hd rest
              eq_refl Hev Hhd Hwf) as (w' & Hl & Hy & Hdk & Hs).
  { cbn [rd_events c0]. rewrite Hev. apply Nat.lt_succ_diag_r. }
  unfold exit_on_csv_error, try_except. rewrite Hl.
  destruct Hs as (_ & _ & S4 & _). simpl in Hy, S4. now rewrite Hy, S4.
Qed.

End DictNoHeaderLine.

(** ** What reading never touches *)

Section ReadFrame.
Context {csv : CsvLib}.

Lemma read_frame_refl s : read_frame s s.
Proof. repeat split. Qed.

Lemma read_frame_trans s1 s2 s3 :
  read_frame s1 s2 -> read_frame s2 s3 -> read_frame s1 s3.
Proof.
  intros (A1 & A2 & A3 & A4 & A5 & A6) (B1 & B2 & B3 & B4 & B5 & B6).
  repeat split; congruence.
Qed.

Lemma ro_pure {A} (m : M A) : (forall w, snd (m w) = w) -> reads_only m.
Proof.
  intros H w. rewrite H. split; [apply read_frame_refl |]. split; [reflexivity |].
  exists []. now rewrite app_nil_r.
Qed.

Lemma ro_bind {A B} (m : M A) (k : A -> M B) :
  reads_only m -> (forall a, reads_only (k a)) -> reads_only (bind m k).
Proof.
  intros Hm Hk w. unfold bind. specialize (Hm w).
  destruct (m w) as [[a|e|x] w']; simpl in *; try exact Hm.
  destruct Hm as (F1 & D1 & r1 & Y1). destruct (Hk a w') as (F2 & D2 & r2 & Y2).
  split; [eapply read_frame_trans; eassumption |]. split; [congruence |].
  exists (r1 ++ r2). now rewrite Y2, Y1, app_assoc.
Qed.

Lemma ro_try_except {A} (m : M A) handler :
  reads_only m -> (forall e h, handler e = Some h -> reads_only h) ->
  reads_only (try_except m handler).
Proof.
  intros Hm Hh w. unfold try_except. specialize (Hm w).
  destruct (m w) as [[a|e|x] w']; simpl in *; try exact Hm.
  destruct (handler e) as [h|] eqn:E; [|exact Hm].
  destruct Hm as (F1 & D1 & r1 & Y1). destruct (Hh e h E w') as (F2 & D2 & r2 & Y2).
  split; [eapply read_frame_trans; eassumption |]. split; [congruence |].
  exists (r1 ++ r2). now rewrite Y2, Y1, app_assoc.
Qed.

Lemma ro_ret {A} (a : A) : reads_only (ret a).
Proof. now apply ro_pure. Qed.

Lemma ro_raise {A} e : reads_only (@raise _ A e).
Proof. now apply ro_pure. Qed.

Lemma ro_lift {A} (r : result A) : reads_only (lift r).
Proof. now apply ro_pure. Qed.

Lemma ro_get_self : reads_only get_self.
Proof. now apply ro_pure. Qed.

Lemma ro_get_reader : reads_only get_reader.
Proof. apply ro_pure. intros w. unfold get_reader. now destruct (w_reader w). Qed.

Lemma ro_set_reader r : reads_only (set_reader r).
Proof.
  intros w. simpl. split; [apply read_frame_refl |]. split; [reflexivity |].
  exists []. now rewrite app_nil_r.
Qed.

Lemma ro_yield r : reads_only (yield r).
Proof.
  intros w. simpl. split; [apply read_frame_refl |]. split; [reflexivity |].
  now exists [r].
Qed.

Lemma ro_set_headers h : reads_only (modify_self (set_headers h)).
Proof.
  intros w. simpl. split; [repeat split |]. split; [reflexivity |].
  exists []. now rewrite app_nil_r.
Qed.

Lemma ro_seek (f : StringIO -> nat) :
  reads_only (modify_self
                (fun s => set_text (option_map (fun io => sio_seek (f io) io) (text s)) s)).
Proof.
  intros w. simpl. split.
  - repeat split. simpl. now destruct (text (w_self w)).
  - split; [reflexivity |]. exists []. now rewrite app_nil_r.
Qed.

Lemma ro_stream_advance h n : reads_only (stream_advance h n).
Proof.
  destruct h; [apply (ro_seek (fun io => sio_pos io + n)) | apply ro_ret].
Qed.

Lemma ro_csv_next : reads_only csv_next.
Proof.
  unfold csv_next. apply ro_bind; [apply ro_get_reader | intros r].
  destruct (rd_events (inner r)) as [|e es]; [apply ro_raise |].
  apply ro_bind; [apply ro_set_reader | intros _].
  apply ro_bind; [apply ro_stream_advance | intros _].
  destruct (ev_out e); [apply ro_ret | apply ro_raise].
Qed.

Lemma ro_fieldnames_setter v : reads_only (fieldnames_setter v).
Proof.
  unfold fieldnames_setter. apply ro_bind; [apply ro_get_reader | intros r].
  destruct r; [apply ro_raise | apply ro_set_reader].
Qed.

Lemma ro_sync_line_num : reads_only sync_line_num.
Proof.
  unfold sync_line_num. apply ro_bind; [apply ro_get_reader | intros r].
  destruct r; [apply ro_ret | apply ro_set_reader].
Qed.

Lemma ro_fieldnames_getter : reads_only fieldnames_getter.
Proof.
  unfold fieldnames_getter. apply ro_bind; [apply ro_get_reader | intros r].
  destruct r as [c | f n c]; [apply ro_raise |].
  apply ro_bind.
  - destruct f; [apply ro_ret |]. apply ro_try_except.
    + apply ro_bind; [apply ro_csv_next | intros; apply ro_fieldnames_setter].
    + intros e h. destruct e; try discriminate. intros [= <-]. apply ro_ret.
  - intros _. apply ro_bind; [apply ro_sync_line_num | intros _].
    apply ro_bind; [apply ro_get_reader | intros; apply ro_ret].
Qed.

Lemma ro_getattr_fieldnames : reads_only getattr_fieldnames.
Proof.
  unfold getattr_fieldnames. apply ro_bind; [apply ro_get_reader | intros r].
  destruct r; [apply ro_ret | apply ro_fieldnames_getter].
Qed.

Lemma ro_remaining : reads_only remaining.
Proof.
  unfold remaining. apply ro_bind; [apply ro_get_reader | intros; apply ro_ret].
Qed.

Lemma ro_skip_blank fuel : forall l, reads_only (skip_blank fuel l).
Proof.
  induction fuel as [|n IH]; intros [|x l]; simpl; try apply ro_ret.
  - apply ro_raise.
  - apply ro_bind; [apply ro_csv_next | apply IH].
Qed.

Lemma ro_reader_next : reads_only reader_next.
Proof.
  unfold reader_next. apply ro_bind; [apply ro_get_reader | intros r].
  destruct r as [c | f n c].
  - apply ro_bind; [apply ro_csv_next | intros; apply ro_ret].
  - apply ro_bind.
    { destruct (n =? 0); [|apply ro_ret].
      apply ro_bind; [apply ro_fieldnames_getter | intros; apply ro_ret]. }
    intros _. apply ro_bind; [apply ro_csv_next | intros l].
    apply ro_bind; [apply ro_sync_line_num | intros _].
    apply ro_bind; [apply ro_remaining | intros k].
    apply ro_bind; [apply ro_skip_blank | intros l'].
    apply ro_bind; [apply ro_fieldnames_getter | intros [names|]].
    + apply ro_ret.
    + apply ro_raise.
Qed.

Lemma ro_skip_empty fuel : reads_only (skip_empty fuel).
Proof.
  induction fuel as [|n IH]; simpl; [apply ro_raise |].
  apply ro_bind; [apply ro_reader_next | intros h].
  destruct (row_truthy h); [apply ro_ret | exact IH].
Qed.

Lemma ro_detect_headers : reads_only _detect_headers.
Proof.
  unfold _detect_headers. apply ro_bind; [apply ro_get_self | intros s].
  destruct (has_headers s); [apply ro_ret |].
  destruct (negb (headers_is_first_line s)); [apply ro_ret |].
  apply ro_bind; [apply ro_getattr_fieldnames | intros fn].
  destruct (names_truthy fn).
  { apply ro_bind; [apply ro_fieldnames_getter | intros; apply ro_set_headers]. }
  apply ro_bind; [apply ro_remaining | intros k].
  apply ro_bind; [apply ro_skip_empty | intros h].
  apply ro_bind; [destruct (row_truthy h); [apply ro_ret | apply ro_raise] | intros _].
  destruct h as [l | named [l|]].
  - apply ro_set_headers.
  - apply ro_bind; [apply ro_set_headers | intros; apply ro_fieldnames_setter].
  - apply ro_raise.
Qed.

Lemma ro_process_headers : reads_only _process_headers.
Proof.
  unfold _process_headers. apply ro_bind; [apply ro_get_self | intros s].
  destruct (headers_process_by s) as [f|]; [|apply ro_ret].
  apply ro_bind; [apply ro_lift | intros h].
  apply ro_bind; [apply ro_set_headers | intros _].
  apply ro_bind; [apply ro_getattr_fieldnames | intros rf].
  destruct (names_truthy rf); [|apply ro_ret].
  destruct (decide (rf = h)); [apply ro_ret | apply ro_fieldnames_setter].
Qed.

Lemma ro_read_loop fuel process_by : reads_only (read_loop fuel process_by).
Proof.
  induction fuel as [|n IH]; simpl; [apply ro_raise |].
  apply ro_bind.
  - apply ro_try_except.
    + apply ro_bind; [apply ro_reader_next | intros; apply ro_ret].
    + intros e h. destruct e; try discriminate. intros [= <-]. apply ro_ret.
  - intros [line|]; [|apply ro_ret].
    apply ro_bind.
    + destruct process_by as [f|]; [|apply ro_ret].
      apply ro_bind; [apply ro_get_reader | intros r].
      apply ro_bind; [apply ro_get_self | intros s; apply ro_lift].
    + intros line'. apply ro_bind; [|intros _; exact IH].
      destruct line' as [l|]; [apply ro_yield | apply ro_ret].
Qed.

Lemma ro_exit_on_csv_error m : reads_only m -> reads_only (exit_on_csv_error m).
Proof.
  intros Hm. unfold exit_on_csv_error. apply ro_try_except; [exact Hm |].
  intros e h. destruct e; try discriminate. intros [= <-].
  apply ro_bind; [apply ro_get_self | intros s].
  apply ro_bind; [apply ro_get_reader | intros r]. now apply ro_pure.
Qed.

Lemma ro_generator_body {A} (m : M A) : reads_only m -> reads_only (generator_body m).
Proof.
  intros Hm. unfold generator_body. apply ro_try_except; [exact Hm |].
  intros e h. destruct e; try discriminate. intros [= <-]. apply ro_raise.
Qed.

Lemma ro_path_open_r p : reads_only (path_open ModeR p).
Proof.
  apply ro_pure. intros w. unfold path_open, bind, get_disk.
  now destruct (w_disk w !! p).
Qed.

Lemma ro_open_r {A} (body : handle -> M A) :
  (forall h, reads_only (body h)) -> reads_only (open ModeR body).
Proof.
  intros H. unfold open. apply ro_bind; [apply ro_get_self | intros s].
  destruct (text s).
  - apply ro_bind; [apply H | intros a].
    destruct (filename s); [|apply ro_ret].
    apply ro_bind; [apply ro_path_open_r | intros; apply ro_raise].
  - destruct (filename s); [|apply ro_raise].
    apply ro_bind; [apply ro_path_open_r | intros; apply H].
Qed.

Lemma ro_resolve_dialect : reads_only resolve_dialect.
Proof.
  unfold resolve_dialect. apply ro_bind; [apply ro_get_self | intros s].
  destruct (dialect s) as [n|d]; [|apply ro_ret].
  destruct (get_dialect n); [apply ro_ret | apply ro_raise].
Qed.

Lemma ro_stream_content h : reads_only (stream_content h).
Proof.
  destruct h; simpl.
  - apply ro_bind; [apply ro_get_self | intros; apply ro_ret].
  - apply ro_bind; [now apply ro_pure | intros; apply ro_ret].
Qed.

Lemma ro_reader {A} asdict (body : M A) : reads_only body -> reads_only (reader asdict body).
Proof.
  intros Hb. unfold reader. apply ro_bind.
  { unfold _check_file_exists. apply ro_bind; [apply ro_get_self | intros s].
    destruct (file_is_exists s); [apply ro_ret | apply ro_raise]. }
  intros _. apply ro_bind; [apply ro_get_self | intros s].
  apply ro_open_r. intros h.
  apply ro_bind; [apply ro_resolve_dialect | intros d].
  apply ro_bind; [apply ro_stream_content | intros content].
  apply ro_bind; [apply ro_set_reader | intros _; exact Hb].
Qed.

Lemma ro_readlines kw : reads_only (readlines kw).
Proof.
  unfold readlines. apply ro_generator_body, ro_reader.
  apply ro_bind; [apply ro_detect_headers | intros _].
  apply ro_bind; [apply ro_process_headers | intros _].
  apply ro_bind; [apply ro_remaining | intros k].
  apply ro_exit_on_csv_error, ro_read_loop.
Qed.

End ReadFrame.

(** ** What writing never touches *)

Section WriteFrame.
Context {csv : CsvLib}.

Lemma write_frame_refl s : write_frame s s.
Proof. repeat split; auto. Qed.

Lemma write_frame_trans s1 s2 s3 :
  write_frame s1 s2 -> write_frame s2 s3 -> write_frame s1 s3.
Proof.
  intros (A1 & A2 & A3 & A4 & A5 & A6) (B1 & B2 & B3 & B4 & B5 & B6).
  repeat split; try congruence; tauto.
Qed.

Lemma own_handle_frame s s' h : write_frame s s' -> own_handle s h -> own_handle s' h.
Proof. intros (F1 & _) H. destruct h; [exact I | simpl in *; congruence]. Qed.

Lemma wo_pure {A} h (m : M A) : (forall w, snd (m w) = w) -> writes_only h m.
Proof.
  intros H w _. rewrite H. split; [apply write_frame_refl |]. now split.
Qed.

Lemma wo_bind {A B} h (m : M A) (k : A -> M B) :
  writes_only h m -> (forall a, writes_only h (k a)) -> writes_only h (bind m k).
Proof.
  intros Hm Hk w Ho. unfold bind. specialize (Hm w Ho).
  destruct (m w) as [[a|e|x] w']; simpl in *; try exact Hm.
  destruct Hm as (F1 & D1 & Y1).
  destruct (Hk a w' (own_handle_frame _ _ _ F1 Ho)) as (F2 & D2 & Y2).
  split; [eapply write_frame_trans; eassumption |]. split; [|congruence].
  intros q Hq. rewrite D2, D1; [reflexivity | exact Hq |].
  destruct F1 as (F1 & _). now rewrite F1.
Qed.

Lemma wo_any {A} h (m : M A) : writes_only HText m -> writes_only h m.
Proof. intros H w _. now apply H. Qed.

Lemma wo_ret {A} h (a : A) : writes_only h (ret a).
Proof. now apply wo_pure. Qed.

Lemma wo_raise {A} h e : writes_only h (@raise _ A e).
Proof. now apply wo_pure. Qed.

Lemma wo_lift {A} h (r : result A) : writes_only h (lift r).
Proof. now apply wo_pure. Qed.

Lemma wo_get_self h : writes_only h get_self.
Proof. now apply wo_pure. Qed.

Lemma wo_set_headers h v : writes_only h (modify_self (set_headers v)).
Proof. intros w _. simpl. split; [repeat split; auto |]. now split. Qed.

Lemma wo_stream_write h str : writes_only h (stream_write h str).
Proof.
  intros w Ho. destruct h as [|p]; simpl in *.
  - split; [|now split]. repeat split; simpl; auto;
      destruct (text (w_self w)); simpl; congruence.
  - split; [apply write_frame_refl |]. split; [|reflexivity].
    intros q Hq. apply lookup_insert_ne. congruence.
Qed.

Lemma wo_path_open mode p : writes_only (HFile p) (path_open mode p).
Proof.
  intros w Ho. simpl in Ho. unfold path_open, bind, get_disk. destruct mode; simpl.
  - destruct (w_disk w !! p); simpl; (split; [apply write_frame_refl |]); now split.
  - split; [apply write_frame_refl |]. split; [|reflexivity].
    intros q Hq. apply lookup_insert_ne. congruence.
Qed.

Lemma wo_resolve_dialect h : writes_only h resolve_dialect.
Proof.
  apply wo_pure. intros w. unfold resolve_dialect, bind, get_self.
  destruct (dialect (w_self w)) as [n|d]; [|reflexivity]. now destruct (get_dialect n).
Qed.

Lemma wo_emit_record h d l : writes_only h (emit_record h d l).
Proof.
  unfold emit_record. destruct (csv_writerow d l); [apply wo_stream_write | apply wo_raise].
Qed.

Lemma wo_writerow x r : writes_only (writer_handle x) (writerow x r).
Proof.
  destruct x as [h d | h d names]; simpl.
  - destruct r; [apply wo_emit_record | apply wo_emit_record | apply wo_raise].
  - destruct r; [apply wo_raise | | apply wo_raise].
    apply wo_bind; [apply wo_lift | intros l; apply wo_emit_record].
Qed.

Lemma wo_writeheader x : writes_only (writer_handle x) (writeheader x).
Proof.
  destruct x as [h d | h d names]; [apply wo_raise |].
  unfold writeheader. apply (wo_writerow (DictWriter h d names)).
Qed.

Lemma wo_write_each x l : writes_only (writer_handle x) (write_each x l).
Proof.
  induction l as [|r l IH]; simpl; [apply wo_ret |].
  apply wo_bind; [apply wo_writerow | intros _; exact IH].
Qed.

Lemma wo_write_rows x rs : writes_only (writer_handle x) (write_rows x rs).
Proof.
  destruct rs as [l | items fin]; simpl; [apply wo_write_each |].
  apply wo_bind; [apply wo_write_each | intros _; apply wo_lift].
Qed.

Lemma wo_open {A} mode (body : handle -> M A) :
  (forall h, writes_only h (body h)) -> writes_only HText (open mode body).
Proof.
  intros H w _. rewrite open_eq.
  destruct (text (w_self w)) as [io|] eqn:Ht;
    destruct (filename (w_self w)) as [p|] eqn:Hf.
  - assert (Hk : writes_only (HFile p)
                   (bind (body HText) (fun a =>
                      bind (path_open mode p)
                           (fun _ => @raise _ A (RuntimeError "generator didn't stop"))))).
    { apply wo_bind; [apply wo_any, H | intros a].
      apply wo_bind; [apply wo_path_open | intros _; apply wo_raise]. }
    specialize (Hk w Hf). rewrite Hf in Hk. exact Hk.
  - assert (Hk : writes_only HText (bind (body HText) (fun a => ret a))).
    { apply wo_bind; [apply H | intros a; apply wo_ret]. }
    specialize (Hk w I). rewrite Hf in Hk. exact Hk.
  - assert (Hk : writes_only (HFile p)
                   (bind (path_open mode p) (fun _ => body (HFile p)))).
    { apply wo_bind; [apply wo_path_open | intros _; apply H]. }
    specialize (Hk w Hf). rewrite Hf in Hk. exact Hk.
  - pose proof (wo_raise HText (A := A) (RuntimeError "generator didn't yield") w I)
      as Hk.
    rewrite Hf in Hk. exact Hk.
Qed.

Lemma wo_writer {A} kw (body : writer_obj -> M A) :
  (forall x, writes_only (writer_handle x) (body x)) ->
  writes_only HText (writer kw body).
Proof.
  intros H. unfold writer. apply wo_bind; [apply wo_get_self | intros s].
  destruct (file_is_exists s && negb (kw_overwrite kw)); [apply wo_raise |].
  apply wo_open. intros h.
  destruct (kw_asdict kw); [destruct (has_headers s); [|apply wo_raise] |];
    (apply wo_bind; [apply wo_resolve_dialect | intros d]).
  - apply (H (DictWriter h d (default [] (headers s)))).
  - apply (H (ListWriter h d)).
Qed.

Lemma wo_detect_headers_before_write rs :
  writes_only HText (_detect_headers_before_write rs).
Proof.
  unfold _detect_headers_before_write. apply wo_bind.
  - destruct rs as [[|x l] | [|x items] fin];
      try apply wo_ret; try apply wo_raise.
    apply wo_bind; [apply wo_lift | intros; apply wo_raise].
  - intros p. destruct (fst p); [apply wo_raise | apply wo_ret | apply wo_raise].
Qed.

Lemma wo_writelines rs kw : writes_only HText (writelines rs kw).
Proof.
  unfold writelines. apply wo_bind; [apply wo_get_self | intros s].
  apply wo_bind.
  { destruct (kw_asdict kw && negb (has_headers s)); [|apply wo_ret].
    apply wo_bind; [apply wo_detect_headers_before_write | intros q].
    apply wo_bind; [apply wo_set_headers | intros _].
    apply wo_bind; [|intros _; apply wo_ret].
    destruct (wrow_truthy (snd (fst q))); [apply wo_ret | apply wo_raise]. }
  intros p. apply wo_bind.
  - apply wo_writer. intros x.
    apply wo_bind; [apply wo_get_self | intros s'].
    apply wo_bind.
    { destruct (negb (has_headers s') && is_dict_writer x);
        [apply wo_raise | apply wo_ret]. }
    intros _. apply wo_bind.
    { destruct (has_headers s' && is_dict_writer x);
        [apply wo_writeheader | apply wo_ret]. }
    intros _. apply wo_bind.
    { destruct (is_generator rs); [apply wo_writerow | apply wo_ret]. }
    intros _. apply wo_write_rows.
  - intros _. apply wo_bind; [apply wo_get_self | intros; apply wo_ret].
Qed.

End WriteFrame.

(** ** The state a session keeps between calls *)

Section SessionState.
Context {csv : CsvLib}.


(** X20. Whatever the rows, the parameters and the state, [writelines]
    changes no file other than the one named by the session, yields nothing,
    and leaves the file name, the existence flag, the dialect and the header
    parameters of the session as they are; a session keeps having, or not
    having, an in-memory text. *)
Theorem writing_touches_only_its_destination (rs : rows) (kw : write_kwargs)
    (w : world) :
  write_frame (w_self w) (w_self (snd (writelines rs kw w)))
  /\ (forall q, filename (w_self w) <> Some q ->
        w_disk (snd (writelines rs kw w)) !! q = w_disk w !! q)
  /\ w_yield (snd (writelines rs kw w)) = w_yield w.
Proof. exact (wo_writelines rs kw w I). Qed.

Lemma blank_well_formed evs : forallb blank evs = true -> forallb well_formed evs = true.
Proof.
  induction evs as [|e es IH]; [reflexivity |]. simpl.
  intros H. apply andb_true_iff in H as [He Hes]. rewrite (IH Hes), andb_true_r.
  unfold blank, well_formed in *. now destruct (ev_out e).
Qed.

Lemma well_formed_header_line blanks hd rest names :
  forallb blank blanks = true -> ev_out hd = Fields names ->
  forallb well_formed rest = true ->
  forallb well_formed (blanks ++ hd :: rest) = true.
Proof.
  intros Hb Hh Hr. rewrite forallb_app, (blank_well_formed _ Hb). simpl.
  rewrite Hr, andb_true_r. unfold well_formed. now rewrite Hh.
Qed.

Lemma dict_rows_header_line names blanks hd rest :
  forallb blank blanks = true -> ev_out hd = Fields names -> names <> [] ->
  dict_rows names (blanks ++ hd :: rest) = dict_row names names :: dict_rows names rest.
Proof.
  intros Hb Hh Hn. unfold dict_rows. rewrite map_app, List.filter_app.
  assert (Hbl : List.filter nonblank (map event_fields blanks) = []).
  { clear -Hb. induction blanks as [|e es IH]; [reflexivity |]. simpl in *.
    apply andb_true_iff in Hb as [He Hes]. unfold blank in He. unfold event_fields at 1.
    destruct (ev_out e) as [[|x l]|]; try discriminate. simpl. now apply IH. }
  assert (Hef : event_fields hd = names) by (unfold event_fields; now rewrite Hh).
  rewrite Hbl. simpl. rewrite Hef.
  destruct names; [congruence | reflexivity].
Qed.

(** X13. The headers found by a first read stay on the session. A second
    read of the same file through the same session looks for no header
    line: in list mode it yields every record, the empty lines and the
    header line included; in mapping mode it yields the header line as a
    first row, each header mapped to itself. *)
Theorem second_read_yields_the_header_line (s : tsv) (disk : gmap string string)
    (p content : string) (d : Dialect)
    (blanks : list event) (hd : event) (rest : list event) (names : list string) :
  file_is_exists s = true -> file_session s p -> disk !! p = Some content ->
  resolves s d ->
  has_headers s = false -> headers_is_first_line s = true ->
  headers_process_by s = None ->
  csv_records d true content = blanks ++ hd :: rest ->
  forallb blank blanks = true -> ev_out hd = Fields names -> names <> [] ->
  forallb well_formed rest = true ->
  (read_all list_mode s disk = (Ok tt, list_rows rest, Some names)
   /\ read_all list_mode (session_after_read list_mode s disk) disk
      = (Ok tt, list_rows (blanks ++ hd :: rest), Some names))
  /\ (read_all dict_mode s disk = (Ok tt, dict_rows names rest, Some names)
      /\ read_all dict_mode (session_after_read dict_mode s disk) disk
         = (Ok tt, dict_row names names :: dict_rows names rest, Some names)).
Proof.
  intros He [Ht Hf] Hc Hd Hh Hl Hp Hev Hb Hhd Hn Hwf.
  assert (Hsrc : source s disk = Some (HFile p, content)).
  { unfold source. now rewrite Ht, Hf, Hc. }
  assert (Hall : forallb well_formed (csv_records d true content) = true).
  { rewrite Hev. now apply (well_formed_header_line blanks hd rest names). }
  assert (Hafter : forall kw rows,
            read_all kw s disk = (Ok tt, rows, Some names) ->
            let s' := session_after_read kw s disk in
            file_is_exists s' = true /\ source s' disk = Some (HFile p, content)
            /\ resolves s' d /\ headers s' = Some names /\ has_headers s' = true
            /\ headers_process_by s' = None).
  { intros kw rows Hr. unfold session_after_read. unfold read_all in Hr.
    destruct (ro_readlines kw (start s disk)) as ((F1 & F2 & F3 & F4 & F5 & F6) & _).
    destruct (readlines kw (start s disk)) as [r w']. simpl in *.
    injection Hr as _ _ Hhd'.
    rewrite Ht in F6. simpl in F6.
    assert (Ht' : text (w_self w') = None) by (destruct (text (w_self w')); [discriminate | reflexivity]).
    repeat split.
    - congruence.
    - unfold source. now rewrite Ht', F1, Hf, Hc.
    - unfold resolves in *. now rewrite F3.
    - exact Hhd'.
    - unfold has_headers. rewrite Hhd'. destruct names; [congruence | reflexivity].
    - congruence. }
  split.
  - assert (H1 : read_all list_mode s disk = (Ok tt, list_rows rest, Some names)).
    { rewrite (readlines_list_mode_header s disk (HFile p) content d) by assumption.
      simpl is_file. rewrite Hev, (find_header_app blanks 0 hd rest names Hb Hhd Hn).
      now rewrite (drain_well_formed _ _ Hwf). }
    split; [exact H1 |].
    destruct (Hafter _ _ H1) as (A1 & A2 & A3 & A4 & A5 & A6).
    rewrite (readlines_list_mode_rows _ disk (HFile p) content d); try assumption.
    + simpl is_file. now rewrite Hev, A4.
    + now rewrite A5.
  - assert (H1 : read_all dict_mode s disk = (Ok tt, dict_rows names rest, Some names)).
    { apply (readlines_dict_mode_header s disk (HFile p) content d names rest
               (0 + lines_of blanks + ev_lines hd)); try assumption.
      simpl is_file. rewrite Hev. now apply find_header_app. }
    split; [exact H1 |].
    destruct (Hafter _ _ H1) as (A1 & A2 & A3 & A4 & A5 & A6).
    rewrite (readlines_dict_mode_known _ disk (HFile p) content d); try assumption.
    rewrite A4. cbn [default from_option is_file id].
    now rewrite Hev, (dict_rows_header_line names blanks hd rest).
Qed.

End SessionState.

(** ** Writing: the properties *)

Section WriteProperties.
Context {csv : CsvLib}.
Variable sniff : string -> option Dialect.

(** X15. A session built on a file that is not there writes it without
    overwrite permission: the file then holds the serialized rows. The
    existence flag is the one computed at construction, so a second write
    through the same session is not refused either and replaces what the
    first one wrote. *)
Theorem new_file_written_without_overwrite (a : init_args)
    (disk : gmap string string) (s : tsv) (p : string) (kw : write_kwargs)
    (recs : list (list string)) (d : Dialect) (outs : list string) :
  __init__ sniff a disk = Ok s ->
  a_filename a = Some p -> a_text a = None -> disk !! p = None ->
  kw_asdict kw = false -> resolves s d -> csv_lines d recs = Some outs ->
  file_is_exists s = false
  /\ write_all (RowsList (map WList recs)) kw s disk
     = (Ok None, None, <[p := str_concat outs]> disk)
  /\ w_self (snd (writelines (RowsList (map WList recs)) kw (start s disk))) = s
  /\ (forall recs' outs', csv_lines d recs' = Some outs' ->
        write_all (RowsList (map WList recs')) kw s (<[p := str_concat outs]> disk)
        = (Ok None, None, <[p := str_concat outs']> disk)).
Proof.
  intros Hi Hf Ht Hp Ha Hd Hl.
  destruct (init_source sniff a disk s Hi) as (S1 & _ & _ & _ & S6).
  rewrite Ht in S6. destruct S6 as [S6 S7]. rewrite Hf in S1, S7.
  unfold disk_exists in S7. rewrite Hp in S7.
  assert (Hs : file_session s p) by (split; assumption).
  assert (Hw : forall dk rs os, csv_lines d rs = Some os ->
            writelines (RowsList (map WList rs)) kw (start s dk)
            = getvalue (emits (HFile p) os (truncated (HFile p) (start s dk)))).
  { intros dk rs os Hos.
    apply (writelines_list_rows rs kw _ (HFile p) d os); try assumption.
    - simpl. now rewrite S7.
    - now apply sink_file. }
  split; [exact S7 | split; [|split]].
  - apply (observe_file _ _ _ _ p outs (start s disk)); [apply Hs | reflexivity |].
    now apply Hw.
  - rewrite (Hw disk recs outs Hl), getvalue_eq. simpl snd.
    destruct (emits_file p outs (truncated (HFile p) (start s disk)) EmptyString)
      as [_ H2]; [simpl; apply lookup_insert_eq | exact H2].
  - intros recs' outs' Hl'.
    rewrite (observe_file _ _ _ _ p outs' (start s (<[p := str_concat outs]> disk)));
      [| apply Hs | reflexivity | now apply Hw].
    now rewrite insert_insert_eq.
Qed.

(** X16. An in-memory destination is not truncated: the rows are written
    over the text from its current position, and what the text held beyond
    them stays. The result is exactly the serialized rows when the text was
    no longer than them (position 0), and the old text followed by the rows
    when the position was at its end. *)
Theorem in_memory_text_overwritten_in_place (s : tsv) (disk : gmap string string)
    (v : string) (p : nat) (kw : write_kwargs) (recs : list (list string))
    (d : Dialect) (outs : list string) :
  text_session s {| sio_value := v; sio_pos := p |} -> p <= String.length v ->
  kw_asdict kw = false -> kw_overwrite kw = true ->
  resolves s d -> csv_lines d recs = Some outs ->
  write_all (RowsList (map WList recs)) kw s disk
  = (Ok (Some (overwritten v p (str_concat outs))),
     Some (overwritten v p (str_concat outs)), disk)
  /\ (p = 0 -> String.length v <= String.length (str_concat outs) ->
      write_all (RowsList (map WList recs)) kw s disk
      = (Ok (Some (str_concat outs)), Some (str_concat outs), disk))
  /\ (p = String.length v ->
      write_all (RowsList (map WList recs)) kw s disk
      = (Ok (Some (v +:+ str_concat outs)), Some (v +:+ str_concat outs), disk)).
Proof.
  intros Hs Hp Ha Ho Hd Hl.
  assert (Hw : write_all (RowsList (map WList recs)) kw s disk
               = (Ok (Some (overwritten v p (str_concat outs))),
                  Some (overwritten v p (str_concat outs)), disk)).
  { rewrite (observe_text _ _ s disk {| sio_value := v; sio_pos := p |} outs
               (start s disk)); [| apply Hs | reflexivity |].
    - now rewrite sio_writes_inside.
    - apply (writelines_list_rows recs kw _ HText d outs); try assumption.
      + simpl. now rewrite Ho, andb_false_r.
      + now apply (sink_text s {| sio_value := v; sio_pos := p |}). }
  split; [exact Hw | split].
  - intros -> Hv. now rewrite Hw, overwritten_covers.
  - intros ->. rewrite Hw. unfold overwritten.
    now rewrite str_take_all, str_drop_past, str_app_nil_r.
Qed.

(** X17. Mapping-mode write of a list with explicit headers: a header
    row, then for each mapping the values under the headers, in their order,
    a missing key giving an empty field. A mapping with a key outside the
    headers raises ValueError once the header row and the mappings before it
    have been written. *)
Theorem explicit_headers_mapping_write (s : tsv) (disk : gmap string string)
    (names : list string) (kw : write_kwargs) (d : Dialect) :
  kw_asdict kw = true -> headers s = Some names -> has_headers s = true ->
  file_is_exists s && negb (kw_overwrite kw) = false -> resolves s d ->
  (forall ds outs,
     forallb (fits names) ds = true ->
     csv_lines d (names :: map (dict_values names) ds) = Some outs ->
     (forall io, text_session s io ->
        write_all (RowsList (map WDict ds)) kw s disk
        = (Ok (Some (sio_value (sio_writes io outs))),
           Some (sio_value (sio_writes io outs)), disk))
     /\ (forall p, file_session s p ->
        write_all (RowsList (map WDict ds)) kw s disk
        = (Ok None, None, <[p := str_concat outs]> disk)))
  /\ (forall good bad rest outs,
     forallb (fits names) good = true -> fits names bad = false ->
     csv_lines d (names :: map (dict_values names) good) = Some outs ->
     (forall io, text_session s io ->
        write_all (RowsList (map WDict (good ++ bad :: rest))) kw s disk
        = (Raise (ValueError "dict contains fields not in fieldnames"),
           Some (sio_value (sio_writes io outs)), disk))
     /\ (forall p, file_session s p ->
        write_all (RowsList (map WDict (good ++ bad :: rest))) kw s disk
        = (Raise (ValueError "dict contains fields not in fieldnames"),
           None, <[p := str_concat outs]> disk))).
Proof.
  intros Ha Hn Hh He Hd.
  assert (Hopen : forall l h, sink s = Some h ->
            writelines (RowsList l) kw (start s disk)
            = bind (bind (writeheader (DictWriter h d names))
                         (fun _ => write_each (DictWriter h d names) l))
                   (fun _ => getvalue) (truncated h (start s disk))).
  { intros l h Hs. now apply writelines_dict_open. }
  split.
  - intros ds outs Hf Hl. simpl in Hl.
    destruct (csv_writerow d names) as [hl|] eqn:Eh; [|discriminate].
    destruct (csv_lines d (map (dict_values names) ds)) as [ls|] eqn:El; [|discriminate].
    injection Hl as <-.
    assert (Hw : forall h, sink s = Some h ->
              writelines (RowsList (map WDict ds)) kw (start s disk)
              = getvalue (emits h (hl :: ls) (truncated h (start s disk)))).
    { intros h Hs. rewrite (Hopen _ h Hs).
      apply (bind_ok _ (fun _ => getvalue) _ tt).
      rewrite (bind_ok _ _ _ _ _ (writeheader_ok h d names hl _ Eh)).
      exact (write_each_dict h d names ds ls _ Hf El). }
    split.
    + intros io Hs.
      apply (observe_text _ _ _ _ io (hl :: ls) (truncated HText (start s disk)));
        [apply Hs | reflexivity |].
      apply Hw. now apply (sink_text s io).
    + intros p Hs.
      apply (observe_file _ _ _ _ p (hl :: ls) (start s disk));
        [apply Hs | reflexivity |].
      apply Hw. now apply sink_file.
  - intros good bad rest outs Hf Hb Hl. simpl in Hl.
    destruct (csv_writerow d names) as [hl|] eqn:Eh; [|discriminate].
    destruct (csv_lines d (map (dict_values names) good)) as [ls|] eqn:El;
      [|discriminate].
    injection Hl as <-.
    assert (Hw : forall h, sink s = Some h ->
              writelines (RowsList (map WDict (good ++ bad :: rest))) kw (start s disk)
              = (Raise (ValueError "dict contains fields not in fieldnames"),
                 emits h (hl :: ls) (truncated h (start s disk)))).
    { intros h Hs. rewrite (Hopen _ h Hs).
      apply bind_raise.
      rewrite (bind_ok _ _ _ _ _ (writeheader_ok h d names hl _ Eh)).
      exact (write_each_dict_refused h d names good bad rest ls _ Hf Hb El). }
    split.
    + intros io Hs.
      apply (observe_text_result _ _ _ _ io (hl :: ls) _
               (truncated HText (start s disk))); [apply Hs | reflexivity |].
      apply Hw. now apply (sink_text s io).
    + intros p Hs.
      apply (observe_file_result _ _ _ _ p (hl :: ls) _ (start s disk));
        [apply Hs | reflexivity |].
      apply Hw. now apply sink_file.
Qed.

(** X18. When header inference fails (the first element is not a mapping
    with at least one key), [writelines] ends before the destination is
    opened: the disk and the in-memory text are unchanged. An empty list
    raises IndexError, an exhausted generator StopIteration, and an empty
    mapping the wrapper's [Error], after the headers have been set to the
    empty sequence. *)
Theorem header_inference_failure_writes_nothing (s : tsv)
    (disk : gmap string string) (kw : write_kwargs) (rs : rows) :
  kw_asdict kw = true -> has_headers s = false -> inferable rs = false ->
  (forall v, fst (writelines rs kw (start s disk)) <> Ok v)
  /\ w_disk (snd (writelines rs kw (start s disk))) = disk
  /\ text (w_self (snd (writelines rs kw (start s disk)))) = text s
  /\ (rs = RowsList [] ->
      writelines rs kw (start s disk) = (Raise IndexError, start s disk))
  /\ (rs = RowsGen [] (Ok tt) ->
      writelines rs kw (start s disk) = (Raise StopIteration, start s disk))
  /\ (first_row rs = Some (WDict []) ->
      writelines rs kw (start s disk)
      = (Raise (Error NoFirstLine), with_headers (Some []) (start s disk))).
Proof.
  intros Ha Hh Hm.
  assert (E : writelines rs kw (start s disk)
              = match first_row rs with
                | None =>
                    match rs with
                    | RowsList _ => (Raise IndexError, start s disk)
                    | RowsGen _ fin =>
                        (match fin with
                         | Ok _ => Raise StopIteration
                         | Raise e => Raise e
                         | Exit x => Exit x
                         end, start s disk)
                    end
                | Some (WDict _) =>
                    (Raise (Error NoFirstLine), with_headers (Some []) (start s disk))
                | Some _ =>
                    (Raise (ValueError "Can not detect headers because 1st row not a dict, supply headers manually"),
                     start s disk)
                end).
  { unfold writelines. rewrite bind_get_self. simpl w_self. rewrite Ha, Hh. simpl.
    unfold inferable in Hm.
    destruct rs as [[|x l] | [|x items] fin]; simpl in *.
    - reflexivity.
    - destruct x as [l0 | [|kv m] |]; try reflexivity. discriminate.
    - destruct fin; reflexivity.
    - destruct x as [l0 | [|kv m] |]; try reflexivity. discriminate. }
  rewrite E. split; [|split; [|split; [|split; [|split]]]].
  - intros v. destruct (first_row rs) as [[l | m |]|]; try discriminate.
    destruct rs as [l | items [[]|e|x]]; discriminate.
  - destruct (first_row rs) as [[l | m |]|]; try reflexivity.
    destruct rs; reflexivity.
  - destruct (first_row rs) as [[l | m |]|]; try reflexivity.
    destruct rs; reflexivity.
  - intros ->. reflexivity.
  - intros ->. reflexivity.
  - intros ->. reflexivity.
Qed.

(** X19. Mappings written without [asdict=True] go to a [csv.writer],
    which iterates over them: each row holds the keys of the mapping, not
    its values, and no header row is written. *)
Theorem mappings_without_asdict_written_as_keys (s : tsv)
    (disk : gmap string string) (ds : list pydict) (kw : write_kwargs)
    (d : Dialect) (outs : list string) :
  kw_asdict kw = false ->
  file_is_exists s && negb (kw_overwrite kw) = false -> resolves s d ->
  csv_lines d (map dict_keys ds) = Some outs ->
  (forall io, text_session s io ->
     write_all (RowsList (map WDict ds)) kw s disk
     = (Ok (Some (sio_value (sio_writes io outs))),
        Some (sio_value (sio_writes io outs)), disk))
  /\ (forall p, file_session s p ->
     write_all (RowsList (map WDict ds)) kw s disk
     = (Ok None, None, <[p := str_concat outs]> disk)).
Proof.
  intros Ha He Hd Hl.
  assert (Hw : forall h, sink s = Some h ->
            writelines (RowsList (map WDict ds)) kw (start s disk)
            = getvalue (emits h outs (truncated h (start s disk)))).
  { intros h Hs. rewrite (writelines_list_open _ kw _ h d) by assumption.
    apply (bind_ok _ (fun _ => getvalue) _ tt). now apply write_each_keys. }
  split.
  - intros io Hs.
    apply (observe_text _ _ _ _ io outs (truncated HText (start s disk)));
      [apply Hs | reflexivity |].
    apply Hw. now apply (sink_text s io).
  - intros p Hs.
    apply (observe_file _ _ _ _ p outs (start s disk)); [apply Hs | reflexivity |].
    apply Hw. now apply sink_file.
Qed.

End WriteProperties.

(** ** A session with both sources *)

Section BothSources.
Context {csv : CsvLib}.

(** X22. A session with both an in-memory text and a file name (the
    constructor accepts a file name with the empty text): [open] serves the
    text, and leaving the [with] block resumes its generator, which opens
    the file. A write puts the rows in the text, leaves the file empty and
    raises RuntimeError. *)
Theorem write_with_both_sources_empties_the_file (s : tsv)
    (disk : gmap string string) (io : StringIO) (p : string) (kw : write_kwargs)
    (recs : list (list string)) (d : Dialect) (outs : list string) :
  text s = Some io -> filename s = Some p ->
  kw_asdict kw = false -> kw_overwrite kw = true ->
  resolves s d -> csv_lines d recs = Some outs ->
  write_all (RowsList (map WList recs)) kw s disk
  = (Raise (RuntimeError "generator didn't stop"),
     Some (sio_value (sio_writes io outs)), <[p := EmptyString]> disk).
Proof.
  intros Ht Hf Ha Ho Hd Hl. unfold write_all.
  rewrite writelines_no_inference by (rewrite Ha; reflexivity).
  assert (Hw : writer kw (with_block (RowsList (map WList recs)) WNone
                            (RowsList (map WList recs))) (start s disk)
               = (Raise (RuntimeError "generator didn't stop"),
                  snd (path_open ModeW p (emits HText outs (start s disk))))).
  { rewrite writer_eq. simpl w_self. rewrite Ho, andb_false_r, Ha, open_eq.
    simpl w_self. rewrite Ht, Hf. unfold bind at 1.
    rewrite (bind_ok _ _ _ _ _ (resolve_ok (start s disk) d Hd)).
    rewrite (with_block_list_rows recs HText d outs _ Hl).
    reflexivity. }
  rewrite (bind_raise _ _ _ _ _ Hw).
  destruct (emits_text outs (start s disk) io Ht) as [H1 H2].
  simpl. now rewrite H1, H2.
Qed.

End BothSources.

(** ** Round trip in mapping mode *)

Lemma dict_set_fresh k v d :
  k ∉ dict_keys d -> dict_set k v d = d ++ [(k, v)].
Proof.
  induction d as [|[k' v'] d IH]; intros Hk; [reflexivity |].
  simpl in *. apply not_elem_of_cons in Hk as [Hne Hk].
  rewrite decide_False by exact Hne. now rewrite IH.
Qed.

Lemma dict_zip_fresh (l : pydict) : forall acc,
  NoDup (dict_keys acc ++ dict_keys l) ->
  forallb (fun kv => match snd kv with Some _ => true | None => false end) l = true ->
  fold_left (fun d kv => dict_set (fst kv) (Some (snd kv)) d)
            (combine (dict_keys l) (map (fun kv => default EmptyString (snd kv)) l)) acc
  = acc ++ l.
Proof.
  induction l as [|[k v] l IH]; intros acc Hnd Hv; simpl.
  - now rewrite app_nil_r.
  - simpl in Hv. apply andb_true_iff in Hv as [Hv1 Hv].
    destruct v as [v|]; [|discriminate]. simpl.
    assert (Hk : k ∉ dict_keys acc).
    { simpl in Hnd. apply NoDup_app in Hnd as (_ & Hd & _).
      intros Hin. apply (Hd k Hin). left. }
    rewrite (dict_set_fresh k (Some v) acc Hk).
    rewrite IH; [now rewrite <- app_assoc | | exact Hv].
    unfold dict_keys in *. rewrite map_app. simpl. rewrite <- app_assoc. exact Hnd.
Qed.

(** Read back under its own keys, what a [DictWriter] wrote for a plain
    mapping is the mapping. *)
Lemma dict_row_values (names : list string) (m : pydict) :
  NoDup names -> plain names m = true ->
  dict_row names (dict_values names m) = RDict m None.
Proof.
  intros Hnd Hp. unfold plain in Hp. apply andb_true_iff in Hp as [Hk Hv].
  apply bool_decide_eq_true in Hk. subst names.
  rewrite (dict_values_own m Hnd). unfold dict_row.
  rewrite length_map.
  assert (Hlen : length (dict_keys m) = length m) by apply length_map.
  rewrite Hlen, Nat.ltb_irrefl. unfold dict_zip.
  now rewrite (dict_zip_fresh m []).
Qed.

Lemma plain_fits names m : plain names m = true -> fits names m = true.
Proof.
  unfold plain. intros Hp. apply andb_true_iff in Hp as [Hk _].
  apply bool_decide_eq_true in Hk. subst names. apply fits_own_keys.
Qed.

Lemma map_ev_out_fields evs recs :
  map ev_out evs = map Fields recs ->
  map event_fields evs = recs /\ forallb well_formed evs = true.
Proof.
  revert recs. induction evs as [|e es IH]; intros [|r recs] H; try discriminate.
  - now split.
  - simpl in H. injection H as He Hes. destruct (IH recs Hes) as [H1 H2].
    simpl. unfold event_fields at 1, well_formed at 1. rewrite He, H1, H2. now split.
Qed.

Section RoundTrip.
Context {csv : CsvLib}.

(** X21. Round trip in mapping mode. Mappings with the same keys in the
    same order and string values are written with inferred headers to an
    empty in-memory text; a session over the text written, read in mapping
    mode with the default parameters, yields the same mappings and has their
    keys as headers, provided the csv reader reads back the records the csv
    writer wrote. *)
Theorem mapping_write_then_read (sw sr : tsv) (disk : gmap string string)
    (m : pydict) (ds : list pydict) (kw : write_kwargs) (d : Dialect)
    (outs : list string) :
  m <> [] -> NoDup (dict_keys m) -> forallb (plain (dict_keys m)) (m :: ds) = true ->
  text_session sw {| sio_value := EmptyString; sio_pos := 0 |} ->
  has_headers sw = false -> resolves sw d ->
  kw_asdict kw = true -> kw_overwrite kw = true ->
  csv_lines d (dict_keys m :: map (dict_values (dict_keys m)) (m :: ds)) = Some outs ->
  map ev_out (csv_records d false (str_concat outs))
  = map Fields (dict_keys m :: map (dict_values (dict_keys m)) (m :: ds)) ->
  text_session sr {| sio_value := str_concat outs; sio_pos := 0 |} ->
  file_is_exists sr = true -> resolves sr d ->
  has_headers sr = false -> headers_is_first_line sr = true ->
  headers_process_by sr = None ->
  write_all (RowsList (map WDict (m :: ds))) kw sw disk
  = (Ok (Some (str_concat outs)), Some (str_concat outs), disk)
  /\ read_all dict_mode sr disk
     = (Ok tt, map (fun x => RDict x None) (m :: ds), Some (dict_keys m)).
Proof.
  intros Hm Hnd Hpl Hsw Hhw Hdw Ha Ho Hl Hback Hsr Her Hdr Hhr Hfr Hpr.
  split.
  - rewrite (observe_text _ _ sw disk {| sio_value := EmptyString; sio_pos := 0 |} outs
               (truncated HText (with_headers (Some (dict_keys m)) (start sw disk))));
      [| apply Hsw | reflexivity |].
    + change {| sio_value := EmptyString; sio_pos := 0 |}
        with {| sio_value := EmptyString; sio_pos := String.length EmptyString |}.
      rewrite sio_writes_at_end. simpl sio_value. now rewrite str_app_nil_l.
    + apply (writelines_inferred _ m ds kw _ HText d outs); try assumption;
        try reflexivity.
      * simpl. now rewrite Ho, andb_false_r.
      * now apply (sink_text sw {| sio_value := EmptyString; sio_pos := 0 |}).
      * simpl in Hpl. apply andb_true_iff in Hpl as [_ Hpl].
        clear -Hpl. induction ds as [|x ds IH]; [reflexivity |]. simpl in *.
        apply andb_true_iff in Hpl as [Hx Hpl]. now rewrite (plain_fits _ _ Hx), IH.
  - assert (Hsrc : source sr disk = Some (HText, str_concat outs)).
    { destruct Hsr as [Ht Hf]. unfold source. now rewrite Ht, Hf. }
    destruct (csv_records d false (str_concat outs)) as [|hd rest] eqn:Hev;
      [discriminate |].
    simpl in Hback. injection Hback as Hhd Hrest.
    change (map ev_out rest = map Fields (map (dict_values (dict_keys m)) (m :: ds)))
      in Hrest.
    destruct (map_ev_out_fields rest _ Hrest) as [Hfields Hwf].
    rewrite (readlines_dict_mode_header sr disk HText (str_concat outs) d
               (dict_keys m) rest (0 + ev_lines hd)); try assumption.
    + f_equal. f_equal. unfold dict_rows. rewrite Hfields.
      assert (Hnb : forall l, List.filter nonblank
                                (map (dict_values (dict_keys m)) l)
                              = map (dict_values (dict_keys m)) l).
      { intros l. induction l as [|x l IH]; [reflexivity |]. simpl.
        rewrite IH. unfold dict_values at 1. destruct m; [congruence | reflexivity]. }
      rewrite Hnb, map_map. clear -Hpl Hnd.
      induction (m :: ds) as [|x l IH]; [reflexivity |]. simpl in *.
      apply andb_true_iff in Hpl as [Hx Hpl].
      now rewrite (dict_row_values _ x Hnd Hx), IH.
    + simpl is_file. rewrite Hev. simpl. rewrite Hhd.
      destruct m; [congruence | reflexivity].
Qed.

End RoundTrip.

(** ** The further properties on concrete input *)

Lemma read_of_missing_file_refused_witness :
  (__init__ (csv := py_csv) no_sniff (file_args "in.tsv") ∅ = Ok (new_file_tsv "in.tsv")
   /\ a_filename (file_args "in.tsv") = Some "in.tsv"%string
   /\ a_text (file_args "in.tsv") = None
   /\ (∅ : gmap string string) !! "in.tsv"%string = None)
  /\ file_is_exists (new_file_tsv "in.tsv") = false
  /\ readlines list_mode (start (new_file_tsv "in.tsv") (one_file "in.tsv" tsv_source))
     = (Raise (FileNotFoundError (Some "in.tsv"%string)),
        start (new_file_tsv "in.tsv") (one_file "in.tsv" tsv_source)).
Proof.
  pose proof (read_of_missing_file_refused (csv := py_csv) no_sniff
                (file_args "in.tsv") ∅ (new_file_tsv "in.tsv") "in.tsv"
                eq_refl eq_refl eq_refl eq_refl) as (H1 & _ & H3).
  split; [repeat split; reflexivity | split; [exact H1 |]].
  exact (H3 list_mode (one_file "in.tsv" tsv_source)).
Defined.

Lemma dialect_detection_on_text_witness :
  (dialect_truthy (a_dialect (with_dialect None (text_args tsv_source))) = false
   /\ a_filename (with_dialect None (text_args tsv_source)) = None
   /\ a_text (with_dialect None (text_args tsv_source))
      = Some (TextStr (sio_value {| sio_value := tsv_source; sio_pos := 0 |})))
  /\ __init__ (csv := py_csv) tab_sniff (with_dialect None (text_args tsv_source)) ∅
     = Ok (built (with_dialect None (text_args tsv_source))
             (Some {| sio_value := tsv_source; sio_pos := 0 |}) true
             (@DObj py_csv PyCsv.excel_tab)).
Proof.
  split; [repeat split; reflexivity |].
  exact (dialect_detection_on_text (csv := py_csv) tab_sniff
           (with_dialect None (text_args tsv_source)) ∅
           {| sio_value := tsv_source; sio_pos := 0 |}
           eq_refl eq_refl (or_introl eq_refl)).
Defined.

Lemma dialect_detection_on_file_witness :
  (dialect_truthy (a_dialect (with_dialect None (file_args "in.tsv"))) = false
   /\ a_filename (with_dialect None (file_args "in.tsv")) = Some "in.tsv"%string
   /\ a_text (with_dialect None (file_args "in.tsv")) = None)
  /\ __init__ (csv := py_csv) tab_sniff (with_dialect None (file_args "in.tsv"))
       (one_file "in.tsv" tsv_source)
     = Ok (built (with_dialect None (file_args "in.tsv")) None true
             (@DObj py_csv PyCsv.excel_tab))
  /\ __init__ (csv := py_csv) tab_sniff (with_dialect None (file_args "in.tsv")) ∅
     = Raise (FileNotFoundError (Some "in.tsv"%string)).
Proof.
  split; [repeat split; reflexivity | split].
  - exact (dialect_detection_on_file (csv := py_csv) tab_sniff
             (with_dialect None (file_args "in.tsv")) (one_file "in.tsv" tsv_source)
             "in.tsv" eq_refl eq_refl eq_refl).
  - exact (dialect_detection_on_file (csv := py_csv) tab_sniff
             (with_dialect None (file_args "in.tsv")) ∅
             "in.tsv" eq_refl eq_refl eq_refl).
Defined.

Lemma default_read_takes_the_header_line_witness :
  (file_is_exists (text_tsv padded_text) = true
   /\ source (text_tsv padded_text) ∅ = Some (HText, padded_text)
   /\ resolves (text_tsv padded_text) PyCsv.excel_tab
   /\ has_headers (text_tsv padded_text) = false
   /\ headers_is_first_line (text_tsv padded_text) = true
   /\ headers_process_by (text_tsv padded_text) = None
   /\ csv_records (CsvLib := py_csv) PyCsv.excel_tab (is_file HText) padded_text
      = [fields_event 1 []] ++ fields_event 4 ["a"; "b"]%string :: padded_rest
   /\ forallb blank [fields_event 1 []] = true
   /\ ev_out (fields_event 4 ["a"; "b"]%string) = Fields ["a"; "b"]%string
   /\ ["a"; "b"]%string <> []
   /\ forallb well_formed padded_rest = true)
  /\ read_all list_mode (text_tsv padded_text) ∅
     = (Ok tt, [RList ["1"; "2"]; RList []; RList ["3"; "4"]]%string,
        Some ["a"; "b"]%string).
Proof.
  assert (Hn : ["a"; "b"]%string <> []) by discriminate.
  split; [repeat split; try reflexivity; exact Hn |].
  exact (default_read_takes_the_header_line (csv := py_csv) (text_tsv padded_text) ∅
           HText padded_text PyCsv.excel_tab [fields_event 1 []]
           (fields_event 4 ["a"; "b"]%string) padded_rest ["a"; "b"]%string
           eq_refl eq_refl eq_refl eq_refl eq_refl eq_refl eq_refl eq_refl eq_refl
           Hn eq_refl).
Defined.

Lemma header_callback_replaces_headers_witness :
  (file_is_exists (with_header_callback rename_ab (text_tsv padded_text)) = true
   /\ source (with_header_callback rename_ab (text_tsv padded_text)) ∅
      = Some (HText, padded_text)
   /\ resolves (with_header_callback rename_ab (text_tsv padded_text)) PyCsv.excel_tab
   /\ has_headers (with_header_callback rename_ab (text_tsv padded_text)) = false
   /\ headers_is_first_line (with_header_callback rename_ab (text_tsv padded_text)) = true
   /\ headers_process_by (with_header_callback rename_ab (text_tsv padded_text))
      = Some rename_ab
   /\ csv_records (CsvLib := py_csv) PyCsv.excel_tab (is_file HText) padded_text
      = [fields_event 1 []] ++ fields_event 4 ["a"; "b"]%string :: padded_rest
   /\ forallb blank [fields_event 1 []] = true
   /\ ev_out (fields_event 4 ["a"; "b"]%string) = Fields ["a"; "b"]%string
   /\ ["a"; "b"]%string <> []
   /\ forallb well_formed padded_rest = true
   /\ rename_ab (Some ["a"; "b"]%string) = Ok (Some ["x"; "y"]%string))
  /\ read_all list_mode (with_header_callback rename_ab (text_tsv padded_text)) ∅
     = (Ok tt, [RList ["1"; "2"]; RList []; RList ["3"; "4"]]%string,
        Some ["x"; "y"]%string).
Proof.
  assert (Hn : ["a"; "b"]%string <> []) by discriminate.
  split; [repeat split; try reflexivity; exact Hn |].
  exact (proj1 (header_callback_replaces_headers (csv := py_csv)
                  (with_header_callback rename_ab (text_tsv padded_text)) ∅
                  HText padded_text PyCsv.excel_tab rename_ab [fields_event 1 []]
                  (fields_event 4 ["a"; "b"]%string) padded_rest ["a"; "b"]%string
                  eq_refl eq_refl eq_refl eq_refl eq_refl eq_refl eq_refl eq_refl
                  eq_refl Hn eq_refl)
           (Some ["x"; "y"]%string) eq_refl).
Defined.

Lemma row_callback_filters_rows_witness :
  (file_is_exists (headerless_tsv padded_text) = true
   /\ source (headerless_tsv padded_text) ∅ = Some (HText, padded_text)
   /\ resolves (headerless_tsv padded_text) PyCsv.excel_tab
   /\ has_headers (headerless_tsv padded_text)
      || negb (headers_is_first_line (headerless_tsv padded_text)) = true
   /\ headers_process_by (headerless_tsv padded_text) = None
   /\ forallb well_formed
        (csv_records (CsvLib := py_csv) PyCsv.excel_tab (is_file HText) padded_text)
      = true)
  /\ read_all {| r_asdict := false; r_process_by := Some (total_hook drop_blank) |}
       (headerless_tsv padded_text) ∅
     = (Ok tt, [RList ["a"; "b"]; RList ["1"; "2"]; RList ["3"; "4"]]%string, None).
Proof.
  split; [repeat split; reflexivity |].
  exact (row_callback_filters_rows (csv := py_csv) (headerless_tsv padded_text) ∅
           HText padded_text PyCsv.excel_tab drop_blank
           eq_refl eq_refl eq_refl eq_refl eq_refl eq_refl).
Defined.

Lemma malformed_row_ends_the_process_witness :
  (file_is_exists (headerless_tsv half_broken_text) = true
   /\ source (headerless_tsv half_broken_text) ∅ = Some (HText, half_broken_text)
   /\ resolves (headerless_tsv half_broken_text) PyCsv.excel_tab
   /\ has_headers (headerless_tsv half_broken_text)
      || negb (headers_is_first_line (headerless_tsv half_broken_text)) = true
   /\ headers_process_by (headerless_tsv half_broken_text) = None
   /\ csv_records (CsvLib := py_csv) PyCsv.excel_tab (is_file HText) half_broken_text
      = [fields_event 4 ["c"; "d"]%string]
        ++ malformed_event 4 "new-line character seen in unquoted field - do you need to open the file in universal-newline mode?" :: []
   /\ forallb well_formed [fields_event 4 ["c"; "d"]%string] = true
   /\ ev_out (malformed_event 4 "new-line character seen in unquoted field - do you need to open the file in universal-newline mode?")
      = Malformed "new-line character seen in unquoted field - do you need to open the file in universal-newline mode?")
  /\ read_all list_mode (headerless_tsv half_broken_text) ∅
     = (Exit {| em_file := None; em_line := 2;
                em_error := "new-line character seen in unquoted field - do you need to open the file in universal-newline mode?" |},
        [RList ["c"; "d"]%string], None).
Proof.
  split; [repeat split; reflexivity |].
  exact (malformed_row_ends_the_process (csv := py_csv)
           (headerless_tsv half_broken_text) ∅ HText half_broken_text PyCsv.excel_tab
           [fields_event 4 ["c"; "d"]%string]
           (malformed_event 4 "new-line character seen in unquoted field - do you need to open the file in universal-newline mode?")
           [] "new-line character seen in unquoted field - do you need to open the file in universal-newline mode?"
           eq_refl eq_refl eq_refl eq_refl eq_refl eq_refl eq_refl eq_refl).
Defined.

Lemma mapping_read_with_explicit_headers_witness :
  (file_is_exists (text_tsv_headers padded_text ["x"; "y"]%string) = true
   /\ source (text_tsv_headers padded_text ["x"; "y"]%string) ∅
      = Some (HText, padded_text)
   /\ resolves (text_tsv_headers padded_text ["x"; "y"]%string) PyCsv.excel_tab
   /\ headers (text_tsv_headers padded_text ["x"; "y"]%string) = Some ["x"; "y"]%string
   /\ ["x"; "y"]%string <> []
   /\ headers_process_by (text_tsv_headers padded_text ["x"; "y"]%string) = None
   /\ forallb well_formed
        (csv_records (CsvLib := py_csv) PyCsv.excel_tab (is_file HText) padded_text)
      = true)
  /\ read_all dict_mode (text_tsv_headers padded_text ["x"; "y"]%string) ∅
     = (Ok tt,
        [RDict [("x", Some "a"); ("y", Some "b")] None;
         RDict [("x", Some "1"); ("y", Some "2")] None;
         RDict [("x", Some "3"); ("y", Some "4")] None]%string,
        Some ["x"; "y"]%string).
Proof.
  assert (Hn : ["x"; "y"]%string <> []) by discriminate.
  split; [repeat split; try reflexivity; exact Hn |].
  exact (mapping_read_with_explicit_headers (csv := py_csv)
           (text_tsv_headers padded_text ["x"; "y"]%string) ∅ HText padded_text
           PyCsv.excel_tab ["x"; "y"]%string
           eq_refl eq_refl eq_refl eq_refl Hn eq_refl eq_refl).
Defined.

Lemma mapping_read_takes_the_header_line_witness :
  (file_is_exists (text_tsv padded_text) = true
   /\ source (text_tsv padded_text) ∅ = Some (HText, padded_text)
   /\ resolves (text_tsv padded_text) PyCsv.excel_tab
   /\ has_headers (text_tsv padded_text) = false
   /\ headers_is_first_line (text_tsv padded_text) = true
   /\ headers_process_by (text_tsv padded_text) = None
   /\ csv_records (CsvLib := py_csv) PyCsv.excel_tab (is_file HText) padded_text
      = [fields_event 1 []] ++ fields_event 4 ["a"; "b"]%string :: padded_rest
   /\ forallb blank [fields_event 1 []] = true
   /\ ev_out (fields_event 4 ["a"; "b"]%string) = Fields ["a"; "b"]%string
   /\ ["a"; "b"]%string <> []
   /\ forallb well_formed padded_rest = true)
  /\ read_all dict_mode (text_tsv padded_text) ∅
     = (Ok tt, [RDict row_ab None; RDict row_ab' None], Some ["a"; "b"]%string).
Proof.
  assert (Hn : ["a"; "b"]%string <> []) by discriminate.
  split; [repeat split; try reflexivity; exact Hn |].
  exact (mapping_read_takes_the_header_line (csv := py_csv) (text_tsv padded_text) ∅
           HText padded_text PyCsv.excel_tab [fields_event 1 []]
           (fields_event 4 ["a"; "b"]%string) padded_rest ["a"; "b"]%string
           eq_refl eq_refl eq_refl eq_refl eq_refl eq_refl eq_refl eq_refl eq_refl
           Hn eq_refl).
Defined.

Lemma mapping_read_without_headers_takes_first_record_witness :
  (file_is_exists (headerless_tsv crlf_text) = true
   /\ source (headerless_tsv crlf_text) ∅ = Some (HText, crlf_text)
   /\ resolves (headerless_tsv crlf_text) PyCsv.excel_tab
   /\ has_headers (headerless_tsv crlf_text) = false
   /\ headers_is_first_line (headerless_tsv crlf_text) = false
   /\ headers_process_by (headerless_tsv crlf_text) = None
   /\ csv_records (CsvLib := py_csv) PyCsv.excel_tab (is_file HText) crlf_text
      = fields_event 5 ["a"; "b"]%string :: [fields_event 5 ["c"; "d"]%string]
   /\ ev_out (fields_event 5 ["a"; "b"]%string) = Fields ["a"; "b"]%string
   /\ forallb well_formed [fields_event 5 ["c"; "d"]%string] = true)
  /\ read_all dict_mode (headerless_tsv crlf_text) ∅
     = (Ok tt, [RDict [("a", Some "c"); ("b", Some "d")]%string None], None).
Proof.
  split; [repeat split; reflexivity |].
  exact (mapping_read_without_headers_takes_first_record (csv := py_csv)
           (headerless_tsv crlf_text) ∅ HText crlf_text PyCsv.excel_tab
           (fields_event 5 ["a"; "b"]%string) [fields_event 5 ["c"; "d"]%string]
           ["a"; "b"]%string
           eq_refl eq_refl eq_refl eq_refl eq_refl eq_refl eq_refl eq_refl eq_refl).
Defined.

Lemma header_callback_renames_columns_witness :
  (file_is_exists (with_header_callback rename_ab (text_tsv padded_text)) = true
   /\ source (with_header_callback rename_ab (text_tsv padded_text)) ∅
      = Some (HText, padded_text)
   /\ resolves (with_header_callback rename_ab (text_tsv padded_text)) PyCsv.excel_tab
   /\ has_headers (with_header_callback rename_ab (text_tsv padded_text)) = false
   /\ headers_is_first_line (with_header_callback rename_ab (text_tsv padded_text)) = true
   /\ headers_process_by (with_header_callback rename_ab (text_tsv padded_text))
      = Some rename_ab
   /\ rename_ab (Some ["a"; "b"]%string) = Ok (Some ["x"; "y"]%string)
   /\ csv_records (CsvLib := py_csv) PyCsv.excel_tab (is_file HText) padded_text
      = [fields_event 1 []] ++ fields_event 4 ["a"; "b"]%string :: padded_rest
   /\ forallb blank [fields_event 1 []] = true
   /\ ev_out (fields_event 4 ["a"; "b"]%string) = Fields ["a"; "b"]%string
   /\ ["a"; "b"]%string <> []
   /\ forallb well_formed padded_rest = true)
  /\ read_all dict_mode (with_header_callback rename_ab (text_tsv padded_text)) ∅
     = (Ok tt,
        [RDict [("x", Some "1"); ("y", Some "2")] None;
         RDict [("x", Some "3"); ("y", Some "4")] None]%string,
        Some ["x"; "y"]%string).
Proof.
  assert (Hn : ["a"; "b"]%string <> []) by discriminate.
  split; [repeat split; try reflexivity; exact Hn |].
  exact (header_callback_renames_columns (csv := py_csv)
           (with_header_callback rename_ab (text_tsv padded_text)) ∅
           HText padded_text PyCsv.excel_tab rename_ab [fields_event 1 []]
           (fields_event 4 ["a"; "b"]%string) padded_rest
           ["a"; "b"]%string ["x"; "y"]%string
           eq_refl eq_refl eq_refl eq_refl eq_refl eq_refl eq_refl eq_refl eq_refl
           eq_refl Hn eq_refl).
Defined.

Lemma second_read_yields_the_header_line_witness :
  (file_is_exists (file_tsv "in.tsv") = true
   /\ file_session (file_tsv "in.tsv") "in.tsv"
   /\ one_file "in.tsv" padded_text !! "in.tsv"%string = Some padded_text
   /\ resolves (file_tsv "in.tsv") PyCsv.excel_tab
   /\ has_headers (file_tsv "in.tsv") = false
   /\ headers_is_first_line (file_tsv "in.tsv") = true
   /\ headers_process_by (file_tsv "in.tsv") = None
   /\ csv_records (CsvLib := py_csv) PyCsv.excel_tab true padded_text
      = [fields_event 1 []] ++ fields_event 4 ["a"; "b"]%string :: padded_rest
   /\ forallb blank [fields_event 1 []] = true
   /\ ev_out (fields_event 4 ["a"; "b"]%string) = Fields ["a"; "b"]%string
   /\ ["a"; "b"]%string <> []
   /\ forallb well_formed padded_rest = true)
  /\ read_all list_mode (file_tsv "in.tsv") (one_file "in.tsv" padded_text)
     = (Ok tt, [RList ["1"; "2"]; RList []; RList ["3"; "4"]]%string,
        Some ["a"; "b"]%string)
  /\ read_all list_mode
       (session_after_read list_mode (file_tsv "in.tsv") (one_file "in.tsv" padded_text))
       (one_file "in.tsv" padded_text)
     = (Ok tt,
        [RList []; RList ["a"; "b"]; RList ["1"; "2"]; RList []; RList ["3"; "4"]]%string,
        Some ["a"; "b"]%string)
  /\ read_all dict_mode
       (session_after_read dict_mode (file_tsv "in.tsv") (one_file "in.tsv" padded_text))
       (one_file "in.tsv" padded_text)
     = (Ok tt,
        [RDict [("a", Some "a"); ("b", Some "b")]%string None;
         RDict row_ab None; RDict row_ab' None],
        Some ["a"; "b"]%string).
Proof.
  assert (Hn : ["a"; "b"]%string <> []) by discriminate.
  pose proof (second_read_yields_the_header_line (csv := py_csv) (file_tsv "in.tsv")
                (one_file "in.tsv" padded_text) "in.tsv" padded_text PyCsv.excel_tab
                [fields_event 1 []] (fields_event 4 ["a"; "b"]%string) padded_rest
                ["a"; "b"]%string
                eq_refl (conj eq_refl eq_refl) eq_refl eq_refl eq_refl eq_refl eq_refl
                eq_refl eq_refl eq_refl Hn eq_refl)
    as ((H1 & H2) & (_ & H4)).
  split; [repeat split; try reflexivity; exact Hn |].
  split; [exact H1 | split; [exact H2 | exact H4]].
Defined.

Lemma new_file_written_without_overwrite_witness :
  (__init__ (csv := py_csv) no_sniff (file_args "out.tsv") ∅ = Ok (new_file_tsv "out.tsv")
   /\ a_filename (file_args "out.tsv") = Some "out.tsv"%string
   /\ a_text (file_args "out.tsv") = None
   /\ (∅ : gmap string string) !! "out.tsv"%string = None
   /\ kw_asdict refuse_list = false
   /\ resolves (new_file_tsv "out.tsv") PyCsv.excel_tab
   /\ csv_lines (csv := py_csv) PyCsv.excel_tab [["a"; "b"]%string]
      = Some [tab_line ["a"; "b"]%string])
  /\ write_all (RowsList (map WList [["a"; "b"]%string])) refuse_list
       (new_file_tsv "out.tsv") ∅
     = (Ok None, None, <["out.tsv"%string := str_concat [tab_line ["a"; "b"]%string]]> ∅)
  /\ write_all (RowsList (map WList [["c"; "d"]%string])) refuse_list
       (new_file_tsv "out.tsv")
       (<["out.tsv"%string := str_concat [tab_line ["a"; "b"]%string]]> ∅)
     = (Ok None, None, <["out.tsv"%string := str_concat [tab_line ["c"; "d"]%string]]> ∅).
Proof.
  pose proof (new_file_written_without_overwrite (csv := py_csv) no_sniff
                (file_args "out.tsv") ∅ (new_file_tsv "out.tsv") "out.tsv" refuse_list
                [["a"; "b"]%string] PyCsv.excel_tab [tab_line ["a"; "b"]%string]
                eq_refl eq_refl eq_refl eq_refl eq_refl eq_refl eq_refl)
    as (_ & H2 & _ & H4).
  split; [repeat split; reflexivity | split; [exact H2 |]].
  exact (H4 [["c"; "d"]%string] [tab_line ["c"; "d"]%string] eq_refl).
Defined.

Lemma in_memory_text_overwritten_in_place_witness :
  (text_session (text_tsv "0123456789") {| sio_value := "0123456789"; sio_pos := 0 |}
   /\ 0 <= String.length "0123456789"
   /\ kw_asdict overwrite_list = false /\ kw_overwrite overwrite_list = true
   /\ resolves (text_tsv "0123456789") PyCsv.excel_tab
   /\ csv_lines (csv := py_csv) PyCsv.excel_tab [["a"; "b"]%string]
      = Some [tab_line ["a"; "b"]%string])
  /\ write_all (RowsList (map WList [["a"; "b"]%string])) overwrite_list
       (text_tsv "0123456789") ∅
     = (Ok (Some (tab_line ["a"; "b"] +:+ "56789")%string),
        Some (tab_line ["a"; "b"] +:+ "56789")%string, ∅).
Proof.
  split; [repeat split; try reflexivity; apply Nat.le_0_l |].
  exact (proj1 (in_memory_text_overwritten_in_place (csv := py_csv)
                  (text_tsv "0123456789") ∅ "0123456789" 0 overwrite_list
                  [["a"; "b"]%string] PyCsv.excel_tab [tab_line ["a"; "b"]%string]
                  (conj eq_refl eq_refl) (Nat.le_0_l _) eq_refl eq_refl eq_refl eq_refl)).
Defined.

Lemma explicit_headers_mapping_write_witness :
  (kw_asdict overwrite_dict = true
   /\ headers (text_tsv_headers "" ["a"; "b"]%string) = Some ["a"; "b"]%string
   /\ has_headers (text_tsv_headers "" ["a"; "b"]%string) = true
   /\ file_is_exists (text_tsv_headers "" ["a"; "b"]%string)
      && negb (kw_overwrite overwrite_dict) = false
   /\ resolves (text_tsv_headers "" ["a"; "b"]%string) PyCsv.excel_tab)
  /\ write_all (RowsList (map WDict [row_ab; row_ab'])) overwrite_dict
       (text_tsv_headers "" ["a"; "b"]%string) ∅
     = (Ok (Some (str_concat [tab_line ["a"; "b"]; tab_line ["1"; "2"];
                              tab_line ["3"; "4"]]%string)),
        Some (str_concat [tab_line ["a"; "b"]; tab_line ["1"; "2"];
                          tab_line ["3"; "4"]]%string), ∅)
  /\ write_all (RowsList (map WDict ([row_ab] ++ row_c :: [row_ab']))) overwrite_dict
       (text_tsv_headers "" ["a"; "b"]%string) ∅
     = (Raise (ValueError "dict contains fields not in fieldnames"),
        Some (str_concat [tab_line ["a"; "b"]; tab_line ["1"; "2"]]%string), ∅).
Proof.
  pose proof (explicit_headers_mapping_write (csv := py_csv)
                (text_tsv_headers "" ["a"; "b"]%string) ∅ ["a"; "b"]%string
                overwrite_dict PyCsv.excel_tab eq_refl eq_refl eq_refl eq_refl eq_refl)
    as [HA HB].
  split; [repeat split; reflexivity | split].
  - exact (proj1 (HA [row_ab; row_ab']
                    [tab_line ["a"; "b"]; tab_line ["1"; "2"]; tab_line ["3"; "4"]]%string
                    eq_refl eq_refl)
             {| sio_value := ""; sio_pos := 0 |} (conj eq_refl eq_refl)).
  - exact (proj1 (HB [row_ab] row_c [row_ab']
                    [tab_line ["a"; "b"]; tab_line ["1"; "2"]]%string
                    eq_refl eq_refl eq_refl)
             {| sio_value := ""; sio_pos := 0 |} (conj eq_refl eq_refl)).
Defined.

Lemma header_inference_failure_writes_nothing_witness :
  (kw_asdict overwrite_dict = true
   /\ has_headers (file_tsv "out.tsv") = false
   /\ inferable (RowsList []) = false)
  /\ writelines (RowsList []) overwrite_dict
       (start (file_tsv "out.tsv") (one_file "out.tsv" "old"))
     = (Raise IndexError, start (file_tsv "out.tsv") (one_file "out.tsv" "old")).
Proof.
  split; [repeat split; reflexivity |].
  pose proof (header_inference_failure_writes_nothing (csv := py_csv)
                (file_tsv "out.tsv") (one_file "out.tsv" "old") overwrite_dict
                (RowsList []) eq_refl eq_refl eq_refl) as (_ & _ & _ & H4 & _).
  exact (H4 eq_refl).
Defined.

Lemma mappings_without_asdict_written_as_keys_witness :
  (kw_asdict overwrite_list = false
   /\ file_is_exists (text_tsv "") && negb (kw_overwrite overwrite_list) = false
   /\ resolves (text_tsv "") PyCsv.excel_tab
   /\ csv_lines (csv := py_csv) PyCsv.excel_tab (map dict_keys [row_ab; row_ab'])
      = Some [tab_line ["a"; "b"]; tab_line ["a"; "b"]]%string)
  /\ write_all (RowsList (map WDict [row_ab; row_ab'])) overwrite_list (text_tsv "") ∅
     = (Ok (Some (str_concat [tab_line ["a"; "b"]; tab_line ["a"; "b"]]%string)),
        Some (str_concat [tab_line ["a"; "b"]; tab_line ["a"; "b"]]%string), ∅).
Proof.
  split; [repeat split; reflexivity |].
  exact (proj1 (mappings_without_asdict_written_as_keys (csv := py_csv) (text_tsv "") ∅
                  [row_ab; row_ab'] overwrite_list PyCsv.excel_tab
                  [tab_line ["a"; "b"]; tab_line ["a"; "b"]]%string
                  eq_refl eq_refl eq_refl eq_refl)
           {| sio_value := ""; sio_pos := 0 |} (conj eq_refl eq_refl)).
Defined.

Lemma mapping_write_then_read_witness :
  (row_ab <> []
   /\ NoDup (dict_keys row_ab)
   /\ forallb (plain (dict_keys row_ab)) (row_ab :: [row_ab']) = true
   /\ text_session (text_tsv "") {| sio_value := ""; sio_pos := 0 |}
   /\ has_headers (text_tsv "") = false
   /\ resolves (text_tsv "") PyCsv.excel_tab
   /\ kw_asdict overwrite_dict = true /\ kw_overwrite overwrite_dict = true
   /\ csv_lines (csv := py_csv) PyCsv.excel_tab
        (dict_keys row_ab :: map (dict_values (dict_keys row_ab)) (row_ab :: [row_ab']))
      = Some written_ab
   /\ map ev_out (csv_records (CsvLib := py_csv) PyCsv.excel_tab false
                    (str_concat written_ab))
      = map Fields (dict_keys row_ab
                    :: map (dict_values (dict_keys row_ab)) (row_ab :: [row_ab']))
   /\ text_session (text_tsv (str_concat written_ab))
        {| sio_value := str_concat written_ab; sio_pos := 0 |}
   /\ file_is_exists (text_tsv (str_concat written_ab)) = true
   /\ resolves (text_tsv (str_concat written_ab)) PyCsv.excel_tab
   /\ has_headers (text_tsv (str_concat written_ab)) = false
   /\ headers_is_first_line (text_tsv (str_concat written_ab)) = true
   /\ headers_process_by (text_tsv (str_concat written_ab)) = None)
  /\ write_all (RowsList (map WDict (row_ab :: [row_ab']))) overwrite_dict (text_tsv "") ∅
     = (Ok (Some (str_concat written_ab)), Some (str_concat written_ab), ∅)
  /\ read_all dict_mode (text_tsv (str_concat written_ab)) ∅
     = (Ok tt, map (fun x => RDict x None) (row_ab :: [row_ab']),
        Some (dict_keys row_ab)).
Proof.
  assert (Hm : row_ab <> []) by discriminate.
  assert (Hnd : NoDup (dict_keys row_ab)).
  { apply (bool_decide_unpack _). vm_compute. exact I. }
  split; [repeat split; try reflexivity; assumption |].
  exact (mapping_write_then_read (csv := py_csv) (text_tsv "")
           (text_tsv (str_concat written_ab)) ∅ row_ab [row_ab'] overwrite_dict
           PyCsv.excel_tab written_ab
           Hm Hnd eq_refl (conj eq_refl eq_refl) eq_refl eq_refl eq_refl eq_refl
           eq_refl eq_refl (conj eq_refl eq_refl) eq_refl eq_refl eq_refl eq_refl
           eq_refl).
Defined.

Lemma write_with_both_sources_empties_the_file_witness :
  (text (both_tsv "out.tsv") = Some {| sio_value := ""; sio_pos := 0 |}
   /\ filename (both_tsv "out.tsv") = Some "out.tsv"%string
   /\ kw_asdict overwrite_list = false /\ kw_overwrite overwrite_list = true
   /\ resolves (both_tsv "out.tsv") PyCsv.excel_tab
   /\ csv_lines (csv := py_csv) PyCsv.excel_tab [["a"; "b"]%string]
      = Some [tab_line ["a"; "b"]%string])
  /\ write_all (RowsList (map WList [["a"; "b"]%string])) overwrite_list
       (both_tsv "out.tsv") (one_file "out.tsv" "old")
     = (Raise (RuntimeError "generator didn't stop"),
        Some (tab_line ["a"; "b"]%string),
        <["out.tsv"%string := EmptyString]> (one_file "out.tsv" "old")).
Proof.
  split; [repeat split; reflexivity |].
  exact (write_with_both_sources_empties_the_file (csv := py_csv) (both_tsv "out.tsv")
           (one_file "out.tsv" "old") {| sio_value := ""; sio_pos := 0 |} "out.tsv"
           overwrite_list [["a"; "b"]%string] PyCsv.excel_tab
           [tab_line ["a"; "b"]%string]
           eq_refl eq_refl eq_refl eq_refl eq_refl eq_refl).
Defined.
